(** * ichnaea: the submit tasks (ichnaea/service/submit/tasks.py)

    A shallow embedding of the observation aggregation code: the
    frequency/channel conversion, the per-entry cell and wifi processing with
    its station counters and score credits, the celery tasks wrapped around
    it, and the cleanup schedulers.

    Conventions of the embedding.
    - A JSON entry (a Python dict) is a record with one optional field per key
      the code reads: [None] is an absent key. Values have the type the submit
      schema gives them (integers, and strings for [radio] and [key]).
    - A function that can raise returns a [result]; [entry['k']] on an absent
      key is [Raise (KeyError "k")].
    - The SQLAlchemy session is a record of tables passed through the calls;
      [INSERT ... ON DUPLICATE KEY UPDATE] is one atomic step on a table keyed
      by the unique station key.
    - Python's [//] on integers is [Z.div] (both round towards minus
      infinity). *)

From stdpp Require Import gmap strings list fin_maps.
From Stdlib Require Import ZArith Lia.

Local Open Scope Z_scope.

(* The set solvers of stdpp clear hypotheses that may be gone already. *)
Set Warnings "-clear-no-such-hyp".

(** ** Exceptions and results *)

Inductive exn :=
  | KeyError (k : string)
  | ValueError
  | IntegrityError
  | OtherError (name : string).

Inductive result (A : Type) :=
  | Ok (a : A)
  | Raise (e : exn).
Arguments Ok {A} a.
Arguments Raise {A} e.

#[global] Instance result_ret : MRet result := λ A a, Ok a.
#[global] Instance result_bind : MBind result := λ A B f r,
  match r with
  | Ok a => f a
  | Raise e => Raise e
  end.

(** [d['k']] *)
Definition getitem {A} (k : string) (o : option A) : result A :=
  match o with
  | Some a => Ok a
  | None => Raise (KeyError k)
  end.

(** Truth value of an integer and of an optional string ([None] and [''] are
    false). *)
Definition truthy (z : Z) : bool := negb (z =? 0).

Definition truthy_str (o : option string) : bool :=
  match o with
  | Some s => negb (String.eqb s "")
  | None => false
  end.

(** ** Entries *)

Record wifi_entry := WifiEntry {
  w_id : option Z;
  w_key : option string;
  w_channel : option Z;
  w_frequency : option Z;
  w_signal : option Z;
}.

Record cell_entry := CellEntry {
  e_radio : option string;
  e_mcc : option Z;
  e_mnc : option Z;
  e_lac : option Z;
  e_cid : option Z;
  e_psc : option Z;
  e_asu : option Z;
  e_signal : option Z;
  e_ta : option Z;
}.

Definition pop_frequency (entry : wifi_entry) : wifi_entry :=
  {| w_id := w_id entry; w_key := w_key entry; w_channel := w_channel entry;
     w_frequency := None; w_signal := w_signal entry |}.

Definition set_channel (c : Z) (entry : wifi_entry) : wifi_entry :=
  {| w_id := w_id entry; w_key := w_key entry; w_channel := Some c;
     w_frequency := w_frequency entry; w_signal := w_signal entry |}.

(** ** convert_frequency

    The entry is mutated in place: the function returns the entry as it is
    left, together with the outcome ([Raise] when [entry['channel']] is
    evaluated on an entry without that key; the pop has happened by then). *)
Definition convert_frequency (entry : wifi_entry) : wifi_entry * result unit :=
  let freq := default 0 (w_frequency entry) in
  let entry := pop_frequency entry in
  if truthy freq then
    match getitem "channel" (w_channel entry) with
    | Raise e => (entry, Raise e)
    | Ok channel =>
        if negb (truthy channel) then
          if (2411 <? freq) && (freq <? 2473) then
            (set_channel ((freq - 2407) `div` 5) entry, Ok ())
          else if (5169 <? freq) && (freq <? 5826) then
            (set_channel ((freq - 5000) `div` 5) entry, Ok ())
          else (entry, Ok ())
        else (entry, Ok ())
    end
  else (entry, Ok ()).

(** ** The report, the derived rows and the tables *)

(** [measure_data]: the normalized report, a dict. *)
Record measure_data := MeasureData {
  md_id : option Z;
  md_created : option string;
  md_lat : option Z;
  md_lon : option Z;
  md_time : option string;
  md_accuracy : option Z;
  md_altitude : option Z;
  md_altitude_accuracy : option Z;
  md_radio : option Z;
}.

(** A call of the score collaborator:
    [process_score(userid, count, session, key=kind)]. *)
Record score_call := ScoreCall {
  sc_userid : Z;
  sc_count : Z;
  sc_key : string;
}.

(** Key of the [cell] table: radio, mcc, mnc, lac, cid. The radio of a
    [CellMeasure] is [None] between its construction and the assignment in
    [process_cell_measure]. *)
Definition cell_key : Type := option Z * Z * Z * Z * Z.

Section Model.

(** Pieces of the repository that the tasks import and that are taken as
    given: the timestamp codec of [ichnaea.decimaljson] and the [RADIO_TYPE]
    table of [ichnaea.models]. *)
Context {datetime : Type}.
Variable decode_datetime : string → datetime.
Variable encode_datetime : datetime → string.
Variable RADIO_TYPE : gmap string Z.

Record CellMeasure := MkCellMeasure {
  cm_measure_id : Z;
  cm_created : datetime;
  cm_lat : Z;
  cm_lon : Z;
  cm_time : datetime;
  cm_accuracy : Z;
  cm_altitude : Z;
  cm_altitude_accuracy : Z;
  cm_radio : option Z;
  cm_mcc : Z;
  cm_mnc : Z;
  cm_lac : Z;
  cm_cid : Z;
  cm_psc : Z;
  cm_asu : Z;
  cm_signal : Z;
  cm_ta : Z;
}.

Record WifiMeasure := MkWifiMeasure {
  wm_measure_id : Z;
  wm_created : datetime;
  wm_lat : Z;
  wm_lon : Z;
  wm_time : datetime;
  wm_accuracy : Z;
  wm_altitude : Z;
  wm_altitude_accuracy : Z;
  wm_id : option Z;
  wm_key : string;
  wm_channel : Z;
  wm_signal : Z;
}.

(** A row of the [measure] table; the stored JSON payloads are represented by
    the entry lists they decode to ([loads]). *)
Record Measure := MkMeasure {
  ms_id : Z;
  ms_created : datetime;
  ms_lat : Z;
  ms_lon : Z;
  ms_time : datetime;
  ms_accuracy : Z;
  ms_altitude : Z;
  ms_altitude_accuracy : Z;
  ms_radio : Z;
  ms_cell : option (list cell_entry);
  ms_wifi : option (list wifi_entry);
}.

(** A row of the [cell] or [wifi] table, without its key. *)
Record Station := MkStation {
  st_created : datetime;
  new_measures : Z;
  total_measures : Z;
}.

Record session := MkSession {
  cell : gmap cell_key Station;
  wifi : gmap string Station;
  wifi_blacklist : gset string;
  measure : list Measure;
  cell_measure : list CellMeasure;
  wifi_measure : list WifiMeasure;
  score : list score_call;
}.

Definition set_cell (f : gmap cell_key Station → gmap cell_key Station)
    (s : session) : session :=
  {| cell := f (cell s); wifi := wifi s; wifi_blacklist := wifi_blacklist s;
     measure := measure s; cell_measure := cell_measure s;
     wifi_measure := wifi_measure s; score := score s |}.

Definition set_wifi (f : gmap string Station → gmap string Station)
    (s : session) : session :=
  {| cell := cell s; wifi := f (wifi s); wifi_blacklist := wifi_blacklist s;
     measure := measure s; cell_measure := cell_measure s;
     wifi_measure := wifi_measure s; score := score s |}.

Definition set_score (f : list score_call → list score_call)
    (s : session) : session :=
  {| cell := cell s; wifi := wifi s; wifi_blacklist := wifi_blacklist s;
     measure := measure s; cell_measure := cell_measure s;
     wifi_measure := wifi_measure s; score := f (score s) |}.

(** [session.add_all(rows)] *)
Definition add_all_cell (rows : list CellMeasure) (s : session) : session :=
  {| cell := cell s; wifi := wifi s; wifi_blacklist := wifi_blacklist s;
     measure := measure s; cell_measure := cell_measure s ++ rows;
     wifi_measure := wifi_measure s; score := score s |}.

Definition add_all_wifi (rows : list WifiMeasure) (s : session) : session :=
  {| cell := cell s; wifi := wifi s; wifi_blacklist := wifi_blacklist s;
     measure := measure s; cell_measure := cell_measure s;
     wifi_measure := wifi_measure s ++ rows; score := score s |}.

(** Modelled from the spec: [process_score] of [ichnaea.service.submit.utils]
    is not part of this file; the score collaborator
    [recordNewStationCredit(userId, count, kind)] returns nothing, and a call
    is recorded in the session in call order. *)
Definition process_score (userid : Z) (count : Z) (s : session) (key : string)
    : session :=
  set_score (λ calls, calls ++ [ScoreCall userid count key]) s.

(** [INSERT INTO t (...) VALUES (created, key, 1, 1) ON DUPLICATE KEY UPDATE
    new_measures = new_measures + 1, total_measures = total_measures + 1] *)
Definition insert_on_duplicate `{Countable K} (k : K) (created : datetime)
    (t : gmap K Station) : gmap K Station :=
  match t !! k with
  | None => <[k := MkStation created 1 1]> t
  | Some row =>
      <[k := MkStation (st_created row) (new_measures row + 1)
                       (total_measures row + 1)]> t
  end.

(** ** Cell measures *)

Definition create_cell_measure (md : measure_data) (entry : cell_entry)
    : result CellMeasure :=
  measure_id ← getitem "id" (md_id md);
  let created := decode_datetime (default "" (md_created md)) in
  lat ← getitem "lat" (md_lat md);
  lon ← getitem "lon" (md_lon md);
  let time := decode_datetime (default "" (md_time md)) in
  let accuracy := default 0 (md_accuracy md) in
  let altitude := default 0 (md_altitude md) in
  let altitude_accuracy := default 0 (md_altitude_accuracy md) in
  mcc ← getitem "mcc" (e_mcc entry);
  mnc ← getitem "mnc" (e_mnc entry);
  Ok (MkCellMeasure measure_id created lat lon time accuracy altitude
        altitude_accuracy None mcc mnc
        (default 0 (e_lac entry)) (default 0 (e_cid entry))
        (default 0 (e_psc entry)) (default 0 (e_asu entry))
        (default 0 (e_signal entry)) (default 0 (e_ta entry))).

Definition set_radio (radio : Z) (c : CellMeasure) : CellMeasure :=
  MkCellMeasure (cm_measure_id c) (cm_created c) (cm_lat c) (cm_lon c)
    (cm_time c) (cm_accuracy c) (cm_altitude c) (cm_altitude_accuracy c)
    (Some radio) (cm_mcc c) (cm_mnc c) (cm_lac c) (cm_cid c) (cm_psc c)
    (cm_asu c) (cm_signal c) (cm_ta c).

Definition key_of_cell (m : CellMeasure) : cell_key :=
  (cm_radio m, cm_mcc m, cm_mnc m, cm_lac m, cm_cid m).

(** [measure.radio == -1 or measure.lac == 0 or measure.cid == 0] *)
Definition incomplete (m : CellMeasure) : bool :=
  bool_decide (cm_radio m = Some (-1)) || (cm_lac m =? 0) || (cm_cid m =? 0).

(** The statements of [update_cell_measure_count], one definition each. *)

(** [cell = query.first()] *)
Definition cell_query_first (m : CellMeasure) (s : session) : option Station :=
  cell s !! key_of_cell m.

(** [new_cell = 0; if cell is None: new_cell += 1] *)
Definition new_cell_of (found : option Station) : Z :=
  let new_cell := 0 in
  match found with
  | None => new_cell + 1
  | Some _ => new_cell
  end.

(** [session.execute(stmt)] *)
Definition cell_execute (m : CellMeasure) (s : session) : session :=
  set_cell (insert_on_duplicate (key_of_cell m) (cm_created m)) s.

(** [if userid is not None and new_cell > 0: process_score(...)] *)
Definition cell_credit (userid : option Z) (new_cell : Z) (s : session)
    : session :=
  match userid with
  | Some u => if 0 <? new_cell then process_score u new_cell s "new_cell" else s
  | None => s
  end.

Definition update_cell_measure_count (m : CellMeasure) (s : session)
    (userid : option Z) : session :=
  if incomplete m then s
  else
    let found := cell_query_first m s in
    let new_cell := new_cell_of found in
    let s := cell_execute m s in
    cell_credit userid new_cell s.

(** The radio of an entry: its own when given, else the report's. *)
Definition resolve_radio (md : measure_data) (entry : cell_entry) : result Z :=
  if truthy_str (e_radio entry) then
    r ← getitem "radio" (e_radio entry);
    Ok (default (-1) (RADIO_TYPE !! r))
  else getitem "radio" (md_radio md).

(** The loop of [process_cell_measure]. *)
Fixpoint process_cell_entries (md : measure_data) (userid : option Z)
    (entries : list cell_entry) (s : session) (cell_measures : list CellMeasure)
    : result (session * list CellMeasure) :=
  match entries with
  | [] => Ok (s, cell_measures)
  | entry :: entries =>
      c ← create_cell_measure md entry;
      radio ← resolve_radio md entry;
      let c := set_radio radio c in
      let s := update_cell_measure_count c s userid in
      process_cell_entries md userid entries s (cell_measures ++ [c])
  end.

Definition process_cell_measure (s : session) (md : measure_data)
    (entries : list cell_entry) (userid : option Z)
    : result (session * list CellMeasure) :=
  '(s, cell_measures) ← process_cell_entries md userid entries s [];
  Ok (add_all_cell cell_measures s, cell_measures).

(** ** Wifi measures *)

(** [session.execute(stmt)] of [update_wifi_measure_count] *)
Definition wifi_execute (wifi_key : string) (created : datetime) (s : session)
    : session :=
  set_wifi (insert_on_duplicate wifi_key created) s.

Definition wifi_credit (userid : option Z) (new_wifi : Z) (s : session)
    : session :=
  match userid with
  | Some u => if 0 <? new_wifi then process_score u new_wifi s "new_wifi" else s
  | None => s
  end.

(** [wifis] is the dict built by the caller and shared with it: the updated
    dict is returned next to the session. *)
Definition update_wifi_measure_count (wifi_key : string)
    (wifis : gmap string bool) (created : datetime) (s : session)
    (userid : option Z) : gmap string bool * session :=
  let new_wifi := 0 in
  let '(new_wifi, wifis) :=
    match wifis !! wifi_key with
    | None => (new_wifi + 1, <[wifi_key := true]> wifis)
    | Some _ => (new_wifi, wifis)
    end in
  let s := wifi_execute wifi_key created s in
  (wifis, wifi_credit userid new_wifi s).

Definition create_wifi_measure (md : measure_data) (created : datetime)
    (entry : wifi_entry) : result WifiMeasure :=
  measure_id ← getitem "id" (md_id md);
  lat ← getitem "lat" (md_lat md);
  lon ← getitem "lon" (md_lon md);
  let time := decode_datetime (default "" (md_time md)) in
  let accuracy := default 0 (md_accuracy md) in
  let altitude := default 0 (md_altitude md) in
  let altitude_accuracy := default 0 (md_altitude_accuracy md) in
  key ← getitem "key" (w_key entry);
  Ok (MkWifiMeasure measure_id created lat lon time accuracy altitude
        altitude_accuracy (w_id entry) key
        (default 0 (w_channel entry)) (default 0 (w_signal entry))).

(** [[e['key'] for e in entries]] *)
Fixpoint entry_keys (entries : list wifi_entry) : result (list string) :=
  match entries with
  | [] => Ok []
  | e :: entries =>
      k ← getitem "key" (w_key e);
      ks ← entry_keys entries;
      Ok (k :: ks)
  end.

(** The blacklisted keys among [wifi_keys]. *)
Definition query_blacked (s : session) (wifi_keys : gset string) : gset string :=
  wifi_blacklist s ∩ wifi_keys.

(** The known keys among [wifi_keys], as the dict [{key: True}]. *)
Definition query_wifis (s : session) (wifi_keys : gset string)
    : gmap string bool :=
  gset_to_gmap true (dom (wifi s) ∩ wifi_keys).

(** The loop of [process_wifi_measure]. *)
Fixpoint process_wifi_entries (md : measure_data) (created : datetime)
    (blacked : gset string) (userid : option Z) (entries : list wifi_entry)
    (wifis : gmap string bool) (s : session) (wifi_measures : list WifiMeasure)
    : result (session * list WifiMeasure) :=
  match entries with
  | [] => Ok (s, wifi_measures)
  | entry :: entries =>
      wifi_key ← getitem "key" (w_key entry);
      let '(entry, converted) := convert_frequency entry in
      _ ← converted;
      w ← create_wifi_measure md created entry;
      let wifi_measures := wifi_measures ++ [w] in
      let '(wifis, s) :=
        if decide (wifi_key ∉ blacked) then
          update_wifi_measure_count wifi_key wifis created s userid
        else (wifis, s) in
      process_wifi_entries md created blacked userid entries wifis s
        wifi_measures
  end.

Definition process_wifi_measure (s : session) (md : measure_data)
    (entries : list wifi_entry) (userid : option Z)
    : result (session * list WifiMeasure) :=
  keys ← entry_keys entries;
  let wifi_keys : gset string := list_to_set keys in
  let blacked := query_blacked s wifi_keys in
  let wifis := query_wifis s wifi_keys in
  let created := decode_datetime (default "" (md_created md)) in
  '(s, wifi_measures) ←
    process_wifi_entries md created blacked userid entries wifis s [];
  Ok (add_all_wifi wifi_measures s, wifi_measures).

(** ** The tasks

    A task runs on the committed database [db]. What it leaves is the
    committed database after it (the one it started from when it did not
    commit), what celery gets from it, and what it logged. [commit] is the
    storage engine's: it can refuse the pending rows. *)

Variable commit : session → result session.

Inductive task_result :=
  | Returned (n : nat)
  | Retry (exc : exn).

Definition task_run : Type := task_result * session * list string.

(** The [try: ... except IntegrityError: ... except Exception: ...] frame
    shared by the four tasks. *)
Definition task_frame (db : session) (body : result (session * nat))
    : task_run :=
  match body with
  | Ok (s, n) => (Returned n, s, [])
  | Raise IntegrityError => (Returned 0, db, ["error"])
  | Raise exc => (Retry exc, db, [])
  end.

Definition insert_cell_measure (db : session) (md : measure_data)
    (entries : list cell_entry) (userid : option Z) : task_run :=
  task_frame db (
    '(s, cell_measures) ← process_cell_measure db md entries userid;
    s ← commit s;
    Ok (s, length cell_measures)).

Definition insert_wifi_measure (db : session) (md : measure_data)
    (entries : list wifi_entry) (userid : option Z) : task_run :=
  task_frame db (
    '(s, wifi_measures) ← process_wifi_measure db md entries userid;
    s ← commit s;
    Ok (s, length wifi_measures)).

(** The [measure_data] dict rebuilt from a stored row. *)
Definition measure_data_of (m : Measure) : measure_data :=
  {| md_id := Some (ms_id m);
     md_created := Some (encode_datetime (ms_created m));
     md_lat := Some (ms_lat m);
     md_lon := Some (ms_lon m);
     md_time := Some (encode_datetime (ms_time m));
     md_accuracy := Some (ms_accuracy m);
     md_altitude := Some (ms_altitude m);
     md_altitude_accuracy := Some (ms_altitude_accuracy m);
     md_radio := Some (ms_radio m) |}.

Fixpoint reprocess_cells (userid : option Z) (measures : list Measure)
    (s : session) : result session :=
  match measures with
  | [] => Ok s
  | m :: measures =>
      '(s, _) ← process_cell_measure s (measure_data_of m)
                  (default [] (ms_cell m)) userid;
      reprocess_cells userid measures s
  end.

Definition reprocess_cell_measure (db : session) (measure_ids : list Z)
    (userid : option Z) : task_run :=
  let measures :=
    List.filter (λ m, bool_decide (ms_id m ∈ measure_ids)
                      && bool_decide (ms_cell m ≠ None)) (measure db) in
  task_frame db (
    s ← reprocess_cells userid measures db;
    s ← commit s;
    Ok (s, length measures)).

Fixpoint reprocess_wifis (userid : option Z) (measures : list Measure)
    (s : session) : result session :=
  match measures with
  | [] => Ok s
  | m :: measures =>
      '(s, _) ← process_wifi_measure s (measure_data_of m)
                  (default [] (ms_wifi m)) userid;
      reprocess_wifis userid measures s
  end.

Definition reprocess_wifi_measure (db : session) (measure_ids : list Z)
    (userid : option Z) : task_run :=
  let measures :=
    List.filter (λ m, bool_decide (ms_id m ∈ measure_ids)
                      && bool_decide (ms_wifi m ≠ None)) (measure db) in
  task_frame db (
    s ← reprocess_wifis userid measures db;
    s ← commit s;
    Ok (s, length measures)).

(** ** The cleanup schedulers *)

(** [range(start, stop, step)] *)
Definition py_range (start stop step : Z) : result (list Z) :=
  if step =? 0 then Raise ValueError
  else
    let n :=
      if 0 <? step then (stop - start + step - 1) `div` step
      else (start - stop - step - 1) `div` (- step) in
    Ok (map (λ k : nat, start + Z.of_nat k * step) (seq 0 (Z.to_nat n))).

(** An index of a slice, brought into [0 .. len]. *)
Definition slice_index (len k : Z) : Z :=
  if k <? 0 then Z.max 0 (k + len) else Z.min k len.

(** [l[i:j]] *)
Definition py_slice {A} (l : list A) (i j : Z) : list A :=
  let len := Z.of_nat (length l) in
  let i := slice_index len i in
  let j := slice_index len j in
  take (Z.to_nat (j - i)) (drop (Z.to_nat i) l).

(** [a LEFT JOIN b ON on]: every row of [a] with each of its matches in [b],
    or once with NULLs when it has none. Rows come in table order (the
    queries have no ORDER BY). *)
Definition left_join {A B} (on : A → B → bool) (a : list A) (b : list B)
    : list (A * option B) :=
  flat_map (λ x,
    match List.filter (on x) b with
    | [] => [(x, None)]
    | ys => map (λ y, (x, Some y)) ys
    end) a.

Definition is_null {A} (o : option A) : bool :=
  match o with
  | None => true
  | Some _ => false
  end.

(** The ids selected by the query of [schedule_cell_cleanup]. *)
Definition cell_cleanup_ids (db : session) (lower upper : Z) : list Z :=
  let joined :=
    left_join (λ m c, ms_id m =? cm_measure_id c) (measure db)
      (cell_measure db) in
  let rows :=
    List.filter (λ '(m, c),
      is_null (cm_measure_id <$> c) && negb (is_null (ms_cell m))
      && (lower <? ms_id m) && (ms_id m <? upper)) joined in
  map (λ '(m, _), ms_id m) rows.

Definition wifi_cleanup_ids (db : session) (lower upper : Z) : list Z :=
  let joined :=
    left_join (λ m w, ms_id m =? wm_measure_id w) (measure db)
      (wifi_measure db) in
  let rows :=
    List.filter (λ '(m, w),
      is_null (wm_measure_id <$> w) && negb (is_null (ms_wifi m))
      && (lower <? ms_id m) && (ms_id m <? upper)) joined in
  map (λ '(m, _), ms_id m) rows.

(** [for i in range(0, len(ids), batch): task.delay(ids[i:i + batch])]: the
    argument lists of the delayed tasks, in order. *)
Definition delay_chunks (ids : list Z) (batch : Z) : result (list (list Z)) :=
  idxs ← py_range 0 (Z.of_nat (length ids)) batch;
  Ok (map (λ i, py_slice ids i (i + batch)) idxs).

(** A scheduler gives the delayed [reprocess_*_measure] tasks and its return
    value. *)
Definition schedule_cell_cleanup (db : session) (lower upper batch : Z)
    : result (list (list Z) * nat) :=
  let ids := cell_cleanup_ids db lower upper in
  delayed ← delay_chunks ids batch;
  Ok (delayed, length ids).

Definition schedule_wifi_cleanup (db : session) (lower upper batch : Z)
    : result (list (list Z) * nat) :=
  let ids := wifi_cleanup_ids db lower upper in
  delayed ← delay_chunks ids batch;
  Ok (delayed, length ids).

(** ** Concurrent callers of the station update

    Workers share nothing but the store. A caller of
    [update_cell_measure_count] is at one of its statements; a schedule names
    the caller that runs its next statement on the shared store. *)

Inductive cell_pc :=
  | AtQuery
  | AtExecute (new_cell : Z)
  | AtCredit (new_cell : Z)
  | Finished (new_cell : Z).

Record cell_caller := MkCellCaller {
  cc_measure : CellMeasure;
  cc_userid : option Z;
  cc_pc : cell_pc;
}.

Definition at_pc (c : cell_caller) (pc : cell_pc) : cell_caller :=
  MkCellCaller (cc_measure c) (cc_userid c) pc.

Definition cell_caller_step (c : cell_caller) (s : session)
    : cell_caller * session :=
  match cc_pc c with
  | AtQuery =>
      if incomplete (cc_measure c) then (at_pc c (Finished 0), s)
      else
        (at_pc c (AtExecute (new_cell_of (cell_query_first (cc_measure c) s))),
         s)
  | AtExecute new_cell =>
      (at_pc c (AtCredit new_cell), cell_execute (cc_measure c) s)
  | AtCredit new_cell =>
      (at_pc c (Finished new_cell), cell_credit (cc_userid c) new_cell s)
  | Finished _ => (c, s)
  end.

Fixpoint run_cell_callers (schedule : list nat) (cs : list cell_caller)
    (s : session) : list cell_caller * session :=
  match schedule with
  | [] => (cs, s)
  | i :: schedule =>
      match cs !! i with
      | Some c =>
          let '(c, s) := cell_caller_step c s in
          run_cell_callers schedule (<[i := c]> cs) s
      | None => run_cell_callers schedule cs s
      end
  end.

Definition finished (c : cell_caller) : bool :=
  match cc_pc c with
  | Finished _ => true
  | _ => false
  end.

(** The caller took the station for a new one. *)
Definition reported_new (c : cell_caller) : bool :=
  match cc_pc c with
  | Finished new_cell => 0 <? new_cell
  | _ => false
  end.

(** A caller of the wifi path: a [process_wifi_measure] with one entry for
    [wc_key], at its prefetch of the known keys or at the station update. *)
Inductive wifi_pc :=
  | AtPrefetch
  | AtUpdate (wifis : gmap string bool)
  | WifiFinished (new_wifi : bool).

Record wifi_caller := MkWifiCaller {
  wc_key : string;
  wc_created : datetime;
  wc_userid : option Z;
  wc_pc : wifi_pc;
}.

Definition wifi_caller_step (c : wifi_caller) (s : session)
    : wifi_caller * session :=
  match wc_pc c with
  | AtPrefetch =>
      (MkWifiCaller (wc_key c) (wc_created c) (wc_userid c)
         (AtUpdate (query_wifis s {[wc_key c]})), s)
  | AtUpdate wifis =>
      let '(_, s) :=
        update_wifi_measure_count (wc_key c) wifis (wc_created c) s
          (wc_userid c) in
      (MkWifiCaller (wc_key c) (wc_created c) (wc_userid c)
         (WifiFinished (is_null (wifis !! wc_key c))), s)
  | WifiFinished _ => (c, s)
  end.

Fixpoint run_wifi_callers (schedule : list nat) (cs : list wifi_caller)
    (s : session) : list wifi_caller * session :=
  match schedule with
  | [] => (cs, s)
  | i :: schedule =>
      match cs !! i with
      | Some c =>
          let '(c, s) := wifi_caller_step c s in
          run_wifi_callers schedule (<[i := c]> cs) s
      | None => run_wifi_callers schedule cs s
      end
  end.

End Model.

(** ** Well-formed inputs and observations used in the statements *)

#[global] Instance result_fmap : FMap result := λ A B f r,
  match r with
  | Ok a => Ok (f a)
  | Raise e => Raise e
  end.

(** The report carries the keys that are read with [measure_data['k']] for
    every entry. *)
Definition report_ok (md : measure_data) : bool :=
  negb (is_null (md_id md)) && negb (is_null (md_lat md))
  && negb (is_null (md_lon md)).

(** A cell entry with its required keys; its radio can be resolved. *)
Definition cell_entry_ok (md : measure_data) (e : cell_entry) : bool :=
  negb (is_null (e_mcc e)) && negb (is_null (e_mnc e))
  && (truthy_str (e_radio e) || negb (is_null (md_radio md))).

(** A wifi entry with its key, and with a channel when it gives a
    frequency. *)
Definition wifi_entry_ok (e : wifi_entry) : bool :=
  negb (is_null (w_key e))
  && (negb (is_null (w_channel e)) || negb (truthy (default 0 (w_frequency e)))).

(** The example entry [{mcc: 1, mnc: 1, lac: 5, cid: 9, radio: "gsm"}]. *)
Definition gsm_entry : cell_entry :=
  CellEntry (Some "gsm") (Some 1) (Some 1) (Some 5) (Some 9)
    None None None None.

(** Instances of the imported pieces for the examples: timestamps kept as
    their text, a radio table, a storage engine that accepts every commit and
    one that refuses every commit as a conflict. *)
Definition text_datetime (t : string) : string := t.

Definition example_radio_type : gmap string Z :=
  {[ "gsm" := 0; "cdma" := 1; "umts" := 2; "lte" := 3 ]}.

Definition commit_accepts {datetime} (s : @session datetime)
    : result (@session datetime) := Ok s.

Definition commit_conflicts {datetime} (s : @session datetime)
    : result (@session datetime) := Raise IntegrityError.

Definition empty_session : @session string :=
  MkSession ∅ ∅ ∅ [] [] [] [].

Definition example_report : measure_data :=
  MeasureData (Some 7) (Some "2013-10-01") (Some 123) (Some 456) None None
    None None (Some 0).

(** What the processing of an entry decides on: the entry as
    [update_cell_measure_count] sees it is incomplete. *)
Definition entry_incomplete (RADIO_TYPE : gmap string Z) (md : measure_data)
    (e : cell_entry) : bool :=
  match resolve_radio RADIO_TYPE md e with
  | Ok radio =>
      (radio =? -1) || (default 0 (e_lac e) =? 0) || (default 0 (e_cid e) =? 0)
  | Raise _ => false
  end.

(** A session with its score calls left out, and the same on the result of a
    processing function. *)
Definition without_score {datetime} (s : @session datetime) : @session datetime :=
  set_score (λ _, []) s.

Definition forget_score {datetime A} (r : @session datetime * A)
    : @session datetime * A :=
  (without_score r.1, r.2).

(** The row that [insert_on_duplicate] leaves at its key, the row after [n]
    such statements, and the score calls of [n] new wifi stations. *)
Definition upsert_row {datetime} (created : datetime)
    (row : option (@Station datetime)) : @Station datetime :=
  match row with
  | None => MkStation created 1 1
  | Some r =>
      MkStation (st_created r) (new_measures r + 1) (total_measures r + 1)
  end.

Definition observed {datetime} (created : datetime) (n : nat)
    (row : option (@Station datetime)) : option (@Station datetime) :=
  Nat.iter n (λ o, Some (upsert_row created o)) row.

Definition new_wifi_credits (userid : option Z) (n : nat) : list score_call :=
  match userid with
  | Some u => replicate n (ScoreCall u 1 "new_wifi")
  | None => []
  end.

(** The keys of the entries that have one, and the number of entries with the
    key [k]. *)
Definition keys_of (entries : list wifi_entry) : list string :=
  omap w_key entries.

Definition count_key (k : string) (entries : list wifi_entry) : nat :=
  length (List.filter (λ e, bool_decide (w_key e = Some k)) entries).

(** The body of a task ([processing], then the commit) raises [e]. *)
Definition raises {datetime}
    (commit : @session datetime → result (@session datetime))
    (processing : result (@session datetime * nat)) (e : exn) : Prop :=
  processing = Raise e
  ∨ ∃ s n, processing = Ok (s, n) ∧ commit s = Raise e.

(** What a task run on [db] does with the exceptions of its body: a conflict
    is logged and the task returns 0, anything else is handed to retry;
    nothing is committed in either case. *)
Definition conflict_logged_else_retried {datetime}
    (commit : @session datetime → result (@session datetime))
    (db : @session datetime) (processing : result (@session datetime * nat))
    (run : @task_run datetime) : Prop :=
  (raises commit processing IntegrityError → run = (Returned 0, db, ["error"]))
  ∧ (∀ e, e ≠ IntegrityError → raises commit processing e →
          run = (Retry e, db, []))
  ∧ (∀ s n s', processing = Ok (s, n) → commit s = Ok s' →
               run = (Returned n, s', [])).

(** The rows of the [measure] table that a task given [measure_ids] loads. *)
Definition measures_with {datetime A} (payload : @Measure datetime → option A)
    (db : @session datetime) (measure_ids : list Z) : list (@Measure datetime) :=
  List.filter (λ m, bool_decide (ms_id m ∈ measure_ids)
                    && bool_decide (payload m ≠ None)) (measure db).

(** The total counter of a registry row (0 when there is none), the callers
    whose [session.execute] has run, and the callers that took the station
    for a new one. *)
Definition total_of {datetime} (row : option (@Station datetime)) : Z :=
  from_option total_measures 0 row.

Definition executed {datetime} (c : @cell_caller datetime) : bool :=
  match cc_pc c with
  | AtCredit _ | Finished _ => true
  | _ => false
  end.

Definition executed_count {datetime} (cs : list (@cell_caller datetime)) : Z :=
  Z.of_nat (length (List.filter executed cs)).

Definition new_reports {datetime} (cs : list (@cell_caller datetime)) : nat :=
  length (List.filter reported_new cs).

(** [n] callers about to run [update_cell_measure_count(m, session, userid)]. *)
Definition callers_of {datetime} (m : @CellMeasure datetime)
    (userid : option Z) (n : nat) : list (@cell_caller datetime) :=
  replicate n (MkCellCaller m userid AtQuery).

(** Example inputs. *)
Definition cell_without_lac : cell_entry :=
  CellEntry (Some "gsm") (Some 1) (Some 1) None (Some 9) None None None None.

Definition cell_without_mcc : cell_entry :=
  CellEntry (Some "gsm") None (Some 1) (Some 5) (Some 9) None None None None.

Definition wifi_ab : wifi_entry :=
  WifiEntry None (Some "ab") (Some 0) (Some 2437) None.

Definition wifi_cd : wifi_entry :=
  WifiEntry None (Some "cd") (Some 11) None None.

Definition wifi_without_key : wifi_entry :=
  WifiEntry None None (Some 1) None None.

(** A store where the key "ab" is blacklisted. *)
Definition session_ab_blacklisted : @session string :=
  MkSession ∅ ∅ {[ "ab" ]} [] [] [] [].

(** A store with the raw rows 5 and 6, both with a cell and a wifi payload
    and without derived rows. *)
Definition raw_row (id : Z) : @Measure string :=
  MkMeasure id "2013-10-01" 123 456 "2013-10-01" 0 0 0 0
    (Some [gsm_entry]) (Some [wifi_ab]).

Definition session_unlinked : @session string :=
  MkSession ∅ ∅ ∅ [raw_row 5; raw_row 6] [] [] [].

Definition gsm_measure : @CellMeasure string :=
  MkCellMeasure 7 "2013-10-01" 123 456 "" 0 0 0 (Some 0) 1 1 5 9 0 0 0 0.

(** The score calls of [n] new cell stations. *)
Definition new_cell_credits (userid : option Z) (n : nat) : list score_call :=
  match userid with
  | Some u => replicate n (ScoreCall u 1 "new_cell")
  | None => []
  end.

(** The registry key under which a cell entry is counted: none when the
    entry is incomplete or its radio cannot be resolved. *)
Definition counted_key (RADIO_TYPE : gmap string Z) (md : measure_data)
    (e : cell_entry) : option cell_key :=
  match resolve_radio RADIO_TYPE md e with
  | Ok radio =>
      if entry_incomplete RADIO_TYPE md e then None
      else Some (Some radio, default 0 (e_mcc e), default 0 (e_mnc e),
                 default 0 (e_lac e), default 0 (e_cid e))
  | Raise _ => None
  end.

Definition counted_keys (RADIO_TYPE : gmap string Z) (md : measure_data)
    (entries : list cell_entry) : list cell_key :=
  omap (counted_key RADIO_TYPE md) entries.

(** The number of times [k] is in [l]. *)
Definition occurrences `{EqDecision K} (k : K) (l : list K) : nat :=
  length (List.filter (λ x, bool_decide (x = k)) l).

(** A registry grows: every row of [t] is still in [t'], created at the same
    time, with counters that are not smaller. *)
Definition registry_le `{Countable K} {datetime}
    (t t' : gmap K (@Station datetime)) : Prop :=
  ∀ k r, t !! k = Some r →
    ∃ r', t' !! k = Some r'
          ∧ st_created r' = st_created r
          ∧ new_measures r ≤ new_measures r'
          ∧ total_measures r ≤ total_measures r'.

(** The derived row of one entry, as the loops build it: none when building
    it raises. *)
Definition cell_row {datetime} (decode_datetime : string → datetime)
    (RADIO_TYPE : gmap string Z) (md : measure_data) (e : cell_entry)
    : option (@CellMeasure datetime) :=
  match create_cell_measure decode_datetime md e, resolve_radio RADIO_TYPE md e
  with
  | Ok c, Ok radio => Some (set_radio radio c)
  | _, _ => None
  end.

Definition wifi_row {datetime} (decode_datetime : string → datetime)
    (md : measure_data) (e : wifi_entry) : option (@WifiMeasure datetime) :=
  match
    (convert_frequency e).2,
    create_wifi_measure decode_datetime md
      (decode_datetime (default "" (md_created md))) (convert_frequency e).1
  with
  | Ok _, Ok w => Some w
  | _, _ => None
  end.

(** A store with one raw row, 5, whose cell payload is the empty list. *)
Definition session_empty_payload : @session string :=
  MkSession ∅ ∅ ∅
    [MkMeasure 5 "2013-10-01" 123 456 "2013-10-01" 0 0 0 0 (Some []) None]
    [] [] [].

(** While the station has no row, every caller is before its query or has
    seen no row; once it has one, a caller that saw none has executed. *)
Definition first_sighting_kept {datetime} (key : cell_key)
    (cs : list (@cell_caller datetime)) (s : @session datetime) : Prop :=
  (cell s !! key = None
   ∧ Forall (λ c, cc_pc c = AtQuery ∨ cc_pc c = AtExecute 1) cs)
  ∨ Exists (λ c, cc_pc c = AtCredit 1 ∨ cc_pc c = Finished 1) cs.

(** The derived row of a cell entry, field by field: the report's id,
    position, times and accuracies, the radio of the entry when it names one
    (-1 when [RADIO_TYPE] does not have it) and else the report's, the mcc
    and mnc of the entry, and its other fields, 0 when absent. *)
Definition cell_row_of {datetime} (decode_datetime : string → datetime)
    (RADIO_TYPE : gmap string Z) (md : measure_data) (e : cell_entry)
    (row : @CellMeasure datetime) : Prop :=
  md_id md = Some (cm_measure_id row)
  ∧ cm_created row = decode_datetime (default "" (md_created md))
  ∧ md_lat md = Some (cm_lat row)
  ∧ md_lon md = Some (cm_lon row)
  ∧ cm_time row = decode_datetime (default "" (md_time md))
  ∧ cm_accuracy row = default 0 (md_accuracy md)
  ∧ cm_altitude row = default 0 (md_altitude md)
  ∧ cm_altitude_accuracy row = default 0 (md_altitude_accuracy md)
  ∧ cm_radio row
    = (if truthy_str (e_radio e)
       then Some (default (-1) (RADIO_TYPE !! default "" (e_radio e)))
       else md_radio md)
  ∧ is_null (cm_radio row) = false
  ∧ e_mcc e = Some (cm_mcc row)
  ∧ e_mnc e = Some (cm_mnc row)
  ∧ cm_lac row = default 0 (e_lac e)
  ∧ cm_cid row = default 0 (e_cid e)
  ∧ cm_psc row = default 0 (e_psc e)
  ∧ cm_asu row = default 0 (e_asu e)
  ∧ cm_signal row = default 0 (e_signal e)
  ∧ cm_ta row = default 0 (e_ta e).

(** The derived row of a wifi entry, field by field: the report's id,
    position, times and accuracies, the id and key of the entry, the channel
    that the conversion leaves on it and its signal, 0 when absent. *)
Definition wifi_row_of {datetime} (decode_datetime : string → datetime)
    (md : measure_data) (e : wifi_entry) (row : @WifiMeasure datetime)
    : Prop :=
  md_id md = Some (wm_measure_id row)
  ∧ wm_created row = decode_datetime (default "" (md_created md))
  ∧ md_lat md = Some (wm_lat row)
  ∧ md_lon md = Some (wm_lon row)
  ∧ wm_time row = decode_datetime (default "" (md_time md))
  ∧ wm_accuracy row = default 0 (md_accuracy md)
  ∧ wm_altitude row = default 0 (md_altitude md)
  ∧ wm_altitude_accuracy row = default 0 (md_altitude_accuracy md)
  ∧ wm_id row = w_id e
  ∧ w_key e = Some (wm_key row)
  ∧ wm_channel row = default 0 (w_channel (convert_frequency e).1)
  ∧ wm_signal row = default 0 (w_signal e).

(** An incomplete cell entry (no lac) that also lacks its mcc. *)
Definition cell_without_mcc_lac : cell_entry :=
  CellEntry (Some "gsm") None (Some 1) None (Some 9) None None None None.

(** ** The frequency/channel conversion *)

Lemma convert_frequency_pops (entry : wifi_entry) :
  w_frequency (convert_frequency entry).1 = None.
Proof.
  unfold convert_frequency.
  destruct (truthy _); [|done].
  destruct (w_channel entry) as [c|] eqn:Hc; simpl; rewrite ?Hc; simpl; [|done].
  repeat (case_match; simpl; try done).
Qed.

Lemma convert_frequency_with_channel (entry : wifi_entry) :
  negb (is_null (w_channel entry))
  || negb (truthy (default 0 (w_frequency entry))) = true →
  (convert_frequency entry).2 = Ok ().
Proof.
  intros Hc. unfold convert_frequency.
  destruct (truthy (default 0 (w_frequency entry))); [|done].
  destruct (w_channel entry) as [c|] eqn:Heq; [|done].
  simpl. rewrite Heq. simpl.
  repeat (case_match; simpl; try done).
Qed.

Lemma convert_frequency_key (entry : wifi_entry) :
  w_key (convert_frequency entry).1 = w_key entry.
Proof.
  unfold convert_frequency.
  destruct (truthy _); [|done].
  destruct (w_channel entry) as [c|] eqn:Hc; simpl; rewrite ?Hc; simpl; [|done].
  repeat (case_match; simpl; try done).
Qed.

(** C3: on an entry with a frequency and no [channel] key the conversion
    raises [KeyError('channel')]; the frequency has been popped by then. *)
Theorem convert_frequency_without_channel_raises :
  convert_frequency (WifiEntry None (Some "ab") None (Some 2437) None)
  = (WifiEntry None (Some "ab") None None None, Raise (KeyError "channel")).
Proof. reflexivity. Qed.

(** ** Cell processing *)

Section CellProperties.

Context {datetime : Type}.
Variable decode_datetime : string → datetime.
Variable RADIO_TYPE : gmap string Z.

Local Abbreviation create := (create_cell_measure decode_datetime).
Local Abbreviation resolve := (resolve_radio RADIO_TYPE).
Local Abbreviation loop := (process_cell_entries decode_datetime RADIO_TYPE).
Local Abbreviation process := (process_cell_measure decode_datetime RADIO_TYPE).
Local Abbreviation session := (@session datetime).

Lemma create_cell_measure_ok (md : measure_data) (e : cell_entry) :
  report_ok md = true → cell_entry_ok md e = true →
  ∃ c, create md e = Ok c
       ∧ cm_lac c = default 0 (e_lac e) ∧ cm_cid c = default 0 (e_cid e)
       ∧ cm_mcc c = default 0 (e_mcc e) ∧ cm_mnc c = default 0 (e_mnc e)
       ∧ cm_created c = decode_datetime (default "" (md_created md)).
Proof.
  unfold report_ok, cell_entry_ok, create_cell_measure.
  destruct (md_id md), (md_lat md), (md_lon md), (e_mcc e), (e_mnc e);
    simpl; try done.
  intros _ _. eexists. split; [done|]. done.
Qed.

Lemma resolve_radio_ok (md : measure_data) (e : cell_entry) :
  cell_entry_ok md e = true → ∃ radio, resolve md e = Ok radio.
Proof.
  unfold cell_entry_ok, resolve_radio.
  destruct (truthy_str (e_radio e)) eqn:Ht.
  - destruct (e_radio e); [|done]. intros _. simpl. eauto.
  - destruct (md_radio md); simpl; [eauto|].
    rewrite andb_false_r. done.
Qed.

Lemma incomplete_set_radio (radio : Z) (c : @CellMeasure datetime) :
  incomplete (set_radio radio c)
  = (radio =? -1) || (cm_lac c =? 0) || (cm_cid c =? 0).
Proof.
  unfold incomplete. simpl. f_equal. f_equal.
  destruct (Z.eqb_spec radio (-1)) as [->|Hne].
  - by apply bool_decide_eq_true.
  - apply bool_decide_eq_false. congruence.
Qed.

Lemma update_cell_incomplete (m : CellMeasure) (s : session)
    (userid : option Z) :
  incomplete m = true → update_cell_measure_count m s userid = s.
Proof. intros H. unfold update_cell_measure_count. by rewrite H. Qed.

Lemma update_cell_keeps_rows (m : CellMeasure) (s : session)
    (userid : option Z) :
  let s' := update_cell_measure_count m s userid in
  cell_measure s' = cell_measure s ∧ wifi_measure s' = wifi_measure s
  ∧ measure s' = measure s ∧ wifi s' = wifi s
  ∧ wifi_blacklist s' = wifi_blacklist s.
Proof.
  unfold update_cell_measure_count, cell_credit, process_score.
  destruct (incomplete m); [done|].
  destruct userid; [|done]. by case_match.
Qed.

(** The loop on well-formed entries: one row per entry, and the session it
    leaves is the one the complete entries alone leave. *)
Lemma process_cell_entries_ok (md : measure_data) (userid : option Z)
    (entries : list cell_entry) :
  report_ok md = true →
  forallb (cell_entry_ok md) entries = true →
  ∀ (s : session) (acc acc' : list CellMeasure),
  ∃ s' rows rows',
    loop md userid entries s acc = Ok (s', acc ++ rows)
    ∧ length rows = length entries
    ∧ loop md userid
        (List.filter (λ e, negb (entry_incomplete RADIO_TYPE md e)) entries)
        s acc' = Ok (s', acc' ++ rows')
    ∧ cell_measure s' = cell_measure s.
Proof.
  intros Hmd. induction entries as [|e entries IH]; intros Hok s acc acc'.
  - exists s, [], []. simpl. by rewrite !app_nil_r.
  - simpl in Hok. apply andb_true_iff in Hok as [He Hok].
    destruct (create_cell_measure_ok md e Hmd He)
      as (c & Hc & Hlac & Hcid & _).
    destruct (resolve_radio_ok md e He) as (radio & Hr).
    cbn [process_cell_entries List.filter]. rewrite Hc, Hr. simpl.
    unfold entry_incomplete at 1. rewrite Hr, <- Hlac, <- Hcid.
    rewrite <- incomplete_set_radio.
    destruct (incomplete (set_radio radio c)) eqn:Hinc; simpl.
    + rewrite update_cell_incomplete by done.
      destruct (IH Hok s (acc ++ [set_radio radio c]) acc')
        as (s' & rows & rows' & H1 & H2 & H3 & H4).
      exists s', (set_radio radio c :: rows), rows'.
      rewrite H1, H3. rewrite <- app_assoc. simpl. by rewrite H2.
    + rewrite Hc, Hr. simpl.
      destruct (IH Hok (update_cell_measure_count (set_radio radio c) s userid)
                  (acc ++ [set_radio radio c]) (acc' ++ [set_radio radio c]))
        as (s' & rows & rows' & H1 & H2 & H3 & H4).
      exists s', (set_radio radio c :: rows), (set_radio radio c :: rows').
      rewrite H1, H3, H4. rewrite <- !app_assoc. simpl. rewrite H2.
      split_and!; try done.
      apply update_cell_keeps_rows.
Qed.

Lemma filter_all_incomplete (md : measure_data) (entries : list cell_entry) :
  forallb (entry_incomplete RADIO_TYPE md) entries = true →
  List.filter (λ e, negb (entry_incomplete RADIO_TYPE md e)) entries = [].
Proof.
  induction entries as [|e entries IH]; simpl; [done|].
  intros [He Hrest]%andb_true_iff. rewrite He. simpl. auto.
Qed.

(** Every exception of the loop is a [KeyError]. *)
Lemma process_cell_entries_raises (md : measure_data) (userid : option Z)
    (entries : list cell_entry) (s : session) (acc : list CellMeasure)
    (e : exn) :
  loop md userid entries s acc = Raise e → ∃ k, e = KeyError k.
Proof.
  revert s acc. induction entries as [|x entries IH]; intros s acc; [done|].
  cbn [process_cell_entries].
  destruct (create md x) as [c|e1] eqn:Hc; simpl.
  - destruct (resolve md x) as [radio|e2] eqn:Hr; simpl.
    + apply IH.
    + intros [= <-]. unfold resolve_radio in Hr.
      destruct (truthy_str (e_radio x)).
      * destruct (e_radio x); simpl in Hr; simplify_eq; eauto.
      * destruct (md_radio md); simpl in Hr; simplify_eq; eauto.
  - intros [= <-]. unfold create_cell_measure in Hc.
    destruct (md_id md), (md_lat md), (md_lon md), (e_mcc x), (e_mnc x);
      simpl in Hc; simplify_eq; eauto.
Qed.

(** An entry without [mcc] or [mnc] makes the loop raise. *)
Lemma process_cell_entries_missing (md : measure_data) (userid : option Z)
    (entries : list cell_entry) :
  forallb (λ e, negb (is_null (e_mcc e)) && negb (is_null (e_mnc e))) entries
  = false →
  ∀ (s : session) (acc : list CellMeasure),
  ∃ k, loop md userid entries s acc = Raise (KeyError k).
Proof.
  induction entries as [|x entries IH]; [done|]. simpl.
  intros Hbad s acc.
  destruct (create md x) as [c|e1] eqn:Hc; simpl.
  - destruct (resolve md x) as [radio|e2] eqn:Hr; simpl.
    + apply IH. unfold create_cell_measure in Hc.
      destruct (md_id md), (md_lat md), (md_lon md), (e_mcc x), (e_mnc x);
        simpl in Hc; simplify_eq. done.
    + destruct (process_cell_entries_raises md userid [x] s acc e2) as [k ->];
        [|eauto].
      cbn [process_cell_entries]. by rewrite Hc, Hr.
  - destruct (process_cell_entries_raises md userid [x] s acc e1) as [k ->];
      [|eauto].
    cbn [process_cell_entries]. by rewrite Hc.
Qed.

Lemma process_cell_measure_missing (s : session) (md : measure_data)
    (entries : list cell_entry) (userid : option Z) :
  forallb (λ e, negb (is_null (e_mcc e)) && negb (is_null (e_mnc e))) entries
  = false →
  ∃ k, process s md entries userid = Raise (KeyError k).
Proof.
  intros Hbad. unfold process_cell_measure.
  destruct (process_cell_entries_missing md userid entries Hbad s [])
    as [k ->].
  eauto.
Qed.

Lemma process_cell_measure_ok (s : session) (md : measure_data)
    (entries : list cell_entry) (userid : option Z) :
  report_ok md = true →
  forallb (cell_entry_ok md) entries = true →
  ∃ s' rows,
    process s md entries userid = Ok (s', rows)
    ∧ length rows = length entries
    ∧ cell_measure s' = cell_measure s ++ rows.
Proof.
  intros Hmd Hok.
  destruct (process_cell_entries_ok md userid entries Hmd Hok s [] [])
    as (s1 & rows & rows' & H1 & H2 & H3 & H4).
  unfold process_cell_measure. rewrite H1. simpl.
  eexists _, _. split_and!; try done. simpl. by rewrite H4.
Qed.

(** Without a user id the station update is the same up to the score calls,
    of which there are none. *)
Lemma update_cell_without_userid (m : CellMeasure) (s1 s2 : session) (u : Z) :
  without_score s1 = without_score s2 →
  without_score (update_cell_measure_count m s1 None)
  = without_score (update_cell_measure_count m s2 (Some u))
  ∧ score (update_cell_measure_count m s1 None) = score s1.
Proof.
  intros Heq. destruct s1, s2. unfold without_score, set_score in Heq.
  simpl in Heq. injection Heq as -> -> -> -> -> ->.
  unfold update_cell_measure_count, cell_credit, process_score,
    cell_query_first, cell_execute, without_score, set_score, set_cell.
  simpl. destruct (incomplete m); [done|]. simpl.
  by case_match.
Qed.

Lemma process_cell_entries_without_userid (md : measure_data)
    (entries : list cell_entry) (u : Z) :
  ∀ (s1 s2 : session) (acc : list CellMeasure),
  without_score s1 = without_score s2 →
  forget_score <$> loop md None entries s1 acc
  = forget_score <$> loop md (Some u) entries s2 acc
  ∧ (λ r, score r.1) <$> loop md None entries s1 acc
    = (λ _, score s1) <$> loop md None entries s1 acc.
Proof.
  induction entries as [|x entries IH]; intros s1 s2 acc Heq.
  - simpl. unfold forget_score. simpl. by rewrite Heq.
  - cbn [process_cell_entries].
    destruct (create md x) as [c|e1]; simpl; [|done].
    destruct (resolve md x) as [radio|e2]; simpl; [|done].
    destruct (update_cell_without_userid (set_radio radio c) s1 s2 u Heq)
      as [Hw Hs].
    destruct (IH _ _ (acc ++ [set_radio radio c]) Hw) as [IH1 IH2].
    split; [done|]. by rewrite IH2, Hs.
Qed.

Lemma process_cell_measure_without_userid (s : session) (md : measure_data)
    (entries : list cell_entry) (u : Z) :
  forget_score <$> process s md entries None
  = forget_score <$> process s md entries (Some u)
  ∧ (λ r, score r.1) <$> process s md entries None
    = (λ _, score s) <$> process s md entries None.
Proof.
  destruct (process_cell_entries_without_userid md entries u s s [] eq_refl)
    as [H1 H2].
  unfold process_cell_measure.
  destruct (loop md None entries s []) as [[s1 rows1]|e1],
    (loop md (Some u) entries s []) as [[s2 rows2]|e2];
    simpl in *; try done.
  assert (without_score s1 = without_score s2 ∧ rows1 = rows2) as [Hw ->]
    by (unfold forget_score in H1; simpl in H1; split; congruence).
  assert (score s1 = score s) as Hs by congruence.
  split; [|by rewrite Hs]. unfold forget_score. simpl. do 2 f_equal.
  destruct s1, s2. unfold without_score, set_score, add_all_cell in *.
  simpl in *. injection Hw as -> -> -> -> -> ->. done.
Qed.

Lemma update_cell_new (m : CellMeasure) (s : session) (u : Z) :
  incomplete m = false →
  cell s !! key_of_cell m = None →
  update_cell_measure_count m s (Some u)
  = process_score u 1
      (set_cell <[key_of_cell m := MkStation (cm_created m) 1 1]> s)
      "new_cell".
Proof.
  intros Hinc Hnew.
  unfold update_cell_measure_count, cell_query_first, cell_execute,
    cell_credit.
  rewrite Hinc, Hnew. simpl.
  unfold set_cell, insert_on_duplicate. by rewrite Hnew.
Qed.

Lemma incomplete_gsm (radio : Z) (c : @CellMeasure datetime) :
  radio ≠ -1 → cm_lac c = 5 → cm_cid c = 9 →
  incomplete (set_radio radio c) = false.
Proof.
  intros Hradio Hlac Hcid. rewrite incomplete_set_radio, Hlac, Hcid.
  destruct (Z.eqb_spec radio (-1)); done.
Qed.

(** C8 (amended): the report with the one entry [gsm_entry], submitted with a
    user id, when "gsm" is a known radio type and the registry has no row for
    the entry's key: one derived row, one new registry row with the counters
    (1, 1), and one score call with the count 1. *)
Theorem gsm_entry_first_sighting (s : session) (md : measure_data)
    (u radio : Z) :
  report_ok md = true →
  RADIO_TYPE !! "gsm" = Some radio →
  radio ≠ -1 →
  cell s !! (Some radio, 1, 1, 5, 9) = None →
  ∃ s' row,
    process s md [gsm_entry] (Some u) = Ok (s', [row])
    ∧ key_of_cell row = (Some radio, 1, 1, 5, 9)
    ∧ cell_measure s' = cell_measure s ++ [row]
    ∧ cell s'
      = <[(Some radio, 1, 1, 5, 9) :=
            MkStation (decode_datetime (default "" (md_created md))) 1 1]>
          (cell s)
    ∧ score s' = score s ++ [ScoreCall u 1 "new_cell"].
Proof.
  intros Hmd Hgsm Hradio Hnew.
  unfold report_ok in Hmd.
  destruct (md_id md) as [i|] eqn:Hid; [|done].
  destruct (md_lat md) as [lat|] eqn:Hlat; [|done].
  destruct (md_lon md) as [lon|] eqn:Hlon; [|done].
  unfold process_cell_measure, process_cell_entries, create_cell_measure,
    resolve_radio.
  rewrite Hid, Hlat, Hlon. simpl. rewrite Hgsm. simpl.
  rewrite update_cell_new; [|by apply incomplete_gsm|exact Hnew].
  eexists _, _. split; [done|]. split_and!; reflexivity.
Qed.

End CellProperties.

(** ** Wifi processing *)

Section WifiProperties.

Context {datetime : Type}.
Variable decode_datetime : string → datetime.

Local Abbreviation create := (create_wifi_measure decode_datetime).
Local Abbreviation loop := (process_wifi_entries decode_datetime).
Local Abbreviation process := (process_wifi_measure decode_datetime).
Local Abbreviation session := (@session datetime).
Local Abbreviation Station := (@Station datetime).

Lemma lookup_insert_on_duplicate `{Countable K} (k k' : K) (created : datetime)
    (t : gmap K Station) :
  insert_on_duplicate k created t !! k'
  = if decide (k = k') then Some (upsert_row created (t !! k)) else t !! k'.
Proof.
  unfold insert_on_duplicate, upsert_row.
  destruct (t !! k) eqn:Hk; rewrite lookup_insert; by case_decide.
Qed.

Lemma dom_insert_on_duplicate `{Countable K} (k : K) (created : datetime)
    (t : gmap K Station) :
  dom (insert_on_duplicate k created t) = {[k]} ∪ dom t.
Proof.
  unfold insert_on_duplicate. destruct (t !! k); apply dom_insert_L.
Qed.

Lemma observed_S (created : datetime) (n : nat) (row : option Station) :
  observed created (S n) row
  = observed created n (Some (upsert_row created row)).
Proof. unfold observed. by rewrite Nat.iter_succ_r. Qed.

Lemma entry_keys_ok (entries : list wifi_entry) :
  forallb (λ e, negb (is_null (w_key e))) entries = true →
  entry_keys entries = Ok (keys_of entries).
Proof.
  unfold keys_of. induction entries as [|e entries IH]; simpl; [done|].
  intros [He Hrest]%andb_true_iff.
  destruct (w_key e); [|done]. simpl. by rewrite IH.
Qed.

Lemma entry_keys_missing (entries : list wifi_entry) :
  forallb (λ e, negb (is_null (w_key e))) entries = false →
  entry_keys entries = Raise (KeyError "key").
Proof.
  induction entries as [|e entries IH]; simpl; [done|].
  destruct (w_key e); simpl; [|done].
  intros Hrest. by rewrite IH.
Qed.

Lemma create_wifi_measure_ok (md : measure_data) (created : datetime)
    (e : wifi_entry) (k : string) :
  report_ok md = true → w_key e = Some k →
  ∃ w, create md created e = Ok w ∧ wm_key w = k.
Proof.
  unfold report_ok, create_wifi_measure. intros Hmd ->.
  destruct (md_id md), (md_lat md), (md_lon md); simpl; try done.
  eauto.
Qed.

Lemma update_wifi_fields (k : string) (wifis : gmap string bool)
    (created : datetime) (s : session) (userid : option Z) :
  let r := update_wifi_measure_count k wifis created s userid in
  wifi r.2 = insert_on_duplicate k created (wifi s)
  ∧ r.1 = (if is_null (wifis !! k) then <[k := true]> wifis else wifis)
  ∧ score r.2
    = score s
      ++ new_wifi_credits userid (if is_null (wifis !! k) then 1 else 0)%nat
  ∧ wifi_measure r.2 = wifi_measure s ∧ cell r.2 = cell s
  ∧ cell_measure r.2 = cell_measure s ∧ measure r.2 = measure s
  ∧ wifi_blacklist r.2 = wifi_blacklist s.
Proof.
  unfold update_wifi_measure_count, wifi_credit, wifi_execute, process_score,
    new_wifi_credits.
  destruct (wifis !! k) eqn:Hk; destruct userid; simpl;
    rewrite ?app_nil_r; done.
Qed.

Lemma size_new_key (k : string) (K B D : gset string) :
  k ∉ B → k ∉ D →
  size (({[k]} ∪ K) ∖ B ∖ D) = S (size (K ∖ B ∖ ({[k]} ∪ D))).
Proof.
  intros HB HD.
  assert (({[k]} ∪ K) ∖ B ∖ D = {[k]} ∪ (K ∖ B ∖ ({[k]} ∪ D))) as ->.
  { apply set_eq. intros x. set_unfold.
    destruct (decide (x = k)) as [->|]; naive_solver. }
  rewrite size_union by set_solver. by rewrite size_singleton.
Qed.

Lemma count_key_cons (k : string) (e : wifi_entry) (entries : list wifi_entry) :
  count_key k (e :: entries)
  = ((if bool_decide (w_key e = Some k) then 1 else 0)
     + count_key k entries)%nat.
Proof. unfold count_key. simpl. by case_bool_decide. Qed.

(** The loop on well-formed entries, from a [wifis] dict that agrees with the
    registry on the keys still to come. *)
Lemma process_wifi_entries_ok (md : measure_data) (created : datetime)
    (blacked : gset string) (userid : option Z) (entries : list wifi_entry) :
  report_ok md = true →
  forallb wifi_entry_ok entries = true →
  ∀ (wifis : gmap string bool) (s : session) (acc : list WifiMeasure),
  (∀ k, k ∈ keys_of entries → k ∉ blacked →
        (wifis !! k = None ↔ wifi s !! k = None)) →
  ∃ s' rows,
    loop md created blacked userid entries wifis s acc = Ok (s', acc ++ rows)
    ∧ map wm_key rows = keys_of entries
    ∧ (∀ k, wifi s' !! k
            = if decide (k ∈ blacked) then wifi s !! k
              else observed created (count_key k entries) (wifi s !! k))
    ∧ score s'
      = score s
        ++ new_wifi_credits userid
             (size (list_to_set (keys_of entries) ∖ blacked ∖ dom (wifi s)))
    ∧ wifi_measure s' = wifi_measure s
    ∧ wifi_blacklist s' = wifi_blacklist s.
Proof.
  intros Hmd. induction entries as [|e entries IH]; intros Hok wifis s acc Hinv.
  { exists s, []. simpl. rewrite app_nil_r. split_and!; try done.
    - intros k. by case_decide.
    - replace (∅ ∖ blacked ∖ dom (wifi s)) with (∅ : gset string)
        by set_solver.
      rewrite size_empty. destruct userid; simpl; by rewrite app_nil_r. }
  simpl in Hok. apply andb_true_iff in Hok as [He Hok].
  unfold wifi_entry_ok in He. apply andb_true_iff in He as [Hkey Hchan].
  destruct (w_key e) as [k|] eqn:Hk; [|done].
  cbn [process_wifi_entries]. rewrite Hk. simpl.
  pose proof (convert_frequency_with_channel e Hchan) as Hconv.
  pose proof (convert_frequency_key e) as Hkey'.
  destruct (convert_frequency e) as [e' conv]. simpl in Hconv, Hkey'.
  subst conv. simpl.
  destruct (create_wifi_measure_ok md created e' k Hmd) as (w & Hw & Hwk);
    [congruence|].
  rewrite Hw. simpl.
  assert (keys_of (e :: entries) = k :: keys_of entries) as Hkeys
    by (unfold keys_of; simpl; by rewrite Hk).
  rewrite ?Hk. rewrite Hkeys in *. rewrite list_to_set_cons.
  destruct (decide (k ∉ blacked)) as [Hnb|Hb].
  - pose proof (update_wifi_fields k wifis created s userid) as Hupd.
    destruct (update_wifi_measure_count k wifis created s userid)
      as [wifis1 s1].
    simpl in Hupd. destruct Hupd as (Hwifi & Hwifis & Hscore & Hwm & _ & _ & _ & Hbl).
    destruct (IH Hok wifis1 s1 (acc ++ [w])) as (s' & rows & H1 & H2 & H3 & H4 & H5 & H6).
    { intros k' Hin Hnb'. rewrite Hwifi, Hwifis, lookup_insert_on_duplicate.
      destruct (decide (k = k')) as [<-|Hne].
      - destruct (wifis !! k) eqn:Hl; simpl; [by rewrite Hl|].
        by rewrite lookup_insert_eq.
      - destruct (wifis !! k) eqn:Hl; simpl.
        + apply Hinv; [set_solver|done].
        + rewrite lookup_insert_ne by done. apply Hinv; [set_solver|done]. }
    exists s', (w :: rows). rewrite H1, <- app_assoc. simpl.
    split_and!; try congruence.
    + intros k'. rewrite H3, Hwifi, lookup_insert_on_duplicate.
      rewrite count_key_cons, Hk.
      case_decide; [|].
      * case_decide; [congruence|done].
      * case_bool_decide as Hkk.
        -- simplify_eq. rewrite decide_True by done.
           symmetry. apply observed_S.
        -- rewrite decide_False by congruence. done.
    + rewrite H4, Hscore, Hwifi, dom_insert_on_duplicate, <- app_assoc.
      f_equal.
      assert (wifis !! k = None ↔ k ∉ dom (wifi s)) as Hdom.
      { rewrite not_elem_of_dom. apply Hinv; [set_solver|done]. }
      destruct (wifis !! k) eqn:Hl; simpl.
      * assert (k ∈ dom (wifi s)) as Hin.
        { destruct (decide (k ∈ dom (wifi s))); [done|].
          by apply Hdom in n. }
        replace (({[k]} ∪ list_to_set (keys_of entries)) ∖ blacked
                 ∖ dom (wifi s))
          with (list_to_set (keys_of entries) ∖ blacked
                ∖ ({[k]} ∪ dom (wifi s)) : gset string) by set_solver.
        destruct userid; simpl; [|done]. done.
      * rewrite (size_new_key k) by (try done; by apply Hdom).
        destruct userid; simpl; done.
  - apply dec_stable in Hb.
    destruct (IH Hok wifis s (acc ++ [w])) as (s' & rows & H1 & H2 & H3 & H4 & H5 & H6).
    { intros k' Hin Hnb'. apply Hinv; [set_solver|done]. }
    exists s', (w :: rows). rewrite H1, <- app_assoc. simpl.
    split_and!; try congruence.
    + intros k'. rewrite H3, count_key_cons, Hk.
      case_decide; [done|].
      rewrite bool_decide_eq_false_2; [done|]. congruence.
    + rewrite H4. do 2 f_equal. f_equal. set_solver.
Qed.

Lemma keys_of_all (entries : list wifi_entry) :
  forallb (λ e, negb (is_null (w_key e))) entries = true →
  map Some (keys_of entries) = map w_key entries.
Proof.
  unfold keys_of. induction entries as [|e entries IH]; simpl; [done|].
  intros [He Hrest]%andb_true_iff.
  destruct (w_key e); [|done]. cbn [map]. f_equal. auto.
Qed.

Lemma count_key_absent (k : string) (entries : list wifi_entry) :
  k ∉ keys_of entries → count_key k entries = 0%nat.
Proof.
  induction entries as [|e entries IH]; [done|].
  intros Hnot. rewrite count_key_cons.
  assert (w_key e ≠ Some k ∧ k ∉ keys_of entries) as [Hne Hrest].
  { unfold keys_of in *. simpl in Hnot.
    destruct (w_key e); [|done].
    apply not_elem_of_cons in Hnot as [Hne Hnot].
    split; [intros [= <-]; by apply Hne|done]. }
  rewrite bool_decide_eq_false_2 by done. by rewrite IH.
Qed.


Lemma wifi_entries_have_keys (entries : list wifi_entry) :
  forallb wifi_entry_ok entries = true →
  forallb (λ e, negb (is_null (w_key e))) entries = true.
Proof.
  induction entries as [|e entries IH]; simpl; [done|].
  unfold wifi_entry_ok at 1.
  intros [[-> _]%andb_true_iff Hrest]%andb_true_iff. auto.
Qed.

Lemma process_wifi_measure_ok (s : session) (md : measure_data)
    (entries : list wifi_entry) (userid : option Z) :
  report_ok md = true →
  forallb wifi_entry_ok entries = true →
  ∃ s' rows,
    process s md entries userid = Ok (s', rows)
    ∧ map Some (map wm_key rows) = map w_key entries
    ∧ wifi_measure s' = wifi_measure s ++ rows
    ∧ (∀ k, wifi s' !! k
            = if decide (k ∈ wifi_blacklist s) then wifi s !! k
              else observed (decode_datetime (default "" (md_created md)))
                     (count_key k entries) (wifi s !! k))
    ∧ score s'
      = score s
        ++ new_wifi_credits userid
             (size (list_to_set (keys_of entries) ∖ wifi_blacklist s
                    ∖ dom (wifi s))).
Proof.
  intros Hmd Hok.
  pose proof (wifi_entries_have_keys entries Hok) as Hkeys.
  unfold process_wifi_measure. rewrite (entry_keys_ok entries Hkeys). simpl.
  set (K := list_to_set (keys_of entries) : gset string).
  set (created := decode_datetime (default "" (md_created md))).
  destruct (process_wifi_entries_ok md created (query_blacked s K) userid
              entries Hmd Hok (query_wifis s K) s [])
    as (s' & rows & H1 & H2 & H3 & H4 & H5 & H6).
  { intros k Hin _. unfold query_wifis.
    rewrite lookup_gset_to_gmap_None, <- not_elem_of_dom.
    subst K. set_solver. }
  rewrite H1. simpl. eexists _, _. split; [done|]. simpl.
  split_and!.
  - by rewrite H2, keys_of_all.
  - by rewrite H5.
  - intros k. rewrite H3. unfold query_blacked.
    destruct (decide (k ∈ wifi_blacklist s)) as [Hb|Hb].
    + destruct (decide (k ∈ K)) as [HK|HK].
      * rewrite decide_True by set_solver. done.
      * rewrite decide_False by set_solver.
        rewrite count_key_absent; [done|]. subst K. set_solver.
    + rewrite decide_False by set_solver. done.
  - rewrite H4. do 3 f_equal. unfold query_blacked. set_solver.
Qed.

Lemma process_wifi_measure_missing (s : session) (md : measure_data)
    (entries : list wifi_entry) (userid : option Z) :
  forallb (λ e, negb (is_null (w_key e))) entries = false →
  process s md entries userid = Raise (KeyError "key").
Proof.
  intros Hbad. unfold process_wifi_measure.
  by rewrite (entry_keys_missing entries Hbad).
Qed.

Lemma update_wifi_without_userid (k : string) (wifis : gmap string bool)
    (created : datetime) (s1 s2 : session) (u : Z) :
  without_score s1 = without_score s2 →
  (update_wifi_measure_count k wifis created s1 None).1
  = (update_wifi_measure_count k wifis created s2 (Some u)).1
  ∧ without_score (update_wifi_measure_count k wifis created s1 None).2
    = without_score (update_wifi_measure_count k wifis created s2 (Some u)).2
  ∧ score (update_wifi_measure_count k wifis created s1 None).2 = score s1.
Proof.
  intros Heq. destruct s1, s2. unfold without_score, set_score in Heq.
  simpl in Heq. injection Heq as -> -> -> -> -> ->.
  unfold update_wifi_measure_count, wifi_credit, process_score, wifi_execute,
    without_score, set_score, set_wifi.
  destruct (wifis !! k); simpl; done.
Qed.

Lemma process_wifi_entries_without_userid (md : measure_data)
    (created : datetime) (blacked : gset string) (entries : list wifi_entry)
    (u : Z) :
  ∀ (wifis : gmap string bool) (s1 s2 : session) (acc : list WifiMeasure),
  without_score s1 = without_score s2 →
  forget_score <$> loop md created blacked None entries wifis s1 acc
  = forget_score <$> loop md created blacked (Some u) entries wifis s2 acc
  ∧ (λ r, score r.1) <$> loop md created blacked None entries wifis s1 acc
    = (λ _, score s1) <$> loop md created blacked None entries wifis s1 acc.
Proof.
  induction entries as [|x entries IH]; intros wifis s1 s2 acc Heq.
  - simpl. unfold forget_score. simpl. by rewrite Heq.
  - cbn [process_wifi_entries].
    destruct (getitem "key" (w_key x)) as [k|e1]; simpl; [|done].
    destruct (convert_frequency x) as [x' [[]|e2]]; simpl; [|done].
    destruct (create md created x') as [w|e3]; simpl; [|done].
    destruct (decide (k ∉ blacked)).
    + destruct (update_wifi_without_userid k wifis created s1 s2 u Heq)
        as (Hd & Hw & Hs).
      destruct (update_wifi_measure_count k wifis created s1 None)
        as [wifis1 t1].
      destruct (update_wifi_measure_count k wifis created s2 (Some u))
        as [wifis2 t2].
      simpl in Hd, Hw, Hs. subst wifis2.
      destruct (IH wifis1 t1 t2 (acc ++ [w]) Hw) as [IH1 IH2].
      split; [done|]. by rewrite IH2, Hs.
    + by apply IH.
Qed.

Lemma process_wifi_measure_without_userid (s : session) (md : measure_data)
    (entries : list wifi_entry) (u : Z) :
  forget_score <$> process s md entries None
  = forget_score <$> process s md entries (Some u)
  ∧ (λ r, score r.1) <$> process s md entries None
    = (λ _, score s) <$> process s md entries None.
Proof.
  unfold process_wifi_measure.
  destruct (entry_keys entries) as [keys|e]; simpl; [|done].
  set (K := list_to_set keys : gset string).
  destruct (process_wifi_entries_without_userid md
              (decode_datetime (default "" (md_created md)))
              (query_blacked s K) entries u (query_wifis s K) s s [] eq_refl)
    as [H1 H2].
  destruct (loop md _ _ None entries _ s []) as [[s1 rows1]|e1],
    (loop md _ _ (Some u) entries _ s []) as [[s2 rows2]|e2];
    simpl in *; try done.
  assert (without_score s1 = without_score s2 ∧ rows1 = rows2) as [Hw ->]
    by (unfold forget_score in H1; simpl in H1; split; congruence).
  assert (score s1 = score s) as Hs by congruence.
  split; [|by rewrite Hs]. unfold forget_score. simpl. do 2 f_equal.
  destruct s1, s2. unfold without_score, set_score, add_all_wifi in *.
  simpl in *. injection Hw as -> -> -> -> -> ->. done.
Qed.

End WifiProperties.

(** ** Batches and tasks *)

Section TaskProperties.

Context {datetime : Type}.
Variable decode_datetime : string → datetime.
Variable encode_datetime : datetime → string.
Variable RADIO_TYPE : gmap string Z.
Variable commit : @session datetime → result (@session datetime).

Local Abbreviation process_cell :=
  (process_cell_measure decode_datetime RADIO_TYPE).
Local Abbreviation process_wifi := (process_wifi_measure decode_datetime).
Local Abbreviation insert_cell :=
  (insert_cell_measure decode_datetime RADIO_TYPE commit).
Local Abbreviation insert_wifi := (insert_wifi_measure decode_datetime commit).
Local Abbreviation reprocess_cell :=
  (reprocess_cell_measure decode_datetime encode_datetime RADIO_TYPE commit).
Local Abbreviation reprocess_wifi :=
  (reprocess_wifi_measure decode_datetime encode_datetime commit).
Local Abbreviation session := (@session datetime).

(** C10: without a user id the processing of a batch, cell or wifi, gives the
    same outcome, the same rows and the same tables as with one, and adds no
    score call. *)
Theorem no_userid_no_score_call (s : session) (md : measure_data)
    (cells : list cell_entry) (wifis : list wifi_entry) (u : Z) :
  (forget_score <$> process_cell s md cells None
   = forget_score <$> process_cell s md cells (Some u)
   ∧ (λ r, score r.1) <$> process_cell s md cells None
     = (λ _, score s) <$> process_cell s md cells None)
  ∧ (forget_score <$> process_wifi s md wifis None
     = forget_score <$> process_wifi s md wifis (Some u)
     ∧ (λ r, score r.1) <$> process_wifi s md wifis None
       = (λ _, score s) <$> process_wifi s md wifis None).
Proof.
  split.
  - apply process_cell_measure_without_userid.
  - apply process_wifi_measure_without_userid.
Qed.

Lemma task_frame_handles (db : session) (processing : result (session * nat)) :
  conflict_logged_else_retried commit db processing
    (task_frame db ('(s, n) ← processing; s ← commit s; Ok (s, n))).
Proof.
  unfold conflict_logged_else_retried, raises. split_and!.
  - intros [->|(s & n & -> & Hc)]; simpl; [done|]. by rewrite Hc.
  - intros e He [->|(s & n & -> & Hc)]; simpl.
    + by destruct e.
    + rewrite Hc. simpl. by destruct e.
  - intros s n s' -> Hc. simpl. by rewrite Hc.
Qed.

Lemma bind_fmap_result {A B C} (f : A → B) (g : B → result C) (r : result A) :
  (f <$> r) ≫= g = r ≫= (λ a, g (f a)).
Proof. by destruct r. Qed.

(** C7: in each of the four tasks a conflict ([IntegrityError]) raised by
    the processing or by the commit is logged and the task returns 0, any
    other exception is handed to retry, and nothing is committed in either
    case; a body that does not raise returns its count and commits. *)
Theorem tasks_log_conflict_else_retry (db : session) (md : measure_data)
    (cells : list cell_entry) (wifis : list wifi_entry)
    (measure_ids : list Z) (userid : option Z) :
  conflict_logged_else_retried commit db
    ((λ r, (r.1, length r.2)) <$> process_cell db md cells userid)
    (insert_cell db md cells userid)
  ∧ conflict_logged_else_retried commit db
      ((λ r, (r.1, length r.2)) <$> process_wifi db md wifis userid)
      (insert_wifi db md wifis userid)
  ∧ conflict_logged_else_retried commit db
      ((λ s, (s, length (measures_with ms_cell db measure_ids)))
       <$> reprocess_cells decode_datetime encode_datetime RADIO_TYPE userid
             (measures_with ms_cell db measure_ids) db)
      (reprocess_cell db measure_ids userid)
  ∧ conflict_logged_else_retried commit db
      ((λ s, (s, length (measures_with ms_wifi db measure_ids)))
       <$> reprocess_wifis decode_datetime encode_datetime userid
             (measures_with ms_wifi db measure_ids) db)
      (reprocess_wifi db measure_ids userid).
Proof.
  split_and!.
  - pose proof (task_frame_handles db
      ((λ r, (r.1, length r.2)) <$> process_cell db md cells userid)) as H.
    rewrite bind_fmap_result in H. unfold insert_cell_measure.
    by destruct (process_cell db md cells userid) as [[]|].
  - pose proof (task_frame_handles db
      ((λ r, (r.1, length r.2)) <$> process_wifi db md wifis userid)) as H.
    rewrite bind_fmap_result in H. unfold insert_wifi_measure.
    by destruct (process_wifi db md wifis userid) as [[]|].
  - pose proof (task_frame_handles db
      ((λ s, (s, length (measures_with ms_cell db measure_ids)))
       <$> reprocess_cells decode_datetime encode_datetime RADIO_TYPE userid
             (measures_with ms_cell db measure_ids) db)) as H.
    rewrite bind_fmap_result in H. exact H.
  - pose proof (task_frame_handles db
      ((λ s, (s, length (measures_with ms_wifi db measure_ids)))
       <$> reprocess_wifis decode_datetime encode_datetime userid
             (measures_with ms_wifi db measure_ids) db)) as H.
    rewrite bind_fmap_result in H. exact H.
Qed.

End TaskProperties.

(** ** The cleanup schedulers *)

Section SchedulerProperties.

Context {datetime : Type}.

Local Abbreviation session := (@session datetime).

Lemma take_drop_chunks {A} (b : nat) :
  (0 < b)%nat →
  ∀ (n : nat) (l : list A),
  (length l ≤ n * b)%nat →
  concat (map (λ k : nat, take b (drop (k * b) l)) (seq 0 n)) = l.
Proof.
  intros Hb. induction n as [|n IH]; intros l Hlen.
  - simpl in *. destruct l; [done|]. simpl in Hlen. lia.
  - cbn [seq map concat]. rewrite <- fmap_S_seq.
    change (map ?f (S <$> ?l)) with (map f (map S l)). rewrite map_map.
    rewrite Nat.mul_0_l, drop_0.
    transitivity (take b l ++ drop b l); [|apply take_drop]. f_equal.
    etrans; [|apply (IH (drop b l)); rewrite length_drop; lia].
    f_equal. apply map_ext. intros k. rewrite drop_drop.
    do 2 f_equal; lia.
Qed.

Lemma py_slice_chunk {A} (l : list A) (k : nat) (batch : Z) :
  0 < batch →
  Z.of_nat k * batch < Z.of_nat (length l) →
  py_slice l (0 + Z.of_nat k * batch) (0 + Z.of_nat k * batch + batch)
  = take (Z.to_nat batch) (drop (k * Z.to_nat batch) l).
Proof.
  intros Hb Hk. unfold py_slice, slice_index.
  destruct (Z.ltb_spec (0 + Z.of_nat k * batch) 0); [lia|].
  destruct (Z.ltb_spec (0 + Z.of_nat k * batch + batch) 0); [lia|].
  replace (Z.to_nat (Z.min (0 + Z.of_nat k * batch) (Z.of_nat (length l))))
    with (k * Z.to_nat batch)%nat by lia.
  set (d := drop (k * Z.to_nat batch) l).
  assert (length d = (length l - k * Z.to_nat batch)%nat) as Hd
    by apply length_drop.
  destruct (Z.le_ge_cases (0 + Z.of_nat k * batch + batch)
              (Z.of_nat (length l))).
  - f_equal. lia.
  - rewrite !take_ge; [done|lia|lia].
Qed.

(** The delayed chunks for a positive batch size: the ids cut into runs of
    [batch], the last one shorter when the ids do not fill it. *)
Lemma delay_chunks_positive (ids : list Z) (batch : Z) :
  0 < batch →
  ∃ chunks, delay_chunks ids batch = Ok chunks
            ∧ concat chunks = ids
            ∧ Forall (λ chunk, (0 < length chunk)%nat
                               ∧ Z.of_nat (length chunk) ≤ batch) chunks.
Proof.
  intros Hb. unfold delay_chunks, py_range.
  destruct (Z.eqb_spec batch 0) as [Hz|_]; [lia|].
  destruct (Z.ltb_spec 0 batch) as [_|Hle]; [|lia]. simpl.
  eexists. split; [done|].
  set (len := Z.of_nat (length ids)).
  set (cnt := Z.to_nat ((len - 0 + batch - 1) `div` batch)).
  assert (0 ≤ len) as Hlen0 by lia.
  assert (len ≤ Z.of_nat cnt * batch ∧ (Z.of_nat cnt - 1) * batch < len)
    as [Hcover Hlast].
  { subst cnt. pose proof (Z.div_mod (len - 0 + batch - 1) batch ltac:(lia)).
    pose proof (Z.mod_pos_bound (len - 0 + batch - 1) batch Hb).
    assert (0 ≤ (len - 0 + batch - 1) `div` batch)
      by (apply Z.div_pos; lia).
    rewrite Z2Nat.id by done. nia. }
  rewrite map_map.
  assert (map (λ k : nat, py_slice ids (0 + Z.of_nat k * batch)
                            (0 + Z.of_nat k * batch + batch)) (seq 0 cnt)
          = map (λ k : nat, take (Z.to_nat batch)
                              (drop (k * Z.to_nat batch) ids)) (seq 0 cnt))
    as ->.
  { apply map_ext_in. intros k Hk%in_seq. apply py_slice_chunk; [done|].
    fold len. nia. }
  split.
  - apply take_drop_chunks; [lia|]. nia.
  - apply Forall_forall. intros chunk Hin.
    apply list_elem_of_In, in_map_iff in Hin as (k & <- & Hk%in_seq).
    rewrite length_take, length_drop.
    split; [nia|lia].
Qed.

(** The anti-join: the rows of [a] without a match in [b], when the WHERE
    clause asks for the NULL of the right side. *)
Lemma anti_join_rows {A B C} (on : A → B → bool) (proj : B → C)
    (where_ : bool → A → bool) (id : A → Z) (a : list A) (b : list B) :
  (∀ x, where_ false x = false) →
  map (λ '(x, _), id x)
    (List.filter (λ '(x, y), where_ (is_null (proj <$> y)) x)
       (left_join on a b))
  = map id
      (List.filter (λ x, where_ (forallb (λ y, negb (on x y)) b) x) a).
Proof.
  intros Hwhere. unfold left_join.
  induction a as [|x a IH]; [done|].
  cbn [flat_map]. rewrite List.filter_app, map_app, IH. clear IH.
  cbn [List.filter].
  assert (forallb (λ y, negb (on x y)) b
          = match List.filter (on x) b with [] => true | _ => false end)
    as ->.
  { clear. induction b as [|y b IH]; [done|]. simpl.
    destruct (on x y); simpl; [done|]. exact IH. }
  destruct (List.filter (on x) b) as [|y ys]; simpl.
  - by destruct (where_ true x).
  - rewrite !Hwhere. simpl.
    assert (List.filter (λ '(x0, y0), where_ (is_null (proj <$> y0)) x0)
              (map (λ y0, (x, Some y0)) ys) = []) as ->; [|done].
    clear -Hwhere. induction ys as [|z ys IH]; [done|].
    simpl. by rewrite Hwhere.
Qed.

Lemma NoDup_map_filter {A} (f : A → Z) (p : A → bool) (l : list A) :
  NoDup (map f l) → NoDup (map f (List.filter p l)).
Proof.
  induction l as [|x l IH]; simpl; [done|].
  intros [Hx Hl]%NoDup_cons. destruct (p x); simpl; [|by apply IH].
  apply NoDup_cons. split; [|by apply IH].
  intros Hin. apply Hx.
  apply list_elem_of_In, in_map_iff in Hin as (y & Hy & Hin).
  apply filter_In in Hin as [Hin _].
  apply list_elem_of_In, in_map_iff. eauto.
Qed.

(** The ids picked by the two queries. *)
Lemma cell_cleanup_ids_spec (db : session) (lower upper : Z) :
  cell_cleanup_ids db lower upper
  = map ms_id
      (List.filter
         (λ m, forallb (λ c, negb (ms_id m =? cm_measure_id c))
                 (cell_measure db)
               && negb (is_null (ms_cell m))
               && (lower <? ms_id m) && (ms_id m <? upper))
         (measure db)).
Proof.
  unfold cell_cleanup_ids.
  apply (anti_join_rows (λ m c, ms_id m =? cm_measure_id c) cm_measure_id
           (λ null m, null && negb (is_null (ms_cell m))
                      && (lower <? ms_id m) && (ms_id m <? upper))).
  done.
Qed.

Lemma wifi_cleanup_ids_spec (db : session) (lower upper : Z) :
  wifi_cleanup_ids db lower upper
  = map ms_id
      (List.filter
         (λ m, forallb (λ w, negb (ms_id m =? wm_measure_id w))
                 (wifi_measure db)
               && negb (is_null (ms_wifi m))
               && (lower <? ms_id m) && (ms_id m <? upper))
         (measure db)).
Proof.
  unfold wifi_cleanup_ids.
  apply (anti_join_rows (λ m w, ms_id m =? wm_measure_id w) wm_measure_id
           (λ null m, null && negb (is_null (ms_wifi m))
                      && (lower <? ms_id m) && (ms_id m <? upper))).
  done.
Qed.

Lemma elem_of_unlinked {A B} (payload : @Measure datetime → option A)
    (rows : list B) (measure_id : B → Z) (ms : list (@Measure datetime))
    (lower upper i : Z) :
  i ∈ map ms_id
        (List.filter
           (λ m, forallb (λ r, negb (ms_id m =? measure_id r)) rows
                 && negb (is_null (payload m))
                 && (lower <? ms_id m) && (ms_id m <? upper)) ms)
  ↔ lower < i < upper
    ∧ ∃ m, m ∈ ms ∧ ms_id m = i ∧ payload m ≠ None
           ∧ ∀ r, r ∈ rows → measure_id r ≠ i.
Proof.
  rewrite list_elem_of_In, in_map_iff. split.
  - intros (m & <- & [Hin Hm]%filter_In).
    apply andb_true_iff in Hm as [Hm Hup%Z.ltb_lt].
    apply andb_true_iff in Hm as [Hm Hlow%Z.ltb_lt].
    apply andb_true_iff in Hm as [Hrows Hpay].
    split; [lia|]. exists m. split_and!; try done.
    + by apply list_elem_of_In.
    + by destruct (payload m).
    + intros r Hr%list_elem_of_In Heq.
      rewrite forallb_forall in Hrows. specialize (Hrows r Hr).
      apply negb_true_iff, Z.eqb_neq in Hrows. congruence.
  - intros ([Hlow Hup] & m & Hin%list_elem_of_In & <- & Hpay & Hrows).
    exists m. split; [done|]. apply filter_In. split; [done|].
    repeat (apply andb_true_iff; split).
    + apply forallb_forall. intros r Hr%list_elem_of_In.
      apply negb_true_iff, Z.eqb_neq. intros Heq. by apply (Hrows r).
    + by destruct (payload m).
    + by apply Z.ltb_lt.
    + by apply Z.ltb_lt.
Qed.

(** C5 (amended): for a positive batch size each scheduler picks the ids [i]
    with [lower < i < upper], both bounds left out, of the raw rows with a
    payload and without derived rows; the delayed tasks get these ids, in the
    order of the query, cut into chunks of at least one and at most [batch]
    ids; the scheduler returns the number of ids. An id that names one raw
    row is in one chunk. *)
Theorem cleanup_schedules_unlinked_ids (db : session)
    (lower upper batch : Z) :
  0 < batch →
  (∃ delayed,
     schedule_cell_cleanup db lower upper batch
     = Ok (delayed, length (concat delayed))
     ∧ concat delayed = cell_cleanup_ids db lower upper
     ∧ Forall (λ chunk, (0 < length chunk)%nat
                        ∧ Z.of_nat (length chunk) ≤ batch) delayed
     ∧ (∀ i, i ∈ concat delayed
             ↔ lower < i < upper
               ∧ ∃ m, m ∈ measure db ∧ ms_id m = i ∧ ms_cell m ≠ None
                      ∧ ∀ c, c ∈ cell_measure db → cm_measure_id c ≠ i)
     ∧ (NoDup (map ms_id (measure db)) → NoDup (concat delayed)))
  ∧ (∃ delayed,
       schedule_wifi_cleanup db lower upper batch
       = Ok (delayed, length (concat delayed))
       ∧ concat delayed = wifi_cleanup_ids db lower upper
       ∧ Forall (λ chunk, (0 < length chunk)%nat
                          ∧ Z.of_nat (length chunk) ≤ batch) delayed
       ∧ (∀ i, i ∈ concat delayed
               ↔ lower < i < upper
                 ∧ ∃ m, m ∈ measure db ∧ ms_id m = i ∧ ms_wifi m ≠ None
                        ∧ ∀ w, w ∈ wifi_measure db → wm_measure_id w ≠ i)
       ∧ (NoDup (map ms_id (measure db)) → NoDup (concat delayed))).
Proof.
  intros Hb. split.
  - destruct (delay_chunks_positive (cell_cleanup_ids db lower upper) batch Hb)
      as (chunks & Hchunks & Hconcat & Hsizes).
    exists chunks. unfold schedule_cell_cleanup. rewrite Hchunks. simpl.
    rewrite Hconcat. split_and!; try done.
    + intros i. rewrite cell_cleanup_ids_spec. apply elem_of_unlinked.
    + rewrite cell_cleanup_ids_spec. apply NoDup_map_filter.
  - destruct (delay_chunks_positive (wifi_cleanup_ids db lower upper) batch Hb)
      as (chunks & Hchunks & Hconcat & Hsizes).
    exists chunks. unfold schedule_wifi_cleanup. rewrite Hchunks. simpl.
    rewrite Hconcat. split_and!; try done.
    + intros i. rewrite wifi_cleanup_ids_spec. apply elem_of_unlinked.
    + rewrite wifi_cleanup_ids_spec. apply NoDup_map_filter.
Qed.

End SchedulerProperties.

(** ** Concurrent callers *)

Section ConcurrencyProperties.

Context {datetime : Type}.

Local Abbreviation session := (@session datetime).
Local Abbreviation cell_caller := (@cell_caller datetime).

Lemma executed_count_insert (cs : list cell_caller) (i : nat)
    (c c' : cell_caller) :
  cs !! i = Some c →
  executed_count (<[i := c']> cs)
  = executed_count cs - (if executed c then 1 else 0)
    + (if executed c' then 1 else 0).
Proof.
  unfold executed_count. revert i.
  induction cs as [|x cs IH]; intros [|i] Hi; simplify_eq/=.
  - destruct (executed c), (executed c'); simpl; lia.
  - specialize (IH i Hi). destruct (executed x); simpl; lia.
Qed.

Lemma total_after_execute (m : @CellMeasure datetime) (s : session) :
  total_of (cell (cell_execute m s) !! key_of_cell m)
  = total_of (cell s !! key_of_cell m) + 1.
Proof.
  unfold cell_execute, set_cell, insert_on_duplicate, total_of. simpl.
  destruct (cell s !! key_of_cell m) eqn:Hrow;
    rewrite lookup_insert_eq; simpl; lia.
Qed.

Lemma cell_credit_cell (userid : option Z) (new_cell : Z) (s : session) :
  cell (cell_credit userid new_cell s) = cell s.
Proof. unfold cell_credit. destruct userid; [|done]. by case_match. Qed.

(** A step of a caller adds one to the total when it is the execute, and
    nothing otherwise. *)
Lemma cell_caller_step_total (m : @CellMeasure datetime) (c : cell_caller)
    (s : session) :
  incomplete m = false → cc_measure c = m →
  let '(c', s') := cell_caller_step c s in
  cc_measure c' = m
  ∧ total_of (cell s' !! key_of_cell m) - (if executed c' then 1 else 0)
    = total_of (cell s !! key_of_cell m) - (if executed c then 1 else 0).
Proof.
  intros Hinc Hm. unfold cell_caller_step, executed.
  destruct c as [m' u pc]. simpl in *. subst m'.
  destruct pc; cbn [cc_pc cc_measure cc_userid at_pc]; rewrite ?Hinc;
    cbn [cc_pc cc_measure cc_userid at_pc].
  - split; [done|lia].
  - split; [done|]. rewrite total_after_execute. lia.
  - split; [done|]. by rewrite cell_credit_cell.
  - split; [done|lia].
Qed.

(** No lost update: under every schedule the total counter grows by the
    number of callers whose execute has run. *)
Lemma run_cell_callers_total (m : @CellMeasure datetime)
    (schedule : list nat) :
  incomplete m = false →
  ∀ (cs : list cell_caller) (s : session),
  Forall (λ c, cc_measure c = m) cs →
  let '(cs', s') := run_cell_callers schedule cs s in
  Forall (λ c, cc_measure c = m) cs'
  ∧ length cs' = length cs
  ∧ total_of (cell s' !! key_of_cell m) - executed_count cs'
    = total_of (cell s !! key_of_cell m) - executed_count cs.
Proof.
  intros Hinc. induction schedule as [|i schedule IH]; intros cs s Hcs.
  - simpl. done.
  - cbn [run_cell_callers].
    destruct (cs !! i) as [c|] eqn:Hi; [|by apply IH].
    assert (cc_measure c = m) as Hc
      by (eapply (proj1 (Forall_lookup _ _)) in Hcs; eauto).
    pose proof (cell_caller_step_total m c s Hinc Hc) as Hstep.
    destruct (cell_caller_step c s) as [c1 s1]. destruct Hstep as [Hm1 Htot].
    specialize (IH (<[i := c1]> cs) s1).
    destruct (run_cell_callers schedule (<[i := c1]> cs) s1) as [cs' s'].
    destruct IH as (Hall & Hlen & Hsum).
    { apply Forall_insert; done. }
    split_and!; [done| by rewrite Hlen, length_insert |].
    rewrite Hsum, (executed_count_insert cs i c c1 Hi). lia.
Qed.

Lemma executed_count_callers_of (m : @CellMeasure datetime)
    (userid : option Z) (n : nat) :
  executed_count (callers_of m userid n) = 0.
Proof.
  unfold executed_count, callers_of.
  induction n as [|n IH]; simpl; [done|]. exact IH.
Qed.

Lemma executed_count_finished (cs : list cell_caller) :
  forallb finished cs = true → executed_count cs = Z.of_nat (length cs).
Proof.
  unfold executed_count. induction cs as [|c cs IH]; simpl; [done|].
  intros [Hc Hcs]%andb_true_iff. unfold finished, executed in *.
  destruct (cc_pc c); try done. simpl. rewrite Nat2Z.inj_succ.
  rewrite IH by done. lia.
Qed.

(** N callers for one unseen station, under any schedule that lets all of
    them finish: the total counter is N. *)
Lemma concurrent_callers_count_all (m : @CellMeasure datetime)
    (userid : option Z) (n : nat) (schedule : list nat) (s : session) :
  incomplete m = false →
  cell s !! key_of_cell m = None →
  forallb finished (run_cell_callers schedule (callers_of m userid n) s).1
  = true →
  total_of (cell (run_cell_callers schedule (callers_of m userid n) s).2
            !! key_of_cell m) = Z.of_nat n.
Proof.
  intros Hinc Hnone Hfin.
  pose proof (run_cell_callers_total m schedule Hinc (callers_of m userid n) s)
    as Hrun.
  destruct (run_cell_callers schedule (callers_of m userid n) s) as [cs' s'].
  simpl in *. destruct Hrun as (_ & Hlen & Hsum).
  { unfold callers_of. by apply Forall_replicate. }
  rewrite executed_count_callers_of, Hnone in Hsum.
  rewrite executed_count_finished in Hsum by done.
  unfold callers_of in Hlen. rewrite length_replicate in Hlen.
  unfold total_of in *. simpl in Hsum. lia.
Qed.

(** C1: two callers of [update_cell_measure_count] for one complete measure
    of a station that the registry does not have, each running its query
    before the other's insert: both take the station for a new one, and both
    give a score credit; the total counter is 2. The same on the wifi path,
    for two tasks that prefetch the known keys before either updates. *)
Theorem interleaved_callers_both_report_new (m : @CellMeasure datetime)
    (s : session) (u1 u2 : Z) (key : string) (created : datetime) :
  incomplete m = false →
  cell s !! key_of_cell m = None →
  wifi s !! key = None →
  (let r := run_cell_callers [0; 1; 0; 1; 0; 1]%nat
              [MkCellCaller m (Some u1) AtQuery;
               MkCellCaller m (Some u2) AtQuery] s in
   map cc_pc r.1 = [Finished 1; Finished 1]
   ∧ new_reports r.1 = 2%nat
   ∧ total_of (cell r.2 !! key_of_cell m) = 2
   ∧ score r.2
     = score s ++ [ScoreCall u1 1 "new_cell"; ScoreCall u2 1 "new_cell"])
  ∧ (let r := run_wifi_callers [0; 1; 0; 1]%nat
                [MkWifiCaller key created (Some u1) AtPrefetch;
                 MkWifiCaller key created (Some u2) AtPrefetch] s in
     map wc_pc r.1 = [WifiFinished true; WifiFinished true]
     ∧ total_of (wifi r.2 !! key) = 2
     ∧ score r.2
       = score s ++ [ScoreCall u1 1 "new_wifi"; ScoreCall u2 1 "new_wifi"]).
Proof.
  intros Hinc Hcell Hwifi. split.
  - cbn -[cell_execute cell_credit cell_query_first incomplete total_of
          key_of_cell].
    rewrite Hinc.
    cbn -[cell_execute cell_credit cell_query_first incomplete total_of
          key_of_cell].
    unfold cell_query_first. rewrite Hcell.
    cbn -[cell_execute cell_credit incomplete total_of key_of_cell].
    split_and!; try done.
    + rewrite !cell_credit_cell.
      rewrite total_after_execute, total_after_execute, Hcell. done.
    + unfold cell_credit, process_score, set_score, cell_execute, set_cell.
      simpl. by rewrite <- app_assoc.
  - cbn [run_wifi_callers lookup list_lookup list_insert insert
         wifi_caller_step wc_pc wc_key wc_created wc_userid].
    assert (query_wifis s {[key]} !! key = None) as Hpre.
    { unfold query_wifis. apply lookup_gset_to_gmap_None.
      intros [Hin _]%elem_of_intersection.
      by apply elem_of_dom in Hin as [? ?]; simplify_eq. }
    unfold update_wifi_measure_count. rewrite Hpre. simpl.
    split_and!; try done.
    + unfold insert_on_duplicate. rewrite Hwifi, lookup_insert_eq.
      by rewrite lookup_insert_eq.
    + by rewrite <- app_assoc.
Qed.

End ConcurrencyProperties.

(** ** The statements at concrete inputs *)

Lemma gsm_entry_first_sighting_witness :
  ∃ s' row,
    process_cell_measure text_datetime example_radio_type empty_session
      example_report [gsm_entry] (Some 42)
    = Ok (s', [row])
    ∧ key_of_cell row = (Some 0, 1, 1, 5, 9)
    ∧ cell_measure s' = [row]
    ∧ cell s' = {[ (Some 0, 1, 1, 5, 9) := MkStation "2013-10-01" 1 1 ]}
    ∧ score s' = [ScoreCall 42 1 "new_cell"].
Proof.
  apply (gsm_entry_first_sighting text_datetime example_radio_type
           empty_session example_report 42 0 eq_refl eq_refl).
  - lia.
  - reflexivity.
Defined.

(** The same report processed without a user id: the row and the new station
    are there, and no score call. *)
Lemma gsm_entry_without_userid_no_credit :
  ∃ s' row,
    process_cell_measure text_datetime example_radio_type empty_session
      example_report [gsm_entry] None
    = Ok (s', [row])
    ∧ cell_measure s' = [row]
    ∧ cell s' !! (Some 0, 1, 1, 5, 9) = Some (MkStation "2013-10-01" 1 1)
    ∧ score s' = [].
Proof. eexists _, _. split_and!; reflexivity. Qed.

(** A batch with an entry that lacks its station key: nothing of the batch is
    processed, the valid sibling included, which alone gives its row. *)
Lemma entry_without_key_aborts_siblings :
  process_wifi_measure text_datetime empty_session example_report
    [wifi_without_key; wifi_cd] None
  = Raise (KeyError "key")
  ∧ insert_wifi_measure text_datetime commit_accepts empty_session
      example_report [wifi_without_key; wifi_cd] None
    = (Retry (KeyError "key"), empty_session, [])
  ∧ (λ r, length r.2)
      <$> process_wifi_measure text_datetime empty_session example_report
            [wifi_cd] None
    = Ok 1%nat
  ∧ process_cell_measure text_datetime example_radio_type empty_session
      example_report [cell_without_mcc; gsm_entry] None
    = Raise (KeyError "mcc")
  ∧ (λ r, length r.2)
      <$> process_cell_measure text_datetime example_radio_type empty_session
            example_report [gsm_entry] None
    = Ok 1%nat.
Proof. split_and!; reflexivity. Qed.

Lemma tasks_log_conflict_else_retry_witness :
  insert_wifi_measure text_datetime commit_conflicts empty_session
    example_report [wifi_cd] None
  = (Returned 0, empty_session, ["error"])
  ∧ insert_wifi_measure text_datetime commit_accepts empty_session
      example_report [wifi_without_key] None
    = (Retry (KeyError "key"), empty_session, []).
Proof.
  pose proof (tasks_log_conflict_else_retry text_datetime text_datetime
                example_radio_type commit_conflicts empty_session
                example_report [] [wifi_cd] [] None)
    as (_ & (Hconflict & _ & _) & _).
  pose proof (tasks_log_conflict_else_retry text_datetime text_datetime
                example_radio_type commit_accepts empty_session
                example_report [] [wifi_without_key] [] None)
    as (_ & (_ & Hretry & _) & _).
  split.
  - apply Hconflict. right. eexists _, _. split; reflexivity.
  - apply Hretry; [discriminate|]. left. reflexivity.
Defined.

Lemma cleanup_schedules_unlinked_ids_witness :
  ∃ delayed,
    schedule_cell_cleanup session_unlinked 4 7 1
    = Ok (delayed, length (concat delayed))
    ∧ concat delayed = cell_cleanup_ids session_unlinked 4 7
    ∧ Forall (λ chunk, (0 < length chunk)%nat
                       ∧ Z.of_nat (length chunk) ≤ 1) delayed.
Proof.
  destruct (cleanup_schedules_unlinked_ids session_unlinked 4 7 1 eq_refl)
    as [(delayed & H1 & H2 & H3 & _) _].
  exists delayed. split_and!; assumption.
Defined.

(** The raw row 5 has a payload and no derived rows, and [5 <= 5 < 7]; the
    schedulers called with the range 5, 7 leave it out. A batch size of 0
    makes them raise. *)
Lemma lower_bound_id_not_scheduled :
  schedule_cell_cleanup session_unlinked 5 7 100 = Ok ([[6]], 1%nat)
  ∧ schedule_wifi_cleanup session_unlinked 5 7 100 = Ok ([[6]], 1%nat)
  ∧ schedule_cell_cleanup session_unlinked 4 7 100 = Ok ([[5; 6]], 2%nat)
  ∧ schedule_cell_cleanup session_unlinked 4 7 0 = Raise ValueError.
Proof. split_and!; reflexivity. Qed.

Lemma interleaved_callers_both_report_new_witness :
  let r := run_cell_callers [0; 1; 0; 1; 0; 1]%nat
             [MkCellCaller gsm_measure (Some 1) AtQuery;
              MkCellCaller gsm_measure (Some 2) AtQuery] empty_session in
  map cc_pc r.1 = [Finished 1; Finished 1]
  ∧ new_reports r.1 = 2%nat
  ∧ total_of (cell r.2 !! key_of_cell gsm_measure) = 2
  ∧ score r.2 = [ScoreCall 1 1 "new_cell"; ScoreCall 2 1 "new_cell"].
Proof.
  apply (interleaved_callers_both_report_new gsm_measure empty_session 1 2
           "ab" "2013-10-01" eq_refl eq_refl eq_refl).
Defined.

(** The same two callers one after the other: one new report. *)
Lemma sequential_callers_one_report :
  let r := run_cell_callers [0; 0; 0; 1; 1; 1]%nat
             [MkCellCaller gsm_measure (Some 1) AtQuery;
              MkCellCaller gsm_measure (Some 2) AtQuery] empty_session in
  map cc_pc r.1 = [Finished 1; Finished 0]
  ∧ total_of (cell r.2 !! key_of_cell gsm_measure) = 2
  ∧ score r.2 = [ScoreCall 1 1 "new_cell"].
Proof. split_and!; reflexivity. Qed.

(** A caller run alone does what [update_cell_measure_count] does. *)
Lemma lone_caller_is_update {datetime} (m : @CellMeasure datetime)
    (userid : option Z) (s : @session datetime) :
  (run_cell_callers [0; 0; 0]%nat [MkCellCaller m userid AtQuery] s).2
  = update_cell_measure_count m s userid.
Proof.
  unfold update_cell_measure_count.
  cbn -[cell_execute cell_credit cell_query_first incomplete].
  destruct (incomplete m); reflexivity.
Qed.

(** * Further properties of the code *)

(** ** convert_frequency *)

(** X1: the conversion raises exactly when the entry gives a non-zero
    frequency and has no [channel] key, and what it raises then is
    [KeyError('channel')]. *)
Theorem convert_frequency_raises_iff (entry : wifi_entry) :
  (convert_frequency entry).2
  = if truthy (default 0 (w_frequency entry)) && is_null (w_channel entry)
    then Raise (KeyError "channel") else Ok ().
Proof.
  unfold convert_frequency.
  destruct (truthy (default 0 (w_frequency entry))); [|done].
  destruct (w_channel entry) as [c|] eqn:Hc; simpl; rewrite Hc; simpl; [|done].
  repeat (case_match; simpl; try done).
Qed.

(** X2: whatever the outcome, the entry is left without its frequency, and
    with the key, id and signal it had. *)
Theorem convert_frequency_consumes_frequency (entry : wifi_entry) :
  let entry' := (convert_frequency entry).1 in
  w_frequency entry' = None
  ∧ w_key entry' = w_key entry
  ∧ w_id entry' = w_id entry
  ∧ w_signal entry' = w_signal entry.
Proof.
  unfold convert_frequency.
  destruct (truthy _); [|done].
  destruct (w_channel entry) as [c|] eqn:Hc; simpl; rewrite ?Hc; simpl; [|done].
  repeat (case_match; simpl; try done).
Qed.

(** X3: a channel other than 0 given by the client is kept, whatever the
    frequency says. *)
Theorem convert_frequency_keeps_given_channel (entry : wifi_entry) (c : Z) :
  w_channel entry = Some c → c ≠ 0 →
  convert_frequency entry = (pop_frequency entry, Ok ())
  ∧ w_channel (convert_frequency entry).1 = Some c.
Proof.
  intros Hc Hne. unfold convert_frequency. simpl. rewrite Hc. simpl.
  unfold truthy. destruct (Z.eqb_spec c 0); [done|]. simpl.
  by destruct (negb (default 0 (w_frequency entry) =? 0)).
Qed.

Lemma convert_frequency_keeps_given_channel_witness :
  convert_frequency (WifiEntry None (Some "cd") (Some 11) (Some 2437) None)
  = (WifiEntry None (Some "cd") (Some 11) None None, Ok ())
  ∧ w_channel
      (convert_frequency
         (WifiEntry None (Some "cd") (Some 11) (Some 2437) None)).1
    = Some 11.
Proof.
  apply (convert_frequency_keeps_given_channel
           (WifiEntry None (Some "cd") (Some 11) (Some 2437) None) 11 eq_refl).
  lia.
Defined.

(** X4: a channel that the conversion sets is a channel number of one of the
    two bands: 1..13 or 34..165. *)
Theorem convert_frequency_channel_range (entry : wifi_entry) (c : Z) :
  w_channel (convert_frequency entry).1 = Some c →
  w_channel entry ≠ Some c →
  1 ≤ c ≤ 13 ∨ 34 ≤ c ≤ 165.
Proof.
  unfold convert_frequency.
  set (f := default 0 (w_frequency entry)).
  destruct (truthy f); [|simpl; congruence].
  destruct (w_channel entry) as [c0|] eqn:Hc; simpl; rewrite ?Hc; simpl;
    [|congruence].
  destruct (negb (truthy c0)); simpl; [|congruence].
  destruct (Z.ltb_spec 2411 f), (Z.ltb_spec f 2473); simpl;
    try (intros [= <-] _; left;
         split; [apply Z.div_le_lower_bound|apply Z.div_le_upper_bound]; lia);
    destruct (Z.ltb_spec 5169 f), (Z.ltb_spec f 5826); simpl;
    try congruence;
    intros [= <-] _; right;
    (split; [apply Z.div_le_lower_bound|apply Z.div_le_upper_bound]; lia).
Qed.

Lemma convert_frequency_channel_range_witness : 1 ≤ 6 ≤ 13 ∨ 34 ≤ 6 ≤ 165.
Proof.
  apply (convert_frequency_channel_range
           (WifiEntry None (Some "ab") (Some 0) (Some 2437) None) 6 eq_refl).
  discriminate.
Defined.

(** X5: the centre frequency of a channel gives the channel back: 2407 + 5 c
    for the channels 1..13, 5000 + 5 c for the channels 34..165. *)
Theorem convert_frequency_centre_frequency (entry : wifi_entry) (c : Z) :
  w_channel entry = Some 0 →
  (1 ≤ c ≤ 13 → w_frequency entry = Some (2407 + 5 * c) →
   w_channel (convert_frequency entry).1 = Some c)
  ∧ (34 ≤ c ≤ 165 → w_frequency entry = Some (5000 + 5 * c) →
     w_channel (convert_frequency entry).1 = Some c).
Proof.
  intros Hc. unfold convert_frequency. simpl. rewrite Hc. simpl. split.
  - intros Hrange ->. simpl. unfold truthy.
    destruct (Z.eqb_spec (2407 + 5 * c) 0); [lia|]. simpl.
    destruct (Z.ltb_spec 2411 (2407 + 5 * c)); [|lia].
    destruct (Z.ltb_spec (2407 + 5 * c) 2473); [|lia]. simpl.
    do 2 f_equal. replace (2407 + 5 * c - 2407) with (c * 5) by lia.
    by rewrite Z.div_mul.
  - intros Hrange ->. simpl. unfold truthy.
    destruct (Z.eqb_spec (5000 + 5 * c) 0); [lia|]. simpl.
    destruct (Z.ltb_spec 2411 (5000 + 5 * c)); [|lia].
    destruct (Z.ltb_spec (5000 + 5 * c) 2473); [lia|]. simpl.
    destruct (Z.ltb_spec 5169 (5000 + 5 * c)); [|lia].
    destruct (Z.ltb_spec (5000 + 5 * c) 5826); [|lia]. simpl.
    do 2 f_equal. replace (5000 + 5 * c - 5000) with (c * 5) by lia.
    by rewrite Z.div_mul.
Qed.

Lemma convert_frequency_centre_frequency_witness :
  w_channel
    (convert_frequency (WifiEntry None (Some "ab") (Some 0) (Some 2462) None)).1
  = Some 11
  ∧ w_channel
      (convert_frequency
         (WifiEntry None (Some "ab") (Some 0) (Some 5180) None)).1
    = Some 36.
Proof.
  split.
  - apply (proj1 (convert_frequency_centre_frequency
             (WifiEntry None (Some "ab") (Some 0) (Some 2462) None) 11
             eq_refl)); [lia|reflexivity].
  - apply (proj2 (convert_frequency_centre_frequency
             (WifiEntry None (Some "ab") (Some 0) (Some 5180) None) 36
             eq_refl)); [lia|reflexivity].
Defined.

(** X6: converting an entry a second time changes nothing and does not
    raise, even when the first conversion raised. *)
Theorem convert_frequency_twice (entry : wifi_entry) :
  convert_frequency (convert_frequency entry).1
  = ((convert_frequency entry).1, Ok ()).
Proof.
  pose proof (convert_frequency_pops entry) as Hpop.
  destruct (convert_frequency entry) as [[i k c f sg] r]. simpl in *.
  subst f. reflexivity.
Qed.

(** ** The registry under the station updates *)

Section RegistryProperties.

Context {datetime : Type}.

Local Abbreviation session := (@session datetime).
Local Abbreviation Station := (@Station datetime).

Lemma registry_le_refl `{Countable K} (t : gmap K Station) : registry_le t t.
Proof. intros k r Hr. exists r. split_and!; [done|done|lia|lia]. Qed.

Lemma registry_le_trans `{Countable K} (t1 t2 t3 : gmap K Station) :
  registry_le t1 t2 → registry_le t2 t3 → registry_le t1 t3.
Proof.
  intros H12 H23 k r Hr.
  destruct (H12 k r Hr) as (r2 & Hr2 & Hc2 & Hn2 & Ht2).
  destruct (H23 k r2 Hr2) as (r3 & Hr3 & Hc3 & Hn3 & Ht3).
  exists r3. split_and!; [done|congruence|lia|lia].
Qed.

Lemma registry_le_insert_on_duplicate `{Countable K} (k : K)
    (created : datetime) (t : gmap K Station) :
  registry_le t (insert_on_duplicate k created t).
Proof.
  intros k' r Hr. unfold insert_on_duplicate.
  destruct (decide (k = k')) as [<-|Hne].
  - rewrite Hr, lookup_insert_eq. eexists. split; [done|]. simpl.
    split_and!; [done|lia|lia].
  - destruct (t !! k); rewrite lookup_insert_ne by done;
      exists r; split_and!; try done; lia.
Qed.

(** What a station update of a complete measure does to the session. *)
Lemma update_cell_fields (m : @CellMeasure datetime) (s : session)
    (userid : option Z) :
  incomplete m = false →
  let s' := update_cell_measure_count m s userid in
  cell s' = insert_on_duplicate (key_of_cell m) (cm_created m) (cell s)
  ∧ score s'
    = score s
      ++ new_cell_credits userid
           (if is_null (cell s !! key_of_cell m) then 1 else 0)%nat
  ∧ wifi s' = wifi s ∧ wifi_measure s' = wifi_measure s
  ∧ cell_measure s' = cell_measure s ∧ measure s' = measure s
  ∧ wifi_blacklist s' = wifi_blacklist s.
Proof.
  intros Hinc.
  unfold update_cell_measure_count, cell_query_first, cell_credit,
    cell_execute, process_score, new_cell_credits.
  rewrite Hinc.
  destruct (cell s !! key_of_cell m) eqn:Hk; destruct userid; simpl;
    rewrite ?app_nil_r; done.
Qed.

(** X7: the same station updated n + 1 times in a row, from a registry that
    does not have it, with a user id: the counters are both n + 1, the row
    has the creation time of the measure, the other rows are as they were,
    and one score call is made, by the first update. *)
Theorem repeated_updates_one_credit (m : @CellMeasure datetime) (s : session)
    (u : Z) (n : nat) :
  incomplete m = false →
  cell s !! key_of_cell m = None →
  let s' := Nat.iter (S n) (λ s, update_cell_measure_count m s (Some u)) s in
  cell s' !! key_of_cell m
  = Some (MkStation (cm_created m) (Z.of_nat (S n)) (Z.of_nat (S n)))
  ∧ (∀ k, k ≠ key_of_cell m → cell s' !! k = cell s !! k)
  ∧ score s' = score s ++ [ScoreCall u 1 "new_cell"].
Proof.
  intros Hinc Hnew. induction n as [|n IH].
  - cbn [Nat.iter nat_rect].
    destruct (update_cell_fields m s (Some u) Hinc) as (Hc & Hs & _).
    rewrite Hc, Hs, Hnew. unfold insert_on_duplicate. rewrite Hnew.
    split_and!; [by rewrite lookup_insert_eq| |done].
    intros k Hk. by rewrite lookup_insert_ne.
  - destruct IH as (Hrow & Hother & Hscore).
    set (s1 := Nat.iter (S n) _ s) in *.
    change (Nat.iter (S (S n)) ?f s) with (f s1).
    destruct (update_cell_fields m s1 (Some u) Hinc) as (Hc & Hs & _).
    cbv zeta. rewrite Hc, Hs, Hrow, Hscore. unfold insert_on_duplicate.
    rewrite Hrow. simpl. rewrite app_nil_r.
    split_and!; [|intros k Hk; rewrite lookup_insert_ne by done; auto|done].
    rewrite lookup_insert_eq. do 2 f_equal; lia.
Qed.

End RegistryProperties.

Lemma repeated_updates_one_credit_witness :
  let s' := Nat.iter 3 (λ s, update_cell_measure_count gsm_measure s (Some 42))
              empty_session in
  cell s' !! key_of_cell gsm_measure = Some (MkStation "2013-10-01" 3 3)
  ∧ (∀ k, k ≠ key_of_cell gsm_measure → cell s' !! k = cell empty_session !! k)
  ∧ score s' = [ScoreCall 42 1 "new_cell"].
Proof.
  apply (repeated_updates_one_credit gsm_measure empty_session 42 2
           eq_refl eq_refl).
Defined.

(** ** Cell batches *)

Section CellBatchProperties.

Context {datetime : Type}.
Variable decode_datetime : string → datetime.
Variable RADIO_TYPE : gmap string Z.

Local Abbreviation create := (create_cell_measure decode_datetime).
Local Abbreviation resolve := (resolve_radio RADIO_TYPE).
Local Abbreviation loop := (process_cell_entries decode_datetime RADIO_TYPE).
Local Abbreviation process := (process_cell_measure decode_datetime RADIO_TYPE).
Local Abbreviation session := (@session datetime).
Local Abbreviation keys := (counted_keys RADIO_TYPE).

Lemma occurrences_cons `{EqDecision K} (k x : K) (l : list K) :
  occurrences k (x :: l)
  = ((if bool_decide (x = k) then 1 else 0) + occurrences k l)%nat.
Proof. unfold occurrences. simpl. by case_bool_decide. Qed.

Lemma size_first_seen `{Countable K} (k : K) (S D : gset K) :
  size (({[k]} ∪ S) ∖ D)
  = ((if decide (k ∈ D) then 0 else 1) + size (S ∖ ({[k]} ∪ D)))%nat.
Proof.
  case_decide as Hk.
  - simpl. f_equal. set_solver.
  - assert (({[k]} ∪ S) ∖ D = {[k]} ∪ (S ∖ ({[k]} ∪ D))) as ->.
    { apply set_eq. intros x. set_unfold.
      destruct (decide (x = k)) as [->|]; naive_solver. }
    rewrite size_union by set_solver. by rewrite size_singleton.
Qed.

Lemma new_cell_credits_add (userid : option Z) (a b : nat) :
  new_cell_credits userid a ++ new_cell_credits userid b
  = new_cell_credits userid (a + b).
Proof.
  unfold new_cell_credits. destruct userid; [|done].
  by rewrite replicate_add.
Qed.

Lemma counted_key_created (md : measure_data) (e : cell_entry)
    (c : @CellMeasure datetime) (radio : Z) :
  create md e = Ok c → resolve md e = Ok radio →
  cm_created c = decode_datetime (default "" (md_created md))
  ∧ counted_key RADIO_TYPE md e
    = if incomplete (set_radio radio c) then None
      else Some (key_of_cell (set_radio radio c)).
Proof.
  intros Hc Hr. unfold counted_key, entry_incomplete. rewrite Hr.
  unfold create_cell_measure in Hc.
  destruct (md_id md), (md_lat md), (md_lon md), (e_mcc e), (e_mnc e);
    simpl in Hc; simplify_eq.
  split; [done|]. by rewrite incomplete_set_radio.
Qed.

(** The loop on well-formed entries, in closed form. *)
Lemma process_cell_entries_closed (md : measure_data) (userid : option Z)
    (entries : list cell_entry) :
  report_ok md = true →
  forallb (cell_entry_ok md) entries = true →
  ∀ (s : session) (acc : list CellMeasure),
  ∃ s' rows,
    loop md userid entries s acc = Ok (s', acc ++ rows)
    ∧ (∀ k, cell s' !! k
            = observed (decode_datetime (default "" (md_created md)))
                (occurrences k (keys md entries)) (cell s !! k))
    ∧ score s'
      = score s
        ++ new_cell_credits userid
             (size (list_to_set (keys md entries) ∖ dom (cell s))).
Proof.
  intros Hmd. induction entries as [|e entries IH]; intros Hok s acc.
  { exists s, []. simpl. rewrite app_nil_r. split_and!; try done.
    replace (∅ ∖ dom (cell s)) with (∅ : gset cell_key) by set_solver.
    rewrite size_empty. destruct userid; simpl; by rewrite app_nil_r. }
  simpl in Hok. apply andb_true_iff in Hok as [He Hok].
  destruct (create_cell_measure_ok decode_datetime md e Hmd He)
    as (c & Hc & _).
  destruct (resolve_radio_ok RADIO_TYPE md e He) as (radio & Hr).
  destruct (counted_key_created md e c radio Hc Hr) as [Hcreated Hkey].
  cbn [process_cell_entries]. rewrite Hc, Hr. simpl.
  unfold counted_keys. cbn [omap list_omap]. fold (keys md entries).
  rewrite Hkey.
  destruct (incomplete (set_radio radio c)) eqn:Hinc.
  - rewrite update_cell_incomplete by done.
    destruct (IH Hok s (acc ++ [set_radio radio c]))
      as (s' & rows & H1 & H2 & H3).
    exists s', (set_radio radio c :: rows).
    rewrite H1, <- app_assoc. done.
  - set (m := set_radio radio c) in *.
    destruct (update_cell_fields m s userid Hinc) as (Hcell & Hscore & _).
    destruct (IH Hok (update_cell_measure_count m s userid) (acc ++ [m]))
      as (s' & rows & H1 & H2 & H3).
    exists s', (m :: rows). rewrite H1, <- app_assoc.
    split_and!; [done| |].
    + intros k. rewrite H2, Hcell, lookup_insert_on_duplicate.
      rewrite occurrences_cons.
      change (cm_created m) with (cm_created c). rewrite Hcreated.
      case_decide as Hk.
      * subst k. rewrite bool_decide_eq_true_2 by done.
        symmetry. apply observed_S.
      * rewrite bool_decide_eq_false_2 by done. done.
    + rewrite H3, Hscore, Hcell, dom_insert_on_duplicate, <- app_assoc.
      f_equal. rewrite new_cell_credits_add. f_equal.
      rewrite list_to_set_cons, size_first_seen. f_equal.
      destruct (cell s !! key_of_cell m) eqn:Hrow; simpl.
      * rewrite decide_True; [done|]. apply elem_of_dom. eauto.
      * rewrite decide_False; [done|]. by apply not_elem_of_dom.
Qed.

Lemma process_cell_measure_closed (s : session) (md : measure_data)
    (entries : list cell_entry) (userid : option Z) :
  report_ok md = true →
  forallb (cell_entry_ok md) entries = true →
  ∃ s' rows,
    process s md entries userid = Ok (s', rows)
    ∧ (∀ k, cell s' !! k
            = observed (decode_datetime (default "" (md_created md)))
                (occurrences k (keys md entries)) (cell s !! k))
    ∧ score s'
      = score s
        ++ new_cell_credits userid
             (size (list_to_set (keys md entries) ∖ dom (cell s))).
Proof.
  intros Hmd Hok.
  destruct (process_cell_entries_closed md userid entries Hmd Hok s [])
    as (s' & rows & H1 & H2 & H3).
  unfold process_cell_measure. rewrite H1. simpl.
  eexists _, _. split; [done|]. simpl. done.
Qed.

(** What the loop does whenever it does not raise: the rows are those of the
    entries, in order; nothing but the cell registry and the score calls
    changes; the registry grows. *)
Lemma process_cell_entries_frame (md : measure_data) (userid : option Z)
    (entries : list cell_entry) :
  ∀ (s s' : session) (acc rows' : list CellMeasure),
  loop md userid entries s acc = Ok (s', rows') →
  rows' = acc ++ omap (cell_row decode_datetime RADIO_TYPE md) entries
  ∧ length (omap (cell_row decode_datetime RADIO_TYPE md) entries)
    = length entries
  ∧ wifi s' = wifi s ∧ wifi_measure s' = wifi_measure s
  ∧ cell_measure s' = cell_measure s ∧ measure s' = measure s
  ∧ wifi_blacklist s' = wifi_blacklist s
  ∧ registry_le (cell s) (cell s').
Proof.
  induction entries as [|e entries IH]; intros s s' acc rows' Hrun.
  - simpl in Hrun. simplify_eq. rewrite app_nil_r.
    split_and!; try done. apply registry_le_refl.
  - cbn [process_cell_entries] in Hrun.
    destruct (create md e) as [c|] eqn:Hc; [|done].
    destruct (resolve md e) as [radio|] eqn:Hr; [|done].
    assert (cell_row decode_datetime RADIO_TYPE md e
            = Some (set_radio radio c)) as Hrow
      by (unfold cell_row; by rewrite Hc, Hr).
    cbn [omap list_omap]. rewrite Hrow.
    simpl in Hrun.
    apply IH in Hrun as (-> & Hlen & H1 & H2 & H3 & H4 & H5 & H6).
    pose proof (update_cell_keeps_rows (set_radio radio c) s userid)
      as (K1 & K2 & K3 & K4 & K5).
    rewrite <- app_assoc. cbn [length app]. split_and!; try congruence.
    eapply registry_le_trans; [|exact H6].
    destruct (incomplete (set_radio radio c)) eqn:Hinc.
    + rewrite update_cell_incomplete by done. apply registry_le_refl.
    + pose proof (update_cell_fields (set_radio radio c) s userid Hinc)
        as [Hcell _].
      rewrite Hcell. apply registry_le_insert_on_duplicate.
Qed.

Lemma occurrences_Permutation `{EqDecision K} (k : K) (l l' : list K) :
  l ≡ₚ l' → occurrences k l = occurrences k l'.
Proof.
  induction 1 as [|x l l' _ IH|x y l|l l' l'' _ IH1 _ IH2].
  - done.
  - by rewrite !occurrences_cons, IH.
  - rewrite !occurrences_cons. lia.
  - congruence.
Qed.

Lemma forallb_Permutation {A} (f : A → bool) (l l' : list A) :
  l ≡ₚ l' → forallb f l = true → forallb f l' = true.
Proof.
  intros Hperm Hl. apply forallb_forall. intros x Hx.
  rewrite forallb_forall in Hl. apply Hl.
  eapply Permutation_in; [symmetry; exact Hperm|done].
Qed.

Lemma process_cell_measure_frame (s s' : session) (md : measure_data)
    (entries : list cell_entry) (userid : option Z) (rows : list CellMeasure) :
  process s md entries userid = Ok (s', rows) →
  rows = omap (cell_row decode_datetime RADIO_TYPE md) entries
  ∧ length rows = length entries
  ∧ cell_measure s' = cell_measure s ++ rows
  ∧ wifi s' = wifi s ∧ wifi_measure s' = wifi_measure s
  ∧ measure s' = measure s ∧ wifi_blacklist s' = wifi_blacklist s
  ∧ registry_le (cell s) (cell s').
Proof.
  unfold process_cell_measure. intros Hrun.
  destruct (loop md userid entries s []) as [[s1 rows1]|] eqn:Hloop; [|done].
  simpl in Hrun. simplify_eq.
  apply process_cell_entries_frame in Hloop
    as (-> & Hlen & H1 & H2 & H3 & H4 & H5 & H6).
  simpl. split_and!; try done. by rewrite H3.
Qed.

(** X8: a cell batch that does not raise appends one derived row per entry,
    in the order of the entries, to the cell_measure table, leaves the wifi
    registry, the wifi_measure table, the raw measure table and the blacklist
    as they were, and lets the cell registry only grow: every row it had is
    still there, with its creation time and with counters that are not
    smaller. *)
Theorem process_cell_measure_appends_and_grows (s s' : session)
    (md : measure_data) (entries : list cell_entry) (userid : option Z)
    (rows : list CellMeasure) :
  process s md entries userid = Ok (s', rows) →
  rows = omap (cell_row decode_datetime RADIO_TYPE md) entries
  ∧ length rows = length entries
  ∧ cell_measure s' = cell_measure s ++ rows
  ∧ wifi s' = wifi s ∧ wifi_measure s' = wifi_measure s
  ∧ measure s' = measure s ∧ wifi_blacklist s' = wifi_blacklist s
  ∧ registry_le (cell s) (cell s').
Proof. apply process_cell_measure_frame. Qed.

(** X9: in a well-formed cell batch an entry counts under its key unless it
    is incomplete; a registry row ends as the row after as many upserts as
    the batch has counted entries with its key, duplicates included, and the
    score calls are one for each distinct counted key that the registry did
    not have. *)
Theorem cell_batch_counts (s : session) (md : measure_data)
    (entries : list cell_entry) (userid : option Z) :
  report_ok md = true →
  forallb (cell_entry_ok md) entries = true →
  ∃ s' rows,
    process s md entries userid = Ok (s', rows)
    ∧ (∀ k, cell s' !! k
            = observed (decode_datetime (default "" (md_created md)))
                (occurrences k (keys md entries)) (cell s !! k))
    ∧ score s'
      = score s
        ++ new_cell_credits userid
             (size (list_to_set (keys md entries) ∖ dom (cell s))).
Proof. apply process_cell_measure_closed. Qed.

(** X10: the order of the entries of a well-formed cell batch does not
    matter to the registry or to the score calls; the derived rows come out
    in the order of the entries. *)
Theorem cell_batch_order_irrelevant (s : session) (md : measure_data)
    (entries entries' : list cell_entry) (userid : option Z) :
  entries ≡ₚ entries' →
  report_ok md = true →
  forallb (cell_entry_ok md) entries = true →
  ∃ s1 rows1 s2 rows2,
    process s md entries userid = Ok (s1, rows1)
    ∧ process s md entries' userid = Ok (s2, rows2)
    ∧ cell s1 = cell s2 ∧ score s1 = score s2 ∧ rows1 ≡ₚ rows2.
Proof.
  intros Hperm Hmd Hok.
  pose proof (forallb_Permutation _ _ _ Hperm Hok) as Hok'.
  destruct (process_cell_measure_closed s md entries userid Hmd Hok)
    as (s1 & rows1 & H1 & Hc1 & Hs1).
  destruct (process_cell_measure_closed s md entries' userid Hmd Hok')
    as (s2 & rows2 & H2 & Hc2 & Hs2).
  exists s1, rows1, s2, rows2.
  assert (keys md entries ≡ₚ keys md entries') as Hkeys
    by (unfold counted_keys; by rewrite Hperm).
  split_and!; try done.
  - apply map_eq. intros k.
    by rewrite Hc1, Hc2, (occurrences_Permutation k _ _ Hkeys).
  - by rewrite Hs1, Hs2, Hkeys.
  - apply process_cell_measure_frame in H1 as [-> _].
    apply process_cell_measure_frame in H2 as [-> _].
    by rewrite Hperm.
Qed.

(** X11: an entry that names a radio that [RADIO_TYPE] does not have is
    stored with the radio -1 and is not counted, whatever radio the report
    has: the registry and the score calls stay as they were. *)
Theorem unrecognised_radio_not_counted (s : session) (md : measure_data)
    (e : cell_entry) (r : string) (userid : option Z) :
  report_ok md = true →
  is_null (e_mcc e) = false → is_null (e_mnc e) = false →
  e_radio e = Some r → r ≠ "" → RADIO_TYPE !! r = None →
  ∃ row, process s md [e] userid = Ok (add_all_cell [row] s, [row])
         ∧ cm_radio row = Some (-1).
Proof.
  intros Hmd Hmcc Hmnc Hradio Hr Hunknown.
  assert (truthy_str (e_radio e) = true) as Htruthy.
  { rewrite Hradio. simpl. apply negb_true_iff.
    by apply String.eqb_neq. }
  assert (cell_entry_ok md e = true) as Hok.
  { unfold cell_entry_ok. by rewrite Hmcc, Hmnc, Htruthy. }
  destruct (create_cell_measure_ok decode_datetime md e Hmd Hok)
    as (c & Hc & _).
  unfold process_cell_measure. cbn [process_cell_entries].
  rewrite Hc. unfold resolve_radio. rewrite Htruthy, Hradio. simpl.
  rewrite Hunknown. simpl.
  rewrite update_cell_incomplete
    by (rewrite incomplete_set_radio; done).
  eexists. split; reflexivity.
Qed.

End CellBatchProperties.

Lemma process_cell_measure_appends_and_grows_witness :
  ∃ s' rows,
    process_cell_measure text_datetime example_radio_type empty_session
      example_report [cell_without_lac; gsm_entry] (Some 42) = Ok (s', rows)
    ∧ length rows = 2%nat
    ∧ cell_measure s' = rows
    ∧ wifi s' = ∅ ∧ wifi_measure s' = [].
Proof.
  eexists _, _. split; [reflexivity|].
  destruct (process_cell_measure_appends_and_grows text_datetime
              example_radio_type empty_session _ example_report
              [cell_without_lac; gsm_entry] (Some 42) _ eq_refl)
    as (_ & H2 & H3 & H4 & H5 & _).
  split_and!; assumption.
Defined.

Lemma cell_batch_counts_witness :
  ∃ s' rows,
    process_cell_measure text_datetime example_radio_type empty_session
      example_report [gsm_entry; cell_without_lac; gsm_entry] (Some 42)
    = Ok (s', rows)
    ∧ cell s' !! (Some 0, 1, 1, 5, 9) = Some (MkStation "2013-10-01" 2 2)
    ∧ score s' = [ScoreCall 42 1 "new_cell"].
Proof.
  destruct (cell_batch_counts text_datetime example_radio_type empty_session
              example_report [gsm_entry; cell_without_lac; gsm_entry]
              (Some 42) eq_refl eq_refl)
    as (s' & rows & H1 & H2 & H3).
  exists s', rows. split_and!.
  - exact H1.
  - rewrite H2. reflexivity.
  - rewrite H3. reflexivity.
Defined.

Lemma cell_batch_order_irrelevant_witness :
  ∃ s1 rows1 s2 rows2,
    process_cell_measure text_datetime example_radio_type empty_session
      example_report [gsm_entry; cell_without_lac] (Some 42) = Ok (s1, rows1)
    ∧ process_cell_measure text_datetime example_radio_type empty_session
        example_report [cell_without_lac; gsm_entry] (Some 42)
      = Ok (s2, rows2)
    ∧ cell s1 = cell s2 ∧ score s1 = score s2 ∧ rows1 ≡ₚ rows2.
Proof.
  apply (cell_batch_order_irrelevant text_datetime example_radio_type
           empty_session example_report [gsm_entry; cell_without_lac]
           [cell_without_lac; gsm_entry] (Some 42)).
  - apply perm_swap.
  - reflexivity.
  - reflexivity.
Defined.

Lemma unrecognised_radio_not_counted_witness :
  ∃ row,
    process_cell_measure text_datetime example_radio_type empty_session
      example_report
      [CellEntry (Some "wimax") (Some 1) (Some 1) (Some 5) (Some 9)
         None None None None] (Some 42)
    = Ok (add_all_cell [row] empty_session, [row])
    ∧ cm_radio row = Some (-1).
Proof.
  apply (unrecognised_radio_not_counted text_datetime example_radio_type
           empty_session example_report
           (CellEntry (Some "wimax") (Some 1) (Some 1) (Some 5) (Some 9)
              None None None None)
           "wimax" (Some 42) eq_refl eq_refl eq_refl eq_refl).
  - discriminate.
  - reflexivity.
Defined.

(** ** Wifi batches *)

Lemma convert_frequency_other_fields (entry : wifi_entry) :
  w_key (convert_frequency entry).1 = w_key entry
  ∧ w_id (convert_frequency entry).1 = w_id entry
  ∧ w_signal (convert_frequency entry).1 = w_signal entry.
Proof.
  unfold convert_frequency.
  destruct (truthy _); [|done].
  destruct (w_channel entry) as [c|] eqn:Hc; simpl; rewrite ?Hc; simpl; [|done].
  repeat (case_match; simpl; try done).
Qed.

Section WifiBatchProperties.

Context {datetime : Type}.
Variable decode_datetime : string → datetime.

Local Abbreviation create := (create_wifi_measure decode_datetime).
Local Abbreviation loop := (process_wifi_entries decode_datetime).
Local Abbreviation process := (process_wifi_measure decode_datetime).
Local Abbreviation session := (@session datetime).
Local Abbreviation row := (wifi_row decode_datetime).

Lemma process_wifi_entries_frame (md : measure_data) (blacked : gset string)
    (userid : option Z) (entries : list wifi_entry) :
  ∀ (wifis : gmap string bool) (s s' : session) (acc rows' : list WifiMeasure),
  loop md (decode_datetime (default "" (md_created md))) blacked userid
    entries wifis s acc = Ok (s', rows') →
  rows' = acc ++ omap (row md) entries
  ∧ length (omap (row md) entries) = length entries
  ∧ cell s' = cell s ∧ cell_measure s' = cell_measure s
  ∧ wifi_measure s' = wifi_measure s ∧ measure s' = measure s
  ∧ wifi_blacklist s' = wifi_blacklist s
  ∧ registry_le (wifi s) (wifi s').
Proof.
  induction entries as [|e entries IH]; intros wifis s s' acc rows' Hrun.
  - simpl in Hrun. simplify_eq. rewrite app_nil_r.
    split_and!; try done. apply registry_le_refl.
  - cbn [process_wifi_entries] in Hrun.
    destruct (getitem "key" (w_key e)) as [k|]; [|done]. simpl in Hrun.
    assert (row md e
            = match (convert_frequency e).2,
                    create md (decode_datetime (default "" (md_created md)))
                      (convert_frequency e).1 with
              | Ok _, Ok w => Some w
              | _, _ => None
              end) as Hrow by done.
    destruct (convert_frequency e) as [e' [[]|]]; [|done].
    simpl in Hrun, Hrow.
    destruct (create md _ e') as [w|]; [|done]. simpl in Hrun.
    cbn [omap list_omap]. rewrite Hrow.
    destruct (decide (k ∉ blacked)).
    + pose proof (update_wifi_fields k wifis
                    (decode_datetime (default "" (md_created md))) s userid)
        as Hupd.
      destruct (update_wifi_measure_count k wifis _ s userid) as [wifis1 s1].
      simpl in Hupd.
      destruct Hupd as (Hwifi & _ & _ & K1 & K2 & K3 & K4 & K5).
      apply IH in Hrun as (-> & Hlen & H1 & H2 & H3 & H4 & H5 & H6).
      rewrite <- app_assoc. cbn [length app].
      split_and!; try congruence.
      eapply registry_le_trans; [|exact H6].
      rewrite Hwifi. apply registry_le_insert_on_duplicate.
    + apply IH in Hrun as (-> & Hlen & H1 & H2 & H3 & H4 & H5 & H6).
      rewrite <- app_assoc. cbn [length app].
      split_and!; try congruence. exact H6.
Qed.

Lemma process_wifi_measure_frame (s s' : session) (md : measure_data)
    (entries : list wifi_entry) (userid : option Z) (rows : list WifiMeasure) :
  process s md entries userid = Ok (s', rows) →
  rows = omap (row md) entries
  ∧ length rows = length entries
  ∧ wifi_measure s' = wifi_measure s ++ rows
  ∧ cell s' = cell s ∧ cell_measure s' = cell_measure s
  ∧ measure s' = measure s ∧ wifi_blacklist s' = wifi_blacklist s
  ∧ registry_le (wifi s) (wifi s').
Proof.
  unfold process_wifi_measure. intros Hrun.
  destruct (entry_keys entries) as [ks|]; [|done]. simpl in Hrun.
  destruct (loop md _ _ userid entries _ s []) as [[s1 rows1]|] eqn:Hloop;
    [|done].
  simpl in Hrun. simplify_eq.
  apply process_wifi_entries_frame in Hloop
    as (-> & Hlen & H1 & H2 & H3 & H4 & H5 & H6).
  simpl. split_and!; try done. by rewrite H3.
Qed.

Lemma count_key_Permutation (k : string) (l l' : list wifi_entry) :
  l ≡ₚ l' → count_key k l = count_key k l'.
Proof.
  induction 1 as [|x l l' _ IH|x y l|l l' l'' _ IH1 _ IH2].
  - done.
  - by rewrite !count_key_cons, IH.
  - rewrite !count_key_cons. lia.
  - congruence.
Qed.

Lemma omap_length_le {A B} (f : A → option B) (l : list A) :
  (length (omap f l) ≤ length l)%nat.
Proof.
  induction l as [|a l IH]; [done|]. cbn [omap list_omap].
  destruct (f a); cbn [length]; lia.
Qed.

Lemma omap_rows_Forall2 {A B} (f : A → option B) (l : list A) :
  length (omap f l) = length l →
  Forall2 (λ a b, f a = Some b) l (omap f l).
Proof.
  induction l as [|a l IH]; [constructor|].
  cbn [omap list_omap].
  pose proof (omap_length_le f l) as Hle.
  destruct (f a) as [b|] eqn:Hfa; cbn [length].
  - intros [= Hlen]. constructor; auto.
  - intros Hlen. lia.
Qed.

(** X12: a wifi batch that does not raise appends one derived row per
    entry, in the order of the entries, to the wifi_measure table, leaves the
    cell registry, the cell_measure table, the raw measure table and the
    blacklist as they were, and lets the wifi registry only grow. *)
Theorem process_wifi_measure_appends_and_grows (s s' : session)
    (md : measure_data) (entries : list wifi_entry) (userid : option Z)
    (rows : list WifiMeasure) :
  process s md entries userid = Ok (s', rows) →
  rows = omap (row md) entries
  ∧ length rows = length entries
  ∧ wifi_measure s' = wifi_measure s ++ rows
  ∧ cell s' = cell s ∧ cell_measure s' = cell_measure s
  ∧ measure s' = measure s ∧ wifi_blacklist s' = wifi_blacklist s
  ∧ registry_le (wifi s) (wifi s').
Proof. apply process_wifi_measure_frame. Qed.

(** X13: the derived row of a wifi entry has the channel that the
    conversion leaves on the entry (the given one, one derived from the
    frequency, or 0), and the key, id and signal of the entry. *)
Theorem wifi_rows_carry_converted_channel (s s' : session) (md : measure_data)
    (entries : list wifi_entry) (userid : option Z) (rows : list WifiMeasure) :
  process s md entries userid = Ok (s', rows) →
  Forall2 (λ e w,
    wm_channel w = default 0 (w_channel (convert_frequency e).1)
    ∧ w_key e = Some (wm_key w)
    ∧ wm_id w = w_id e
    ∧ wm_signal w = default 0 (w_signal e)) entries rows.
Proof.
  intros Hrun.
  apply process_wifi_measure_frame in Hrun as (-> & Hlen & _).
  apply omap_rows_Forall2 in Hlen.
  eapply Forall2_impl; [exact Hlen|]. clear. intros e w. simpl.
  unfold wifi_row, create_wifi_measure.
  pose proof (convert_frequency_other_fields e) as (Hk & Hi & Hs).
  destruct (convert_frequency e) as [e' [[]|]]; [|done]. simpl in *.
  destruct (md_id md), (md_lat md), (md_lon md), (w_key e') eqn:Hkey;
    simpl; try done.
  intros [= <-]. simpl. rewrite <- Hk, Hi, Hs. done.
Qed.

(** X14: the order of the entries of a well-formed wifi batch does not
    matter to the registry or to the score calls; the derived rows come out
    in the order of the entries. *)
Theorem wifi_batch_order_irrelevant (s : session) (md : measure_data)
    (entries entries' : list wifi_entry) (userid : option Z) :
  entries ≡ₚ entries' →
  report_ok md = true →
  forallb wifi_entry_ok entries = true →
  ∃ s1 rows1 s2 rows2,
    process s md entries userid = Ok (s1, rows1)
    ∧ process s md entries' userid = Ok (s2, rows2)
    ∧ wifi s1 = wifi s2 ∧ score s1 = score s2 ∧ rows1 ≡ₚ rows2.
Proof.
  intros Hperm Hmd Hok.
  pose proof (forallb_Permutation _ _ _ Hperm Hok) as Hok'.
  destruct (process_wifi_measure_ok decode_datetime s md entries userid
              Hmd Hok) as (s1 & rows1 & H1 & _ & _ & Hw1 & Hs1).
  destruct (process_wifi_measure_ok decode_datetime s md entries' userid
              Hmd Hok') as (s2 & rows2 & H2 & _ & _ & Hw2 & Hs2).
  exists s1, rows1, s2, rows2.
  assert (keys_of entries ≡ₚ keys_of entries') as Hkeys
    by (unfold keys_of; by rewrite Hperm).
  split_and!; try done.
  - apply map_eq. intros k.
    by rewrite Hw1, Hw2, (count_key_Permutation k _ _ Hperm).
  - by rewrite Hs1, Hs2, Hkeys.
  - apply process_wifi_measure_frame in H1 as [-> _].
    apply process_wifi_measure_frame in H2 as [-> _].
    by rewrite Hperm.
Qed.

End WifiBatchProperties.

Lemma process_wifi_measure_appends_and_grows_witness :
  ∃ s' rows,
    process_wifi_measure text_datetime session_ab_blacklisted example_report
      [wifi_ab; wifi_cd] (Some 42) = Ok (s', rows)
    ∧ length rows = 2%nat
    ∧ wifi_measure s' = rows
    ∧ cell s' = ∅ ∧ cell_measure s' = []
    ∧ wifi_blacklist s' = {[ "ab" ]}.
Proof.
  eexists _, _. split; [reflexivity|].
  destruct (process_wifi_measure_appends_and_grows text_datetime
              session_ab_blacklisted _ example_report [wifi_ab; wifi_cd]
              (Some 42) _ eq_refl)
    as (_ & H2 & H3 & H4 & H5 & _ & H7 & _).
  split_and!; assumption.
Defined.

Lemma wifi_rows_carry_converted_channel_witness :
  ∃ s' rows,
    process_wifi_measure text_datetime empty_session example_report
      [wifi_ab; wifi_cd] None = Ok (s', rows)
    ∧ Forall2 (λ e w,
        wm_channel w = default 0 (w_channel (convert_frequency e).1)
        ∧ w_key e = Some (wm_key w)
        ∧ wm_id w = w_id e
        ∧ wm_signal w = default 0 (w_signal e)) [wifi_ab; wifi_cd] rows
    ∧ map wm_channel rows = [6; 11].
Proof.
  eexists _, _. split; [reflexivity|]. split; [|reflexivity].
  apply (wifi_rows_carry_converted_channel text_datetime empty_session _
           example_report [wifi_ab; wifi_cd] None _ eq_refl).
Defined.

Lemma wifi_batch_order_irrelevant_witness :
  ∃ s1 rows1 s2 rows2,
    process_wifi_measure text_datetime session_ab_blacklisted example_report
      [wifi_ab; wifi_cd; wifi_cd] (Some 42) = Ok (s1, rows1)
    ∧ process_wifi_measure text_datetime session_ab_blacklisted example_report
        [wifi_cd; wifi_ab; wifi_cd] (Some 42) = Ok (s2, rows2)
    ∧ wifi s1 = wifi s2 ∧ score s1 = score s2 ∧ rows1 ≡ₚ rows2.
Proof.
  apply (wifi_batch_order_irrelevant text_datetime session_ab_blacklisted
           example_report [wifi_ab; wifi_cd; wifi_cd]
           [wifi_cd; wifi_ab; wifi_cd] (Some 42)).
  - apply perm_swap.
  - reflexivity.
  - reflexivity.
Defined.

(** ** The tasks on a store that accepts the commit *)

Section TaskRuns.

Context {datetime : Type}.
Variable decode_datetime : string → datetime.
Variable encode_datetime : datetime → string.
Variable RADIO_TYPE : gmap string Z.

Local Abbreviation session := (@session datetime).
Local Abbreviation process_cell :=
  (process_cell_measure decode_datetime RADIO_TYPE).
Local Abbreviation reprocess_cell :=
  (reprocess_cell_measure decode_datetime encode_datetime RADIO_TYPE).
Local Abbreviation reprocess_wifi :=
  (reprocess_wifi_measure decode_datetime encode_datetime).

(** X15: on a store that accepts the commit, an insert task given a
    well-formed batch returns the number of entries of the batch, logs
    nothing, and commits a session with that many derived rows more. *)
Theorem insert_tasks_return_batch_size (db : session) (md : measure_data)
    (cells : list cell_entry) (wifis : list wifi_entry) (userid : option Z) :
  report_ok md = true →
  forallb (cell_entry_ok md) cells = true →
  forallb wifi_entry_ok wifis = true →
  (∃ s' rows,
     insert_cell_measure decode_datetime RADIO_TYPE commit_accepts db md cells
       userid = (Returned (length cells), s', [])
     ∧ cell_measure s' = cell_measure db ++ rows
     ∧ length rows = length cells)
  ∧ (∃ s' rows,
       insert_wifi_measure decode_datetime commit_accepts db md wifis userid
       = (Returned (length wifis), s', [])
       ∧ wifi_measure s' = wifi_measure db ++ rows
       ∧ length rows = length wifis).
Proof.
  intros Hmd Hcells Hwifis. split.
  - destruct (process_cell_measure_ok decode_datetime RADIO_TYPE db md cells
                userid Hmd Hcells) as (s' & rows & H1 & H2 & H3).
    exists s', rows. unfold insert_cell_measure. rewrite H1. simpl.
    by rewrite H2.
  - destruct (process_wifi_measure_ok decode_datetime db md wifis userid
                Hmd Hwifis) as (s' & rows & H1 & H2 & H3 & _).
    apply (f_equal length) in H2. rewrite !length_map in H2.
    exists s', rows. unfold insert_wifi_measure. rewrite H1. simpl.
    by rewrite H2.
Qed.

Lemma measures_with_ext {A} (payload : @Measure datetime → option A)
    (db : session) (ids ids' : list Z) :
  (∀ i, i ∈ ids ↔ i ∈ ids') →
  measures_with payload db ids = measures_with payload db ids'.
Proof.
  intros Hsame. unfold measures_with.
  induction (measure db) as [|m ms IH]; [done|]. simpl.
  rewrite (bool_decide_ext (ms_id m ∈ ids) (ms_id m ∈ ids')) by apply Hsame.
  by rewrite IH.
Qed.

(** X16: a reprocess task depends on the set of the ids it is given, not on
    their order or on how often an id is listed: a raw row is loaded once. *)
Theorem reprocess_depends_on_id_set
    (commit : session → result session) (db : session)
    (ids ids' : list Z) (userid : option Z) :
  (∀ i, i ∈ ids ↔ i ∈ ids') →
  reprocess_cell commit db ids userid = reprocess_cell commit db ids' userid
  ∧ reprocess_wifi commit db ids userid = reprocess_wifi commit db ids' userid.
Proof.
  intros Hsame.
  pose proof (measures_with_ext ms_cell db ids ids' Hsame) as Hcell.
  pose proof (measures_with_ext ms_wifi db ids ids' Hsame) as Hwifi.
  unfold measures_with in Hcell, Hwifi.
  unfold reprocess_cell_measure, reprocess_wifi_measure.
  by rewrite Hcell, Hwifi.
Qed.

Lemma cell_row_measure_id (md : measure_data) (e : cell_entry)
    (c : @CellMeasure datetime) :
  cell_row decode_datetime RADIO_TYPE md e = Some c →
  md_id md = Some (cm_measure_id c).
Proof.
  unfold cell_row, create_cell_measure.
  destruct (md_id md), (md_lat md), (md_lon md), (e_mcc e), (e_mnc e);
    simpl; try done.
  destruct (resolve_radio RADIO_TYPE md e); [|done].
  by intros [= <-].
Qed.

(** A run of reprocessing keeps the raw rows and the derived rows it found,
    and leaves a derived row for every raw row with a payload of at least one
    entry. *)
Lemma reprocess_cells_links (userid : option Z) (measures : list Measure) :
  ∀ s s' : session,
  reprocess_cells decode_datetime encode_datetime RADIO_TYPE userid measures s
  = Ok s' →
  measure s' = measure s
  ∧ (∀ c, c ∈ cell_measure s → c ∈ cell_measure s')
  ∧ (∀ m, m ∈ measures → ms_cell m ≠ None → ms_cell m ≠ Some [] →
          ∃ c, c ∈ cell_measure s' ∧ cm_measure_id c = ms_id m).
Proof.
  induction measures as [|m measures IH]; intros s s' Hrun.
  - simpl in Hrun. simplify_eq. split_and!; [done|done|].
    intros m Hm. by apply elem_of_nil in Hm.
  - cbn [reprocess_cells] in Hrun.
    destruct (process_cell_measure decode_datetime RADIO_TYPE s
                (measure_data_of encode_datetime m) (default [] (ms_cell m))
                userid) as [[s1 rows]|] eqn:Hproc; [|done].
    simpl in Hrun.
    apply process_cell_measure_frame in Hproc
      as (Hrows & Hlen & Hcm & _ & _ & Hms & _).
    apply IH in Hrun as (Hms' & Hkeep & Hlinks).
    split_and!.
    + congruence.
    + intros c Hc. apply Hkeep. rewrite Hcm. apply elem_of_app. by left.
    + intros m' [->|Hin]%elem_of_cons Hpay Hnonempty; [|by apply Hlinks].
      destruct (ms_cell m) as [[|e es]|] eqn:Hcell; try done.
      change (default [] (Some (e :: es))) with (e :: es) in Hrows, Hlen.
      destruct rows as [|c rows]; [done|].
      exists c. split.
      * apply Hkeep. rewrite Hcm. apply elem_of_app. right. by left.
      * set (f := cell_row decode_datetime RADIO_TYPE
                    (measure_data_of encode_datetime m)) in *.
        pose proof (omap_length_le f es) as Hle.
        change (omap f (e :: es))
          with (match f e with
                | Some y => y :: omap f es
                | None => omap f es
                end) in Hrows.
        destruct (f e) as [c'|] eqn:Hrow.
        -- injection Hrows as <- _.
           apply cell_row_measure_id in Hrow. simpl in Hrow. congruence.
        -- rewrite <- Hrows in Hle. simpl in Hlen, Hle. lia.
Qed.

Lemma reprocess_cell_returned (db db' : session) (ids : list Z)
    (userid : option Z) (n : nat) :
  reprocess_cell commit_accepts db ids userid = (Returned n, db', []) →
  reprocess_cells decode_datetime encode_datetime RADIO_TYPE userid
    (measures_with ms_cell db ids) db = Ok db'.
Proof.
  unfold reprocess_cell_measure, measures_with.
  destruct (reprocess_cells _ _ _ _ _ db) as [s1|e]; simpl.
  - by intros [= _ <-].
  - by destruct e.
Qed.

(** X17: after a reprocess task has run and committed, the cleanup query
    does not pick any of the ids the task was given, whatever the range,
    provided no raw row with one of these ids has an empty list for its cell
    payload. *)
Theorem reprocessed_ids_not_selected_again (db db' : session) (ids : list Z)
    (userid : option Z) (n : nat) :
  reprocess_cell commit_accepts db ids userid = (Returned n, db', []) →
  (∀ m, m ∈ measure db → ms_id m ∈ ids → ms_cell m ≠ Some []) →
  ∀ lower upper i, i ∈ ids → i ∉ cell_cleanup_ids db' lower upper.
Proof.
  intros Hrun%reprocess_cell_returned Hpayload lower upper i Hi Hsel.
  apply reprocess_cells_links in Hrun as (Hms & _ & Hlinks).
  rewrite cell_cleanup_ids_spec in Hsel.
  apply elem_of_unlinked in Hsel as (_ & m & Hm & Hid & Hpay & Hnone).
  rewrite Hms in Hm. subst i.
  destruct (Hlinks m) as (c & Hc & Hcid); [|done|by apply Hpayload|].
  - unfold measures_with. apply list_elem_of_In, filter_In.
    split; [by apply list_elem_of_In|].
    apply andb_true_iff. split; by apply bool_decide_eq_true.
  - by apply (Hnone c).
Qed.

Lemma add_all_cell_nil (s : session) : add_all_cell [] s = s.
Proof. destruct s. unfold add_all_cell. simpl. by rewrite app_nil_r. Qed.

Lemma reprocess_cells_empty_payloads (userid : option Z)
    (measures : list Measure) (s : session) :
  Forall (λ m, ms_cell m = None ∨ ms_cell m = Some []) measures →
  reprocess_cells decode_datetime encode_datetime RADIO_TYPE userid measures s
  = Ok s.
Proof.
  induction 1 as [|m measures Hm _ IH]; [done|].
  cbn [reprocess_cells].
  assert (default [] (ms_cell m) = []) as -> by (by destruct Hm as [->| ->]).
  unfold process_cell_measure. simpl. by rewrite add_all_cell_nil.
Qed.

(** X18: raw rows whose cell payload is an empty list are counted by the
    reprocess task and get no derived row: the task returns their number and
    commits the session as it was, so the cleanup query picks them again. *)
Theorem empty_payloads_stay_unlinked (db : session) (ids : list Z)
    (userid : option Z) :
  (∀ m, m ∈ measure db → ms_id m ∈ ids →
        ms_cell m = None ∨ ms_cell m = Some []) →
  reprocess_cell commit_accepts db ids userid
  = (Returned (length (measures_with ms_cell db ids)), db, []).
Proof.
  intros Hempty. unfold reprocess_cell_measure.
  fold (measures_with ms_cell db ids).
  rewrite reprocess_cells_empty_payloads; [done|].
  apply Forall_forall. intros m Hm.
  unfold measures_with in Hm.
  apply list_elem_of_In, filter_In in Hm as [Hin Hsel].
  apply andb_true_iff in Hsel as [Hid%bool_decide_eq_true _].
  apply Hempty; [by apply list_elem_of_In|done].
Qed.

End TaskRuns.

Lemma insert_tasks_return_batch_size_witness :
  (∃ s' rows,
     insert_cell_measure text_datetime example_radio_type commit_accepts
       empty_session example_report [gsm_entry; cell_without_lac] (Some 42)
     = (Returned 2, s', [])
     ∧ cell_measure s' = cell_measure empty_session ++ rows
     ∧ length rows = 2%nat)
  ∧ (∃ s' rows,
       insert_wifi_measure text_datetime commit_accepts empty_session
         example_report [wifi_ab] (Some 42)
       = (Returned 1, s', [])
       ∧ wifi_measure s' = wifi_measure empty_session ++ rows
       ∧ length rows = 1%nat).
Proof.
  apply (insert_tasks_return_batch_size text_datetime example_radio_type
           empty_session example_report [gsm_entry; cell_without_lac]
           [wifi_ab] (Some 42) eq_refl eq_refl eq_refl).
Defined.

Lemma reprocess_depends_on_id_set_witness :
  reprocess_cell_measure text_datetime text_datetime example_radio_type
    commit_accepts session_unlinked [5; 5; 6] None
  = reprocess_cell_measure text_datetime text_datetime example_radio_type
      commit_accepts session_unlinked [6; 5] None
  ∧ reprocess_wifi_measure text_datetime text_datetime commit_accepts
      session_unlinked [5; 5; 6] None
    = reprocess_wifi_measure text_datetime text_datetime commit_accepts
        session_unlinked [6; 5] None.
Proof.
  apply (reprocess_depends_on_id_set text_datetime text_datetime
           example_radio_type commit_accepts session_unlinked [5; 5; 6] [6; 5]
           None).
  intros i. rewrite !elem_of_cons, !elem_of_nil. tauto.
Defined.

Lemma reprocessed_ids_not_selected_again_witness :
  5 ∈ cell_cleanup_ids session_unlinked 4 7
  ∧ 5 ∉ cell_cleanup_ids
          (reprocess_cell_measure text_datetime text_datetime
             example_radio_type commit_accepts session_unlinked [5] None).1.2
          4 7.
Proof.
  split; [by left|].
  apply (reprocessed_ids_not_selected_again text_datetime text_datetime
           example_radio_type session_unlinked _ [5] None 1 eq_refl).
  - intros m Hm _. simpl in Hm.
    apply elem_of_cons in Hm as [->|Hm]; [discriminate|].
    apply elem_of_cons in Hm as [->|Hm]; [discriminate|].
    by apply elem_of_nil in Hm.
  - by left.
Defined.

Lemma empty_payloads_stay_unlinked_witness :
  reprocess_cell_measure text_datetime text_datetime example_radio_type
    commit_accepts session_empty_payload [5] None
  = (Returned 1, session_empty_payload, [])
  ∧ cell_cleanup_ids session_empty_payload 4 7 = [5].
Proof.
  split; [|reflexivity].
  apply (empty_payloads_stay_unlinked text_datetime text_datetime
           example_radio_type session_empty_payload [5] None).
  intros m Hm _. simpl in Hm.
  apply elem_of_cons in Hm as [->|Hm]; [by right|].
  by apply elem_of_nil in Hm.
Defined.

(** ** More on the cleanup schedulers *)

Section SchedulerRuns.

Context {datetime : Type}.

Local Abbreviation session := (@session datetime).

Lemma delay_chunks_not_positive (ids : list Z) (batch : Z) :
  (batch = 0 → delay_chunks ids batch = Raise ValueError)
  ∧ (batch < 0 → delay_chunks ids batch = Ok []).
Proof.
  unfold delay_chunks, py_range. split.
  - intros ->. done.
  - intros Hneg.
    destruct (Z.eqb_spec batch 0) as [Hz|_]; [lia|].
    destruct (Z.ltb_spec 0 batch) as [Hpos|_]; [lia|]. simpl.
    assert ((0 - Z.of_nat (length ids) - batch - 1) `div` (- batch) ≤ 0)
      as Hle.
    { apply Z.lt_succ_r, Z.div_lt_upper_bound; lia. }
    replace (Z.to_nat
               ((0 - Z.of_nat (length ids) - batch - 1) `div` (- batch)))
      with 0%nat by lia.
    done.
Qed.

(** X19: with the batch size 0 the schedulers raise [ValueError], from
    [range]; with a negative batch size they delay no task and still return
    the number of ids found. *)
Theorem cleanup_batch_not_positive (db : session) (lower upper batch : Z) :
  (batch = 0 →
     schedule_cell_cleanup db lower upper batch = Raise ValueError
     ∧ schedule_wifi_cleanup db lower upper batch = Raise ValueError)
  ∧ (batch < 0 →
     schedule_cell_cleanup db lower upper batch
     = Ok ([], length (cell_cleanup_ids db lower upper))
     ∧ schedule_wifi_cleanup db lower upper batch
       = Ok ([], length (wifi_cleanup_ids db lower upper))).
Proof.
  unfold schedule_cell_cleanup, schedule_wifi_cleanup. split.
  - intros Hz.
    by rewrite !(proj1 (delay_chunks_not_positive _ batch) Hz).
  - intros Hneg.
    by rewrite !(proj2 (delay_chunks_not_positive _ batch) Hneg).
Qed.

(** The delayed chunks for a positive batch size, one by one. *)
Lemma delay_chunks_runs (ids : list Z) (batch : Z) :
  0 < batch →
  delay_chunks ids batch
  = Ok (map (λ k : nat, take (Z.to_nat batch) (drop (k * Z.to_nat batch) ids))
          (seq 0 (Z.to_nat ((Z.of_nat (length ids) + batch - 1) `div` batch)))).
Proof.
  intros Hb. unfold delay_chunks, py_range.
  destruct (Z.eqb_spec batch 0) as [Hz|_]; [lia|].
  destruct (Z.ltb_spec 0 batch) as [_|Hle]; [|lia]. simpl.
  replace (Z.of_nat (length ids) - 0 + batch - 1)
    with (Z.of_nat (length ids) + batch - 1) by lia.
  set (len := Z.of_nat (length ids)).
  set (cnt := Z.to_nat ((len + batch - 1) `div` batch)).
  assert ((Z.of_nat cnt - 1) * batch < len) as Hlast.
  { subst cnt. pose proof (Z.div_mod (len + batch - 1) batch ltac:(lia)).
    pose proof (Z.mod_pos_bound (len + batch - 1) batch Hb).
    assert (0 ≤ (len + batch - 1) `div` batch) by (apply Z.div_pos; lia).
    rewrite Z2Nat.id by done. nia. }
  f_equal. rewrite map_map.
  apply map_ext_in. intros k Hk%in_seq. apply py_slice_chunk; [done|].
  fold len. nia.
Qed.

(** X20: for a positive batch size the number of delayed tasks is the
    number of ids divided by the batch size, rounded up; the k-th task gets
    the k-th run of [batch] ids, and every task but the last gets exactly
    [batch] ids. *)
Theorem cleanup_chunks_full_but_last (db : session) (lower upper batch : Z)
    (delayed : list (list Z)) (n : nat) :
  0 < batch →
  schedule_cell_cleanup db lower upper batch = Ok (delayed, n) →
  Z.of_nat (length delayed) = (Z.of_nat n + batch - 1) `div` batch
  ∧ ∀ (k : nat) (chunk : list Z),
      delayed !! k = Some chunk →
      chunk = take (Z.to_nat batch)
                (drop (k * Z.to_nat batch) (cell_cleanup_ids db lower upper))
      ∧ ((S k < length delayed)%nat → Z.of_nat (length chunk) = batch).
Proof.
  intros Hb. unfold schedule_cell_cleanup.
  rewrite (delay_chunks_runs _ batch Hb). simpl. intros [= <- <-].
  set (ids := cell_cleanup_ids db lower upper).
  set (len := Z.of_nat (length ids)).
  assert (0 ≤ (len + batch - 1) `div` batch) as Hcnt
    by (apply Z.div_pos; lia).
  rewrite length_map, length_seq. split; [lia|].
  intros k chunk Hk.
  rewrite list_lookup_fmap in Hk.
  destruct (seq 0 _ !! k) as [k'|] eqn:Hseq; [|done].
  apply lookup_seq in Hseq as [-> Hlt]. simpl in Hk. injection Hk as <-.
  split; [done|]. intros Hnext.
  rewrite length_take, length_drop.
  pose proof (Z.div_mod (len + batch - 1) batch ltac:(lia)).
  pose proof (Z.mod_pos_bound (len + batch - 1) batch Hb).
  assert (Z.of_nat (S k) < (len + batch - 1) `div` batch) as Hfull by lia.
  assert (Z.of_nat (S k) * batch < len) by nia.
  subst len. nia.
Qed.

Lemma unlinked_empty_range {A B} (payload : @Measure datetime → option A)
    (rows : list B) (measure_id : B → Z) (ms : list (@Measure datetime))
    (lower upper : Z) :
  upper ≤ lower + 1 →
  map ms_id
    (List.filter
       (λ m, forallb (λ r, negb (ms_id m =? measure_id r)) rows
             && negb (is_null (payload m))
             && (lower <? ms_id m) && (ms_id m <? upper)) ms) = [].
Proof.
  intros Hrange. induction ms as [|m ms IH]; [done|]. simpl.
  destruct (Z.ltb_spec lower (ms_id m)), (Z.ltb_spec (ms_id m) upper);
    rewrite ?andb_false_r; simpl; try done.
  lia.
Qed.

(** X21: a range with no id strictly between its bounds ([upper <= lower +
    1]) selects nothing: no task is delayed and the schedulers return 0. *)
Theorem cleanup_empty_range (db : session) (lower upper batch : Z) :
  upper ≤ lower + 1 →
  batch ≠ 0 →
  schedule_cell_cleanup db lower upper batch = Ok ([], 0%nat)
  ∧ schedule_wifi_cleanup db lower upper batch = Ok ([], 0%nat).
Proof.
  intros Hrange Hbatch.
  unfold schedule_cell_cleanup, schedule_wifi_cleanup.
  rewrite cell_cleanup_ids_spec, wifi_cleanup_ids_spec.
  rewrite !unlinked_empty_range by done.
  destruct (Z.lt_trichotomy batch 0) as [Hneg|[Hz|Hpos]]; [|done|].
  - by rewrite (proj2 (delay_chunks_not_positive [] batch) Hneg).
  - destruct (delay_chunks_positive [] batch Hpos)
      as (chunks & -> & Hcat & Hsizes).
    destruct chunks as [|chunk chunks]; [done|].
    apply Forall_cons in Hsizes as [[Hchunk _] _].
    destruct chunk; [simpl in Hchunk; lia|discriminate].
Qed.

(** X22: two sweeps over ranges that share a bound [middle] pick, between
    them, the ids that one sweep over the whole range picks, except the id
    [middle] itself, which neither picks. *)
Theorem cleanup_adjacent_ranges_skip_bound (db : session)
    (lower middle upper i : Z) :
  lower ≤ middle ≤ upper →
  (i ∈ cell_cleanup_ids db lower middle ∨ i ∈ cell_cleanup_ids db middle upper
   ↔ i ∈ cell_cleanup_ids db lower upper ∧ i ≠ middle)
  ∧ (i ∈ wifi_cleanup_ids db lower middle
     ∨ i ∈ wifi_cleanup_ids db middle upper
     ↔ i ∈ wifi_cleanup_ids db lower upper ∧ i ≠ middle).
Proof.
  intros Hrange.
  rewrite !cell_cleanup_ids_spec, !wifi_cleanup_ids_spec.
  rewrite !elem_of_unlinked. split.
  - split.
    + intros [[Hi Hm]|[Hi Hm]]; (split; [split; [lia|done]|lia]).
    + intros [[Hi Hm] Hne].
      destruct (Z.lt_trichotomy i middle) as [Hlt|[Heq|Hgt]]; [|done|].
      * left. split; [lia|done].
      * right. split; [lia|done].
  - split.
    + intros [[Hi Hm]|[Hi Hm]]; (split; [split; [lia|done]|lia]).
    + intros [[Hi Hm] Hne].
      destruct (Z.lt_trichotomy i middle) as [Hlt|[Heq|Hgt]]; [|done|].
      * left. split; [lia|done].
      * right. split; [lia|done].
Qed.

End SchedulerRuns.

Lemma cleanup_chunks_full_but_last_witness :
  Z.of_nat (length [[5]; [6]]) = (Z.of_nat 2 + 1 - 1) `div` 1
  ∧ ∀ (k : nat) (chunk : list Z),
      [[5]; [6]] !! k = Some chunk →
      chunk = take (Z.to_nat 1)
                (drop (k * Z.to_nat 1) (cell_cleanup_ids session_unlinked 4 7))
      ∧ ((S k < length [[5]; [6]])%nat → Z.of_nat (length chunk) = 1).
Proof.
  apply (cleanup_chunks_full_but_last session_unlinked 4 7 1 [[5]; [6]] 2
           eq_refl eq_refl).
Defined.

Lemma cleanup_empty_range_witness :
  schedule_cell_cleanup session_unlinked 5 6 100 = Ok ([], 0%nat)
  ∧ schedule_wifi_cleanup session_unlinked 5 6 100 = Ok ([], 0%nat).
Proof.
  apply (cleanup_empty_range session_unlinked 5 6 100); [lia|discriminate].
Defined.

Lemma cleanup_adjacent_ranges_skip_bound_witness :
  (5 ∈ cell_cleanup_ids session_unlinked 4 5
   ∨ 5 ∈ cell_cleanup_ids session_unlinked 5 7
   ↔ 5 ∈ cell_cleanup_ids session_unlinked 4 7 ∧ 5 ≠ 5)
  ∧ (5 ∈ wifi_cleanup_ids session_unlinked 4 5
     ∨ 5 ∈ wifi_cleanup_ids session_unlinked 5 7
     ↔ 5 ∈ wifi_cleanup_ids session_unlinked 4 7 ∧ 5 ≠ 5).
Proof.
  apply (cleanup_adjacent_ranges_skip_bound session_unlinked 4 5 7 5). lia.
Defined.

(** ** More on concurrent callers *)

Section ConcurrentRuns.

Context {datetime : Type}.

Local Abbreviation session := (@session datetime).
Local Abbreviation cell_caller := (@cell_caller datetime).

(** X23: no update is lost. Callers of [update_cell_measure_count] for one
    complete measure, started together on any registry and run under any
    schedule that lets all of them finish, leave the total counter of the
    station larger by the number of callers. *)
Theorem concurrent_updates_all_counted (m : @CellMeasure datetime)
    (userid : option Z) (n : nat) (schedule : list nat) (s : session) :
  incomplete m = false →
  forallb finished (run_cell_callers schedule (callers_of m userid n) s).1
  = true →
  total_of (cell (run_cell_callers schedule (callers_of m userid n) s).2
            !! key_of_cell m)
  = total_of (cell s !! key_of_cell m) + Z.of_nat n.
Proof.
  intros Hinc Hfin.
  pose proof (run_cell_callers_total m schedule Hinc (callers_of m userid n) s)
    as Hrun.
  destruct (run_cell_callers schedule (callers_of m userid n) s) as [cs' s'].
  simpl in *. destruct Hrun as (_ & Hlen & Hsum).
  { unfold callers_of. by apply Forall_replicate. }
  rewrite executed_count_callers_of in Hsum.
  rewrite executed_count_finished in Hsum by done.
  unfold callers_of in Hlen. rewrite length_replicate in Hlen.
  lia.
Qed.

Lemma Exists_insert_keep {A} (P : A → Prop) (l : list A) (i : nat) (x y : A) :
  l !! i = Some x → (P x → P y) → Exists P l → Exists P (<[i := y]> l).
Proof.
  revert i. induction l as [|a l IH]; intros [|i] Hi Hxy Hex;
    simplify_eq/=.
  - apply Exists_cons in Hex as [Ha|Hl]; [left; auto|by right].
  - apply Exists_cons in Hex as [Ha|Hl]; [by left|right; eauto].
Qed.

Lemma run_cell_callers_first_sighting (m : @CellMeasure datetime)
    (schedule : list nat) :
  incomplete m = false →
  ∀ (cs : list cell_caller) (s : session),
  Forall (λ c, cc_measure c = m) cs →
  first_sighting_kept (key_of_cell m) cs s →
  first_sighting_kept (key_of_cell m)
    (run_cell_callers schedule cs s).1 (run_cell_callers schedule cs s).2.
Proof.
  intros Hinc. induction schedule as [|i schedule IH]; intros cs s Hcs Hinv.
  - done.
  - cbn [run_cell_callers].
    destruct (cs !! i) as [c|] eqn:Hi; [|by apply IH].
    assert (cc_measure c = m) as Hc
      by (eapply (proj1 (Forall_lookup _ _)) in Hcs; eauto).
    pose proof (cell_caller_step_total m c s Hinc Hc) as Hm.
    assert (first_sighting_kept (key_of_cell m)
              (<[i := (cell_caller_step c s).1]> cs)
              (cell_caller_step c s).2) as Hstep.
    { destruct Hinv as [[Hnone Hall]|Hex].
      - assert (cc_pc c = AtQuery ∨ cc_pc c = AtExecute 1) as Hpc
          by (eapply (proj1 (Forall_lookup _ _)) in Hall; eauto).
        unfold cell_caller_step.
        destruct Hpc as [-> | ->]; rewrite ?Hc, ?Hinc.
        + left. simpl. split; [done|].
          apply Forall_insert; [done|]. right. simpl.
          unfold cell_query_first. by rewrite Hnone.
        + right. simpl.
          apply Exists_exists.
          exists (at_pc c (AtCredit 1)). split; [|by left].
          apply list_elem_of_lookup. exists i.
          apply list_lookup_insert_eq. by eapply lookup_lt_Some.
      - right. eapply Exists_insert_keep; [done| |done].
        unfold cell_caller_step.
        intros [Hpc|Hpc]; rewrite Hpc; simpl; [by right|].
        rewrite Hpc. by right. }
    destruct (cell_caller_step c s) as [c1 s1]. destruct Hm as [Hm1 _].
    apply IH; [|done]. by apply Forall_insert.
Qed.

(** X24: the station is taken for new at least once. Of one or more callers
    for one complete measure of a station that the registry does not have,
    run under any schedule that lets all of them finish, at least one
    reports the station as new. *)
Theorem concurrent_updates_report_new_once (m : @CellMeasure datetime)
    (userid : option Z) (n : nat) (schedule : list nat) (s : session) :
  incomplete m = false →
  cell s !! key_of_cell m = None →
  forallb finished (run_cell_callers schedule (callers_of m userid (S n)) s).1
  = true →
  (1 ≤ new_reports
         (run_cell_callers schedule (callers_of m userid (S n)) s).1)%nat.
Proof.
  intros Hinc Hnone Hfin.
  pose proof (run_cell_callers_total m schedule Hinc
                (callers_of m userid (S n)) s) as Hrun.
  pose proof (run_cell_callers_first_sighting m schedule Hinc
                (callers_of m userid (S n)) s) as Hinv.
  destruct (run_cell_callers schedule (callers_of m userid (S n)) s)
    as [cs' s'].
  simpl in *.
  destruct Hrun as (_ & Hlen & _);
    [unfold callers_of; by apply Forall_replicate|].
  destruct Hinv as [[_ Hall]|Hex].
  - unfold callers_of. by apply Forall_replicate.
  - left. split; [done|]. unfold callers_of.
    apply Forall_replicate. by left.
  - unfold callers_of in Hlen. rewrite length_replicate in Hlen.
    destruct cs' as [|c cs']; [done|].
    apply Forall_cons in Hall as [Hc _]. simpl in Hfin.
    apply andb_true_iff in Hfin as [Hfin _]. unfold finished in Hfin.
    destruct Hc as [Hc|Hc]; by rewrite Hc in Hfin.
  - apply Exists_exists in Hex as (c & Hin & Hpc).
    assert (reported_new c = true) as Hnew.
    { rewrite forallb_forall in Hfin.
      specialize (Hfin c (proj1 (list_elem_of_In _ _) Hin)).
      unfold finished in Hfin. unfold reported_new.
      destruct Hpc as [Hpc|Hpc]; rewrite Hpc in *; done. }
    unfold new_reports.
    assert (c ∈ List.filter reported_new cs') as Hfilter
      by (apply list_elem_of_In, filter_In; split;
          [by apply list_elem_of_In|done]).
    destruct (List.filter reported_new cs'); [by apply elem_of_nil in Hfilter|].
    simpl. lia.
Qed.

End ConcurrentRuns.

Lemma concurrent_updates_all_counted_witness :
  total_of
    (cell (run_cell_callers [2; 0; 1; 0; 2; 1; 1; 2; 0]%nat
             (callers_of gsm_measure (Some 42) 3) empty_session).2
     !! key_of_cell gsm_measure)
  = total_of (cell empty_session !! key_of_cell gsm_measure) + Z.of_nat 3.
Proof.
  apply (concurrent_updates_all_counted gsm_measure (Some 42) 3
           [2; 0; 1; 0; 2; 1; 1; 2; 0]%nat empty_session eq_refl eq_refl).
Defined.

Lemma concurrent_updates_report_new_once_witness :
  (1 ≤ new_reports
         (run_cell_callers [2; 0; 1; 0; 2; 1; 1; 2; 0]
            (callers_of gsm_measure (Some 42%Z) 3) empty_session).1)%nat.
Proof.
  apply (concurrent_updates_report_new_once gsm_measure (Some 42) 2
           [2; 0; 1; 0; 2; 1; 1; 2; 0]%nat empty_session
           eq_refl eq_refl eq_refl).
Defined.

(** ** When a batch is processed *)

Lemma convert_frequency_raises_free (entry : wifi_entry) :
  (convert_frequency entry).2 = Ok () →
  negb (is_null (w_channel entry))
  || negb (truthy (default 0 (w_frequency entry))) = true.
Proof.
  unfold convert_frequency.
  destruct (truthy (default 0 (w_frequency entry))); [|by rewrite orb_true_r].
  destruct (w_channel entry) eqn:Hc; simpl; rewrite ?Hc; simpl; done.
Qed.

Section BatchSuccess.

Context {datetime : Type}.
Variable decode_datetime : string → datetime.
Variable encode_datetime : datetime → string.
Variable RADIO_TYPE : gmap string Z.

Local Abbreviation session := (@session datetime).
Local Abbreviation process_cell :=
  (process_cell_measure decode_datetime RADIO_TYPE).
Local Abbreviation process_wifi := (process_wifi_measure decode_datetime).
Local Abbreviation reprocess_wifi :=
  (reprocess_wifi_measure decode_datetime encode_datetime).

Lemma cell_row_ok (md : measure_data) (e : cell_entry)
    (c : @CellMeasure datetime) :
  cell_row decode_datetime RADIO_TYPE md e = Some c →
  report_ok md = true ∧ cell_entry_ok md e = true.
Proof.
  unfold cell_row, create_cell_measure, resolve_radio, report_ok,
    cell_entry_ok.
  destruct (md_id md), (md_lat md), (md_lon md), (e_mcc e), (e_mnc e);
    simpl; try done.
  destruct (truthy_str (e_radio e)); [done|].
  destruct (md_radio md); simpl; done.
Qed.

Lemma wifi_row_ok (md : measure_data) (e : wifi_entry)
    (w : @WifiMeasure datetime) :
  wifi_row decode_datetime md e = Some w →
  report_ok md = true ∧ wifi_entry_ok e = true
  ∧ md_id md = Some (wm_measure_id w).
Proof.
  unfold wifi_row.
  pose proof (convert_frequency_raises_free e) as Hconv.
  pose proof (convert_frequency_other_fields e) as (Hk & _).
  destruct (convert_frequency e) as [e' [[]|]]; [|done]. simpl in *.
  unfold create_wifi_measure, report_ok, wifi_entry_ok.
  destruct (md_id md), (md_lat md), (md_lon md), (w_key e') eqn:Hkey;
    simpl; try done.
  intros [= <-]. rewrite <- Hk. simpl. split_and!; try done.
  by apply Hconv.
Qed.

Lemma all_rows_all_ok {A B} (f : A → option B) (ok : A → bool) (l : list A) :
  (∀ a b, f a = Some b → ok a = true) →
  length (omap f l) = length l → forallb ok l = true.
Proof.
  intros Hok. induction l as [|a l IH]; [done|].
  cbn [omap list_omap forallb].
  pose proof (omap_length_le f l) as Hle.
  destruct (f a) as [b|] eqn:Hfa; cbn [length].
  - intros [= Hlen]. rewrite (Hok a b Hfa). simpl. auto.
  - intros Hlen. lia.
Qed.

(** X25: a cell batch is processed exactly when it is empty, or the report
    carries id, lat and lon and every entry carries mcc and mnc and has a
    radio of its own or the report's to fall back on. The empty batch
    changes nothing. *)
Theorem process_cell_measure_succeeds_iff (s : session) (md : measure_data)
    (entries : list cell_entry) (userid : option Z) :
  ((∃ r, process_cell s md entries userid = Ok r)
   ↔ entries = []
     ∨ (report_ok md = true ∧ forallb (cell_entry_ok md) entries = true))
  ∧ process_cell s md [] userid = Ok (s, []).
Proof.
  split; [|by unfold process_cell_measure; simpl; rewrite add_all_cell_nil].
  split.
  - intros [[s' rows] Hrun].
    apply process_cell_measure_frame in Hrun as (-> & Hlen & _).
    destruct entries as [|e entries]; [by left|]. right.
    assert (forallb (λ e, report_ok md && cell_entry_ok md e) (e :: entries)
            = true) as Hall.
    { eapply all_rows_all_ok; [|exact Hlen].
      intros a b [-> ->]%cell_row_ok. done. }
    simpl in Hall. apply andb_true_iff in Hall as [He Hall].
    apply andb_true_iff in He as [Hmd He]. split; [done|].
    simpl. rewrite He. simpl.
    apply forallb_forall. intros x Hx.
    rewrite forallb_forall in Hall. specialize (Hall x Hx).
    by apply andb_true_iff in Hall as [_ ?].
  - intros [->|[Hmd Hok]].
    + eexists. unfold process_cell_measure. simpl. done.
    + destruct (process_cell_measure_ok decode_datetime RADIO_TYPE s md
                  entries userid Hmd Hok) as (s' & rows & Hrun & _).
      eauto.
Qed.

(** X26: a wifi batch is processed exactly when it is empty, or the report
    carries id, lat and lon and every entry carries its key, and a channel
    when it gives a frequency other than 0. The empty batch changes
    nothing. *)
Theorem process_wifi_measure_succeeds_iff (s : session) (md : measure_data)
    (entries : list wifi_entry) (userid : option Z) :
  ((∃ r, process_wifi s md entries userid = Ok r)
   ↔ entries = []
     ∨ (report_ok md = true ∧ forallb wifi_entry_ok entries = true))
  ∧ process_wifi s md [] userid = Ok (s, []).
Proof.
  split.
  2:{ unfold process_wifi_measure. simpl. destruct s.
      unfold add_all_wifi. simpl. by rewrite app_nil_r. }
  split.
  - intros [[s' rows] Hrun].
    apply process_wifi_measure_frame in Hrun as (-> & Hlen & _).
    destruct entries as [|e entries]; [by left|]. right.
    assert (forallb (λ e, report_ok md && wifi_entry_ok e) (e :: entries)
            = true) as Hall.
    { eapply all_rows_all_ok; [|exact Hlen].
      intros a b (-> & -> & _)%wifi_row_ok. done. }
    simpl in Hall. apply andb_true_iff in Hall as [He Hall].
    apply andb_true_iff in He as [Hmd He]. split; [done|].
    simpl. rewrite He. simpl.
    apply forallb_forall. intros x Hx.
    rewrite forallb_forall in Hall. specialize (Hall x Hx).
    by apply andb_true_iff in Hall as [_ ?].
  - intros [->|[Hmd Hok]].
    + eexists. unfold process_wifi_measure. simpl. done.
    + destruct (process_wifi_measure_ok decode_datetime s md entries userid
                  Hmd Hok) as (s' & rows & Hrun & _).
      eauto.
Qed.

End BatchSuccess.

(** ** Reprocessing wifi payloads *)

Section WifiTaskRuns.

Context {datetime : Type}.
Variable decode_datetime : string → datetime.
Variable encode_datetime : datetime → string.

Local Abbreviation session := (@session datetime).
Local Abbreviation reprocess_wifi :=
  (reprocess_wifi_measure decode_datetime encode_datetime).

Lemma reprocess_wifis_links (userid : option Z) (measures : list Measure) :
  ∀ s s' : session,
  reprocess_wifis decode_datetime encode_datetime userid measures s = Ok s' →
  measure s' = measure s
  ∧ (∀ w, w ∈ wifi_measure s → w ∈ wifi_measure s')
  ∧ (∀ m, m ∈ measures → ms_wifi m ≠ None → ms_wifi m ≠ Some [] →
          ∃ w, w ∈ wifi_measure s' ∧ wm_measure_id w = ms_id m).
Proof.
  induction measures as [|m measures IH]; intros s s' Hrun.
  - simpl in Hrun. simplify_eq. split_and!; [done|done|].
    intros m Hm. by apply elem_of_nil in Hm.
  - cbn [reprocess_wifis] in Hrun.
    destruct (process_wifi_measure decode_datetime s
                (measure_data_of encode_datetime m) (default [] (ms_wifi m))
                userid) as [[s1 rows]|] eqn:Hproc; [|done].
    simpl in Hrun.
    apply process_wifi_measure_frame in Hproc
      as (Hrows & Hlen & Hwm & _ & _ & Hms & _).
    apply IH in Hrun as (Hms' & Hkeep & Hlinks).
    split_and!.
    + congruence.
    + intros w Hw. apply Hkeep. rewrite Hwm. apply elem_of_app. by left.
    + intros m' [->|Hin]%elem_of_cons Hpay Hnonempty; [|by apply Hlinks].
      destruct (ms_wifi m) as [[|e es]|] eqn:Hwifi; try done.
      change (default [] (Some (e :: es))) with (e :: es) in Hrows, Hlen.
      destruct rows as [|w rows]; [done|].
      exists w. split.
      * apply Hkeep. rewrite Hwm. apply elem_of_app. right. by left.
      * set (f := wifi_row decode_datetime
                    (measure_data_of encode_datetime m)) in *.
        pose proof (omap_length_le f es) as Hle.
        change (omap f (e :: es))
          with (match f e with
                | Some y => y :: omap f es
                | None => omap f es
                end) in Hrows.
        destruct (f e) as [w'|] eqn:Hrow.
        -- injection Hrows as <- _.
           apply wifi_row_ok in Hrow as (_ & _ & Hid). simpl in Hid.
           congruence.
        -- rewrite <- Hrows in Hle. simpl in Hlen, Hle. lia.
Qed.

Lemma reprocess_wifi_returned (db db' : session) (ids : list Z)
    (userid : option Z) (n : nat) :
  reprocess_wifi commit_accepts db ids userid = (Returned n, db', []) →
  reprocess_wifis decode_datetime encode_datetime userid
    (measures_with ms_wifi db ids) db = Ok db'.
Proof.
  unfold reprocess_wifi_measure, measures_with.
  destruct (reprocess_wifis _ _ _ _ db) as [s1|e]; simpl.
  - by intros [= _ <-].
  - by destruct e.
Qed.

(** X27: after a wifi reprocess task has run and committed, the wifi
    cleanup query does not pick any of the ids the task was given, whatever
    the range, provided no raw row with one of these ids has an empty list
    for its wifi payload. *)
Theorem reprocessed_wifi_ids_not_selected_again (db db' : session)
    (ids : list Z) (userid : option Z) (n : nat) :
  reprocess_wifi commit_accepts db ids userid = (Returned n, db', []) →
  (∀ m, m ∈ measure db → ms_id m ∈ ids → ms_wifi m ≠ Some []) →
  ∀ lower upper i, i ∈ ids → i ∉ wifi_cleanup_ids db' lower upper.
Proof.
  intros Hrun%reprocess_wifi_returned Hpayload lower upper i Hi Hsel.
  apply reprocess_wifis_links in Hrun as (Hms & _ & Hlinks).
  rewrite wifi_cleanup_ids_spec in Hsel.
  apply elem_of_unlinked in Hsel as (_ & m & Hm & Hid & Hpay & Hnone).
  rewrite Hms in Hm. subst i.
  destruct (Hlinks m) as (w & Hw & Hwid); [|done|by apply Hpayload|].
  - unfold measures_with. apply list_elem_of_In, filter_In.
    split; [by apply list_elem_of_In|].
    apply andb_true_iff. split; by apply bool_decide_eq_true.
  - by apply (Hnone w).
Qed.

End WifiTaskRuns.

Lemma reprocessed_wifi_ids_not_selected_again_witness :
  5 ∈ wifi_cleanup_ids session_unlinked 4 7
  ∧ 5 ∉ wifi_cleanup_ids
          (reprocess_wifi_measure text_datetime text_datetime commit_accepts
             session_unlinked [5] None).1.2
          4 7.
Proof.
  split; [by left|].
  apply (reprocessed_wifi_ids_not_selected_again text_datetime text_datetime
           session_unlinked _ [5] None 1 eq_refl).
  - intros m Hm _. simpl in Hm.
    apply elem_of_cons in Hm as [->|Hm]; [discriminate|].
    apply elem_of_cons in Hm as [->|Hm]; [discriminate|].
    by apply elem_of_nil in Hm.
  - by left.
Defined.

(** * The rows of a batch, and the batches that are not processed *)

(** C2: with the frequency f and the channel 0, a frequency of 2412..2472
    gives the channel (f - 2407) // 5, a frequency of 5170..5825 gives
    (f - 5000) // 5, and any other frequency (2473 and 5169 among them)
    leaves the channel as it is; with the same frequencies and no [channel]
    key, the conversion raises [KeyError('channel')] for every frequency
    other than 0, in the two bands as outside them, and sets no channel. The
    frequency is popped in each case. *)
Theorem convert_frequency_bands (entry : wifi_entry) (f : Z) :
  w_frequency entry = Some f →
  (w_channel entry = Some 0 →
     (2412 ≤ f ≤ 2472 →
        convert_frequency entry
        = (set_channel ((f - 2407) `div` 5) (pop_frequency entry), Ok ()))
     ∧ (5170 ≤ f ≤ 5825 →
        convert_frequency entry
        = (set_channel ((f - 5000) `div` 5) (pop_frequency entry), Ok ()))
     ∧ (¬ 2412 ≤ f ≤ 2472 → ¬ 5170 ≤ f ≤ 5825 →
        convert_frequency entry = (pop_frequency entry, Ok ())
        ∧ w_channel (convert_frequency entry).1 = w_channel entry))
  ∧ (w_channel entry = None →
     (f ≠ 0 →
        convert_frequency entry
        = (pop_frequency entry, Raise (KeyError "channel")))
     ∧ (f = 0 → convert_frequency entry = (pop_frequency entry, Ok ()))
     ∧ w_channel (convert_frequency entry).1 = None).
Proof.
  intros Hf. split.
  - intros Hc. unfold convert_frequency. rewrite Hf. simpl. rewrite Hc. simpl.
    unfold truthy.
    split; [|split].
    + intros Hband.
      destruct (Z.eqb_spec f 0); [lia|]. simpl.
      destruct (Z.ltb_spec 2411 f); [|lia].
      destruct (Z.ltb_spec f 2473); [|lia]. done.
    + intros Hband.
      destruct (Z.eqb_spec f 0); [lia|]. simpl.
      destruct (Z.ltb_spec 2411 f); [|lia].
      destruct (Z.ltb_spec f 2473); [lia|]. simpl.
      destruct (Z.ltb_spec 5169 f); [|lia].
      destruct (Z.ltb_spec f 5826); [|lia]. done.
    + intros Hlow Hhigh.
      destruct (Z.eqb_spec f 0); [done|]. simpl.
      destruct (Z.ltb_spec 2411 f), (Z.ltb_spec f 2473); simpl; try lia;
        destruct (Z.ltb_spec 5169 f), (Z.ltb_spec f 5826); simpl; try lia;
        done.
  - intros Hc. unfold convert_frequency. rewrite Hf. simpl. rewrite Hc. simpl.
    unfold truthy. split; [|split].
    + intros Hne. by destruct (Z.eqb_spec f 0).
    + by intros ->.
    + destruct (f =? 0); simpl; exact Hc.
Qed.

Lemma convert_frequency_bands_witness :
  convert_frequency (WifiEntry None (Some "ab") (Some 0) (Some 2437) None)
  = (WifiEntry None (Some "ab") (Some 6) None None, Ok ())
  ∧ convert_frequency (WifiEntry None (Some "ab") (Some 0) (Some 5240) None)
    = (WifiEntry None (Some "ab") (Some 48) None None, Ok ())
  ∧ convert_frequency (WifiEntry None (Some "ab") (Some 0) (Some 2473) None)
    = (WifiEntry None (Some "ab") (Some 0) None None, Ok ())
  ∧ convert_frequency (WifiEntry None (Some "ab") (Some 0) (Some 5169) None)
    = (WifiEntry None (Some "ab") (Some 0) None None, Ok ())
  ∧ convert_frequency (WifiEntry None (Some "ab") None (Some 5240) None)
    = (WifiEntry None (Some "ab") None None None, Raise (KeyError "channel")).
Proof.
  split; [|split; [|split; [|split]]].
  - apply (proj1 (convert_frequency_bands
             (WifiEntry None (Some "ab") (Some 0) (Some 2437) None) 2437
             eq_refl) eq_refl). lia.
  - apply (proj1 (convert_frequency_bands
             (WifiEntry None (Some "ab") (Some 0) (Some 5240) None) 5240
             eq_refl) eq_refl). lia.
  - apply (proj1 (convert_frequency_bands
             (WifiEntry None (Some "ab") (Some 0) (Some 2473) None) 2473
             eq_refl) eq_refl); lia.
  - apply (proj1 (convert_frequency_bands
             (WifiEntry None (Some "ab") (Some 0) (Some 5169) None) 5169
             eq_refl) eq_refl); lia.
  - apply (proj2 (convert_frequency_bands
             (WifiEntry None (Some "ab") None (Some 5240) None) 5240
             eq_refl) eq_refl). lia.
Defined.


Section BatchRows.

Context {datetime : Type}.
Variable decode_datetime : string → datetime.
Variable RADIO_TYPE : gmap string Z.
Variable commit : @session datetime → result (@session datetime).

Local Abbreviation session := (@session datetime).
Local Abbreviation process_cell :=
  (process_cell_measure decode_datetime RADIO_TYPE).
Local Abbreviation process_wifi := (process_wifi_measure decode_datetime).
Local Abbreviation insert_cell :=
  (insert_cell_measure decode_datetime RADIO_TYPE commit).
Local Abbreviation insert_wifi := (insert_wifi_measure decode_datetime commit).

Lemma cell_row_describes (md : measure_data) (e : cell_entry)
    (row : @CellMeasure datetime) :
  cell_row decode_datetime RADIO_TYPE md e = Some row →
  cell_row_of decode_datetime RADIO_TYPE md e row.
Proof.
  unfold cell_row, create_cell_measure, resolve_radio, cell_row_of.
  destruct (md_id md), (md_lat md), (md_lon md), (e_mcc e), (e_mnc e);
    simpl; try done.
  destruct (truthy_str (e_radio e)) eqn:Hradio.
  - destruct (e_radio e); [|done]. simpl. intros [= <-]. simpl.
    split_and!; done.
  - destruct (md_radio md); simpl; [|done]. intros [= <-]. simpl.
    split_and!; done.
Qed.

Lemma wifi_row_describes (md : measure_data) (e : wifi_entry)
    (row : @WifiMeasure datetime) :
  wifi_row decode_datetime md e = Some row →
  wifi_row_of decode_datetime md e row.
Proof.
  unfold wifi_row, wifi_row_of.
  pose proof (convert_frequency_other_fields e) as (Hk & Hi & Hs).
  destruct (convert_frequency e) as [e' [[]|]]; [|done]. simpl in *.
  unfold create_wifi_measure.
  destruct (md_id md), (md_lat md), (md_lon md), (w_key e') eqn:Hkey;
    simpl; try done.
  intros [= <-]. simpl. rewrite <- Hk, Hi, Hs. split_and!; done.
Qed.

Lemma process_cell_measure_rows (s s' : session) (md : measure_data)
    (entries : list cell_entry) (userid : option Z) (rows : list CellMeasure) :
  process_cell s md entries userid = Ok (s', rows) →
  Forall2 (cell_row_of decode_datetime RADIO_TYPE md) entries rows.
Proof.
  intros Hrun.
  apply process_cell_measure_frame in Hrun as (-> & Hlen & _).
  apply omap_rows_Forall2 in Hlen.
  eapply Forall2_impl; [exact Hlen|]. apply cell_row_describes.
Qed.

Lemma process_wifi_measure_rows (s s' : session) (md : measure_data)
    (entries : list wifi_entry) (userid : option Z) (rows : list WifiMeasure) :
  process_wifi s md entries userid = Ok (s', rows) →
  Forall2 (wifi_row_of decode_datetime md) entries rows.
Proof.
  intros Hrun.
  apply process_wifi_measure_frame in Hrun as (-> & Hlen & _).
  apply omap_rows_Forall2 in Hlen.
  eapply Forall2_impl; [exact Hlen|]. apply wifi_row_describes.
Qed.

(** A batch that is processed is empty or well-formed. *)
Lemma process_cell_measure_ok_inv (s : session) (md : measure_data)
    (entries : list cell_entry) (userid : option Z)
    (r : session * list CellMeasure) :
  process_cell s md entries userid = Ok r →
  entries = [] ∨ report_ok md && forallb (cell_entry_ok md) entries = true.
Proof.
  destruct r as [s' rows]. intros Hrun.
  apply process_cell_measure_frame in Hrun as (-> & Hlen & _).
  destruct entries as [|e entries]; [by left|]. right.
  assert (forallb (λ e, report_ok md && cell_entry_ok md e) (e :: entries)
          = true) as Hall.
  { eapply all_rows_all_ok; [|exact Hlen].
    intros a b [-> ->]%cell_row_ok. done. }
  simpl in Hall. apply andb_true_iff in Hall as [He Hall].
  apply andb_true_iff in He as [-> He]. simpl. rewrite He. simpl.
  apply forallb_forall. intros x Hx.
  rewrite forallb_forall in Hall. specialize (Hall x Hx).
  by apply andb_true_iff in Hall as [_ ?].
Qed.


(** Every exception of the processing is a [KeyError]. *)
Lemma process_cell_measure_raises (s : session) (md : measure_data)
    (entries : list cell_entry) (userid : option Z) (e : exn) :
  process_cell s md entries userid = Raise e → ∃ k, e = KeyError k.
Proof.
  unfold process_cell_measure.
  destruct (process_cell_entries decode_datetime RADIO_TYPE md userid entries
              s []) as [[s' rows]|e'] eqn:Hloop; [done|].
  intros [= <-]. by eapply process_cell_entries_raises.
Qed.



(** A non-empty batch that is not well-formed raises a [KeyError], and its
    insert task commits nothing and is handed to retry. *)
Lemma cell_batch_not_ok (s : session) (md : measure_data)
    (entries : list cell_entry) (userid : option Z) :
  entries ≠ [] →
  report_ok md && forallb (cell_entry_ok md) entries = false →
  ∃ k, process_cell s md entries userid = Raise (KeyError k)
       ∧ insert_cell s md entries userid = (Retry (KeyError k), s, []).
Proof.
  intros Hne Hbad.
  destruct (process_cell s md entries userid) as [r|e] eqn:Hrun.
  - apply process_cell_measure_ok_inv in Hrun as [?|Hok]; [done|congruence].
  - destruct (process_cell_measure_raises _ _ _ _ _ Hrun) as [k ->].
    exists k. split; [done|]. unfold insert_cell_measure. by rewrite Hrun.
Qed.


(** C9 (amended): in a batch whose report carries id, lat and lon and whose
    entries all carry mcc and mnc and have a radio of their own or the
    report's, every entry, the incomplete ones included, gives its derived
    row, field by field as [cell_row_of] says, and the registry and the score
    calls are those that the complete entries alone give: an entry whose
    resolved radio is -1 or whose lac or cid is 0 adds its row and nothing
    else, and a batch of such entries leaves the registry and the score calls
    as they were. A non-empty batch whose report or entries lack one of these
    keys raises [KeyError]: no row of it is persisted, and the insert task
    commits nothing and is handed to retry. *)
Theorem incomplete_cell_entries_not_counted (s : session)
    (md : measure_data) (entries : list cell_entry) (userid : option Z) :
  (report_ok md = true →
   forallb (cell_entry_ok md) entries = true →
   ∃ s' rows s'' rows'',
     process_cell s md entries userid = Ok (s', rows)
     ∧ Forall2 (cell_row_of decode_datetime RADIO_TYPE md) entries rows
     ∧ cell_measure s' = cell_measure s ++ rows
     ∧ process_cell s md
         (List.filter (λ e, negb (entry_incomplete RADIO_TYPE md e)) entries)
         userid = Ok (s'', rows'')
     ∧ cell s' = cell s'' ∧ score s' = score s''
     ∧ (forallb (entry_incomplete RADIO_TYPE md) entries = true →
        cell s' = cell s ∧ score s' = score s))
  ∧ (entries ≠ [] →
     report_ok md && forallb (cell_entry_ok md) entries = false →
     ∃ k, process_cell s md entries userid = Raise (KeyError k)
          ∧ insert_cell s md entries userid = (Retry (KeyError k), s, [])).
Proof.
  split; [|apply cell_batch_not_ok].
  intros Hmd Hok.
  destruct (process_cell_entries_ok decode_datetime RADIO_TYPE md userid
              entries Hmd Hok s [] [])
    as (s1 & rows & rows' & H1 & H2 & H3 & H4).
  assert (process_cell s md entries userid
          = Ok (add_all_cell rows s1, rows)) as Hrun
    by (unfold process_cell_measure; by rewrite H1).
  eexists _, _, _, _. split; [exact Hrun|].
  split; [by eapply process_cell_measure_rows|].
  unfold process_cell_measure. rewrite H3. simpl.
  split_and!; try done.
  - by rewrite H4.
  - intros Hall.
    rewrite (filter_all_incomplete RADIO_TYPE) in H3 by done.
    simpl in H3. by simplify_eq.
Qed.


(** C4 (amended): for a report that carries id, lat and lon, a batch whose
    entries all carry their required keys (mcc and mnc of a cell entry, with
    a radio of its own or the report's; key of a wifi entry, and its channel
    when it gives a frequency other than 0) is processed entry by entry, one
    derived row each, field by field as [cell_row_of] and [wifi_row_of] say:
    absent optional fields are 0. A batch with an entry that lacks mcc or mnc
    (cell) or its key (wifi) raises [KeyError]: the entry is neither
    defaulted nor skipped, and the insert task commits nothing and is handed
    to retry. *)
Theorem missing_required_key_aborts_batch (s : session) (md : measure_data)
    (cells : list cell_entry) (wifis : list wifi_entry) (userid : option Z) :
  (report_ok md = true →
   forallb (cell_entry_ok md) cells = true →
   ∃ s' rows, process_cell s md cells userid = Ok (s', rows)
              ∧ Forall2 (cell_row_of decode_datetime RADIO_TYPE md) cells rows
              ∧ length rows = length cells
              ∧ cell_measure s' = cell_measure s ++ rows)
  ∧ (report_ok md = true →
     forallb wifi_entry_ok wifis = true →
     ∃ s' rows, process_wifi s md wifis userid = Ok (s', rows)
                ∧ Forall2 (wifi_row_of decode_datetime md) wifis rows
                ∧ length rows = length wifis
                ∧ wifi_measure s' = wifi_measure s ++ rows)
  ∧ (forallb (λ e, negb (is_null (e_mcc e)) && negb (is_null (e_mnc e))) cells
     = false →
     ∃ k, process_cell s md cells userid = Raise (KeyError k)
          ∧ insert_cell s md cells userid = (Retry (KeyError k), s, []))
  ∧ (forallb (λ e, negb (is_null (w_key e))) wifis = false →
     process_wifi s md wifis userid = Raise (KeyError "key")
     ∧ insert_wifi s md wifis userid = (Retry (KeyError "key"), s, [])).
Proof.
  split_and!.
  - intros Hmd Hok.
    destruct (process_cell_measure_ok decode_datetime RADIO_TYPE s md cells
                userid Hmd Hok) as (s' & rows & H1 & H2 & H3).
    exists s', rows. split_and!; try done.
    by eapply process_cell_measure_rows.
  - intros Hmd Hok.
    destruct (process_wifi_measure_ok decode_datetime s md wifis userid Hmd Hok)
      as (s' & rows & H1 & H2 & H3 & _).
    exists s', rows. split_and!; try done.
    + by eapply process_wifi_measure_rows.
    + apply (f_equal length) in H2. by rewrite !length_map in H2.
  - intros Hbad.
    destruct (process_cell_measure_missing decode_datetime RADIO_TYPE s md
                cells userid Hbad) as [k Hk].
    exists k. split; [done|]. unfold insert_cell_measure. by rewrite Hk.
  - intros Hbad.
    pose proof (process_wifi_measure_missing decode_datetime s md wifis userid
                  Hbad) as Hk.
    split; [done|]. unfold insert_wifi_measure. by rewrite Hk.
Qed.

End BatchRows.

(** ** The statements on batches at concrete inputs *)

Lemma incomplete_cell_entries_not_counted_witness :
  (∃ s' rows s'' rows'',
     process_cell_measure text_datetime example_radio_type empty_session
       example_report [cell_without_lac; gsm_entry; cell_without_lac]
       (Some 42)
     = Ok (s', rows)
     ∧ Forall2 (cell_row_of text_datetime example_radio_type example_report)
         [cell_without_lac; gsm_entry; cell_without_lac] rows
     ∧ cell_measure s' = cell_measure empty_session ++ rows
     ∧ process_cell_measure text_datetime example_radio_type empty_session
         example_report [gsm_entry] (Some 42)
       = Ok (s'', rows'')
     ∧ cell s' = cell s'' ∧ score s' = score s'')
  ∧ (∃ k,
       process_cell_measure text_datetime example_radio_type empty_session
         example_report [cell_without_lac; cell_without_mcc] (Some 42)
       = Raise (KeyError k)
       ∧ insert_cell_measure text_datetime example_radio_type commit_accepts
           empty_session example_report [cell_without_lac; cell_without_mcc]
           (Some 42)
         = (Retry (KeyError k), empty_session, [])).
Proof.
  split.
  - destruct (proj1 (incomplete_cell_entries_not_counted text_datetime
                example_radio_type commit_accepts empty_session example_report
                [cell_without_lac; gsm_entry; cell_without_lac] (Some 42))
                eq_refl eq_refl)
      as (s' & rows & s'' & rows'' & H1 & H2 & H3 & H4 & H5 & H6 & _).
    exists s', rows, s'', rows''.
    split; [exact H1|]. split; [exact H2|]. split; [exact H3|].
    split; [exact H4|]. split; [exact H5|exact H6].
  - apply (proj2 (incomplete_cell_entries_not_counted text_datetime
             example_radio_type commit_accepts empty_session example_report
             [cell_without_lac; cell_without_mcc] (Some 42))).
    + discriminate.
    + reflexivity.
Defined.

(** A cell entry without lac, and so incomplete, that also lacks its mcc
    gives no row: the batch raises, alone or next to a sibling. *)
Lemma incomplete_cell_entry_without_mcc_gives_no_row :
  process_cell_measure text_datetime example_radio_type empty_session
    example_report [cell_without_mcc_lac] (Some 42)
  = Raise (KeyError "mcc")
  ∧ insert_cell_measure text_datetime example_radio_type commit_accepts
      empty_session example_report [cell_without_mcc_lac] (Some 42)
    = (Retry (KeyError "mcc"), empty_session, [])
  ∧ process_cell_measure text_datetime example_radio_type empty_session
      example_report [cell_without_lac; cell_without_mcc] (Some 42)
    = Raise (KeyError "mcc")
  ∧ insert_cell_measure text_datetime example_radio_type commit_accepts
      empty_session example_report [cell_without_lac; cell_without_mcc]
      (Some 42)
    = (Retry (KeyError "mcc"), empty_session, []).
Proof. split; [|split; [|split]]; reflexivity. Qed.



Lemma missing_required_key_aborts_batch_witness :
  (∃ s' rows,
     process_cell_measure text_datetime example_radio_type empty_session
       example_report [cell_without_lac; gsm_entry] None = Ok (s', rows)
     ∧ Forall2 (cell_row_of text_datetime example_radio_type example_report)
         [cell_without_lac; gsm_entry] rows
     ∧ length rows = 2%nat
     ∧ cell_measure s' = cell_measure empty_session ++ rows)
  ∧ (∃ s' rows,
       process_wifi_measure text_datetime empty_session example_report
         [wifi_ab; wifi_cd] None = Ok (s', rows)
       ∧ Forall2 (wifi_row_of text_datetime example_report)
           [wifi_ab; wifi_cd] rows
       ∧ length rows = 2%nat
       ∧ wifi_measure s' = wifi_measure empty_session ++ rows)
  ∧ (∃ k,
       process_cell_measure text_datetime example_radio_type empty_session
         example_report [cell_without_mcc; gsm_entry] None
       = Raise (KeyError k)
       ∧ insert_cell_measure text_datetime example_radio_type commit_accepts
           empty_session example_report [cell_without_mcc; gsm_entry] None
         = (Retry (KeyError k), empty_session, []))
  ∧ (process_wifi_measure text_datetime empty_session example_report
       [wifi_without_key; wifi_cd] None
     = Raise (KeyError "key")
     ∧ insert_wifi_measure text_datetime commit_accepts empty_session
         example_report [wifi_without_key; wifi_cd] None
       = (Retry (KeyError "key"), empty_session, [])).
Proof.
  split; [|split; [|split]].
  - apply (proj1 (missing_required_key_aborts_batch text_datetime
             example_radio_type commit_accepts empty_session example_report
             [cell_without_lac; gsm_entry] [] None)); reflexivity.
  - apply (proj1 (proj2 (missing_required_key_aborts_batch text_datetime
             example_radio_type commit_accepts empty_session example_report
             [] [wifi_ab; wifi_cd] None))); reflexivity.
  - apply (proj1 (proj2 (proj2 (missing_required_key_aborts_batch text_datetime
             example_radio_type commit_accepts empty_session example_report
             [cell_without_mcc; gsm_entry] [] None)))); reflexivity.
  - apply (proj2 (proj2 (proj2 (missing_required_key_aborts_batch text_datetime
             example_radio_type commit_accepts empty_session example_report
             [] [wifi_without_key; wifi_cd] None)))); reflexivity.
Defined.
